(** * Pyright type evaluator core: narrowing, constraint solving, tree predicates

    A shallow embedding of [typeGuards.ts] (type narrowing), of the constraint
    solver ([assignTypeToTypeVar], [assignTypeToParamSpec],
    [populateTypeVarContextBasedOnExpectedType]) and of
    [ParseTreeUtils.isMatchingExpression], with the properties the
    specification states about them.

    Conventions.  A TypeScript [T | undefined] is an [option T].  The
    diagnostic addendum ([diag]) is a write-only sink that never influences a
    result or the type-variable context, so it is left out.  The evaluator is
    a record of capabilities; the solver and the narrowing engine never look
    inside it. *)

From Stdlib Require Import ZArith List String Bool Arith Lia.
From Stdlib Require Import DecimalString.
Import ListNotations.
Open Scope string_scope.

Set Implicit Arguments.
Set Warnings "-register-all".

(** [o !== undefined] *)
Definition isSome (A : Type) (o : option A) : bool :=
  match o with Some _ => true | None => false end.

(** ** Parse nodes (the fragment the narrowing engine inspects) *)

Module ParseNodes.

Inductive OperatorType : Set :=
| OpIs | OpIsNot | OpEquals | OpNotEquals | OpIn | OpNotIn
| OpNot | OpSubtract | OpOther (code : nat).

Inductive KeywordType : Set :=
| KwNone | KwTrue | KwFalse | KwDebug | KwOther (code : nat).

Inductive ArgumentCategory : Set :=
| Simple | UnpackedList | UnpackedDictionary.

(** The value of a number literal: the tokenizer yields a JavaScript
    [number] (integral or not) or, for a large integer, a [bigint]; a
    [number] and a [bigint] never compare equal with [===]. *)
Inductive NumberValue : Set :=
| JsNumber (z : Z)
| JsFraction (numerator : Z) (denominator : positive)
| JsBigInt (z : Z).

(** An element of [StringListNode.strings]. *)
Inductive StringPart : Set :=
| StringNode (value : string)
| FormatStringNode (value : string).

(** Expression nodes.  Every node carries its [id]; node identity ([===]
    on nodes) is identity of ids.  The [items] of an index node are never
    empty (a subscript holds at least one item): they are given as the
    first item and the others. *)
Inductive Expr : Set :=
| Name (id : nat) (value : string)
| MemberAccess (id : nat) (leftExpression : Expr) (memberName : string)
| Index (id : nat) (baseExpression : Expr)
        (item0 : Argument) (moreItems : list Argument)
        (trailingComma : bool)
| Call (id : nat) (leftExpression : Expr) (arguments : list Argument)
| BinaryOperation (id : nat) (leftExpression : Expr)
                  (operator : OperatorType) (rightExpression : Expr)
| UnaryOperation (id : nat) (operator : OperatorType) (expression : Expr)
| Number (id : nat) (value : NumberValue) (isInteger isImaginary : bool)
| StringList (id : nat) (strings : list StringPart)
| Constant (id : nat) (constType : KeywordType)
| AssignmentExpression (id : nat) (name : Expr) (rightExpression : Expr)
| OtherExpression (id : nat) (nodeType : nat)
with Argument : Set :=
| mkArgument (argumentCategory : ArgumentCategory)
             (name : option string) (valueExpression : Expr).

Definition nodeId (e : Expr) : nat :=
  match e with
  | Name i _ | MemberAccess i _ _ | Index i _ _ _ _ | Call i _ _
  | BinaryOperation i _ _ _ | UnaryOperation i _ _ | Number i _ _ _
  | StringList i _ | Constant i _ | AssignmentExpression i _ _
  | OtherExpression i _ => i
  end.

Definition argumentCategory (a : Argument) : ArgumentCategory :=
  let 'mkArgument c _ _ := a in c.
Definition argName (a : Argument) : option string :=
  let 'mkArgument _ n _ := a in n.
Definition valueExpression (a : Argument) : Expr :=
  let 'mkArgument _ _ v := a in v.

Definition isSimple (c : ArgumentCategory) : bool :=
  match c with Simple => true | _ => false end.

Definition numberValue_eqb (a b : NumberValue) : bool :=
  match a, b with
  | JsNumber x, JsNumber y => Z.eqb x y
  | JsFraction n d, JsFraction m e => Z.eqb n m && Pos.eqb d e
  | JsBigInt x, JsBigInt y => Z.eqb x y
  | _, _ => false
  end.

(** [typeof value === 'number'] *)
Definition isJsNumber (a : NumberValue) : bool :=
  match a with JsBigInt _ => false | _ => true end.

(** The value of the name an assignment expression assigns to
    ([expression.name.value]); [name] is always a [NameNode]. *)
Definition nameValue (e : Expr) : string :=
  match e with Name _ v => v | _ => "" end.

End ParseNodes.
Import ParseNodes.

(** ** The type model *)

Module Types.

Inductive Variance : Set := Invariant | Covariant | Contravariant.

Inductive LiteralValue : Set :=
| LitBool (b : bool)
| LitInt (z : Z)
| LitBigInt (z : Z)
| LitStr (s : string)
| LitBytes (s : string)
| LitEnum (className itemName : string).

Record TypeCondition : Set := mkTypeCondition {
  typeVarName : string;
  constraintIndex : nat;
  isConstrainedTypeVar : bool
}.

(** A class symbol.  Its type is not stored in it: the evaluator computes
    it ([getEffectiveTypeOfSymbol]). *)
Record Symbol : Set := mkSymbol {
  symbolId : nat;
  ignoredForProtocolMatch : bool
}.

Inductive ParameterCategory : Set := ParamSimple | VarArgList | VarArgDictionary.

(** The part of [ClassType.details] that holds no type.  The linearised
    ancestors are named by their full names, the class itself first; an
    [Unknown] entry of the MRO is [None]. *)
Record ClassDetails : Set := mkClassDetails {
  name : string;
  fullName : string;
  typeSourceId : nat;
  flagBuiltIn : bool;
  flagEnumClass : bool;
  flagTypedDictClass : bool;
  flagTupleClass : bool;
  flagFinal : bool;
  mro : list (option string);
  typeVarScopeId : option string;
  fields : list (string * Symbol)
}.

(** The records below are parameterised by the type of types so that
    [Ty] can nest them. *)
Section Records.
Variable T : Set.

Record TupleTypeArgumentOf : Set := mkTupleTypeArgument {
  tupleArgType : T;
  isUnbounded : bool
}.

Record TypeVarTypeOf : Set := mkTypeVarType {
  tvName : string;
  scopeId : option string;
  boundType : option T;
  constraints : list T;
  declaredVariance : Variance;
  isParamSpec : bool;
  isVariadic : bool;
  isVariadicUnpacked : bool;
  isSynthesized : bool;
  isSynthesizedSelf : bool;
  synthesizedIndex : option nat;
  isExemptFromBoundCheck : bool;
  tvInstantiable : bool;
  tvCondition : option (list TypeCondition)
}.

Record ClassTypeOf : Set := mkClassType {
  details : ClassDetails;
  classInstantiable : bool;
  typeParameters : list TypeVarTypeOf;
  typeArguments : option (list T);
  tupleTypeArguments : option (list TupleTypeArgumentOf);
  literalValue : option LiteralValue;
  classCondition : option (list TypeCondition);
  isUnpackedClass : bool;
  typeGuardType : option T;
  isStrictTypeGuard : bool
}.

Record FunctionParameterOf : Set := mkFunctionParameter {
  category : ParameterCategory;
  paramName : option string;
  isNameSynthesized : bool;
  hasDefault : bool;
  paramType : T
}.

Record FunctionTypeOf : Set := mkFunctionType {
  fnFullName : string;
  builtInName : option string;
  parameters : list FunctionParameterOf;
  fnFlags : Z;
  fnTypeVarScopeId : option string;
  docString : option string;
  fnParamSpec : option TypeVarTypeOf;
  declaredReturnType : option T;
  fnCondition : option (list TypeCondition)
}.
End Records.

Inductive Ty : Set :=
| Unbound
| Unknown
| Any
| NoneT (instantiable : bool) (condition : option (list TypeCondition))
| Never
| Module
| Function (f : FunctionTypeOf Ty)
| OverloadedFunction (overloads : list (FunctionTypeOf Ty))
| Class (c : ClassTypeOf Ty)
| TypeVar (t : TypeVarTypeOf Ty)
| Union (subtypes : list Ty).

Definition TupleTypeArgument : Set := TupleTypeArgumentOf Ty.
Definition TypeVarType : Set := TypeVarTypeOf Ty.
Definition ClassType : Set := ClassTypeOf Ty.
Definition FunctionParameter : Set := FunctionParameterOf Ty.
Definition FunctionType : Set := FunctionTypeOf Ty.

End Types.
Import Types.

(** ** Helpers of [types.ts] *)

(** Modelled from the spec: [types.ts] is not among the sources; the tag
    tests, flag tests and clone operations from here to [TypeVarType_]
    follow section 3 of the specification (a tagged sum, an [instantiable]
    bit and an optional condition list per variant, class flags, literal
    values, declared variance). *)

Module TypeBase.
Definition isInstantiable (t : Ty) : bool :=
  match t with
  | NoneT i _ => i
  | Class c => classInstantiable c
  | TypeVar v => tvInstantiable v
  | _ => false
  end.
End TypeBase.

Definition isAny (t : Ty) : bool := match t with Any => true | _ => false end.
Definition isUnknown (t : Ty) : bool := match t with Unknown => true | _ => false end.
Definition isAnyOrUnknown (t : Ty) : bool := isAny t || isUnknown t.
Definition isNever (t : Ty) : bool := match t with Never => true | _ => false end.
Definition isUnion (t : Ty) : bool := match t with Union _ => true | _ => false end.
Definition isTypeVar (t : Ty) : bool := match t with TypeVar _ => true | _ => false end.
Definition isClass (t : Ty) : bool := match t with Class _ => true | _ => false end.
Definition isFunction (t : Ty) : bool := match t with Function _ => true | _ => false end.
Definition isOverloadedFunction (t : Ty) : bool :=
  match t with OverloadedFunction _ => true | _ => false end.
Definition isModule (t : Ty) : bool := match t with Module => true | _ => false end.
Definition isClassInstance (t : Ty) : bool :=
  match t with Class c => negb (classInstantiable c) | _ => false end.
Definition isInstantiableClass (t : Ty) : bool :=
  match t with Class c => classInstantiable c | _ => false end.
Definition isNoneInstance (t : Ty) : bool :=
  match t with NoneT i _ => negb i | _ => false end.
Definition isVariadicTypeVar (t : TypeVarType) : bool := isVariadic t.
Definition isUnpacked (t : Ty) : bool :=
  match t with
  | Class c => isUnpackedClass c
  | TypeVar v => isVariadic v && isVariadicUnpacked v
  | _ => false
  end.

Definition getTypeCondition (t : Ty) : option (list TypeCondition) :=
  match t with
  | NoneT _ c => c
  | Class c => classCondition c
  | TypeVar v => tvCondition v
  | Function f => fnCondition f
  | _ => None
  end.

Module NoneType.
Definition createInstance : Ty := NoneT false None.
End NoneType.

Module ClassType_.
Definition isBuiltIn (c : ClassType) (className : string) : bool :=
  flagBuiltIn (details c) && String.eqb (name (details c)) className.
Definition isBuiltInAny (c : ClassType) (classNames : list string) : bool :=
  flagBuiltIn (details c)
  && existsb (fun n => String.eqb n (name (details c))) classNames.
Definition isEnumClass (c : ClassType) : bool := flagEnumClass (details c).
Definition isTypedDictClass (c : ClassType) : bool := flagTypedDictClass (details c).
Definition isTupleClass (c : ClassType) : bool := flagTupleClass (details c).
Definition isFinal (c : ClassType) : bool := flagFinal (details c).
Definition derivesFromAnyOrUnknown (c : ClassType) : bool :=
  existsb (fun base => match base with None => true | Some _ => false end)
    (mro (details c)).

(** Two classes are the same generic class when they share their details
    (the declaration they come from), whatever their specialisation. *)
Definition isSameGenericClass (a b : ClassType) : bool :=
  String.eqb (fullName (details a)) (fullName (details b))
  && Nat.eqb (typeSourceId (details a)) (typeSourceId (details b)).

Definition literalValue_eqb (a b : LiteralValue) : bool :=
  match a, b with
  | LitBool x, LitBool y => Bool.eqb x y
  | LitInt x, LitInt y => Z.eqb x y
  | LitBigInt x, LitBigInt y => Z.eqb x y
  | LitStr x, LitStr y => String.eqb x y
  | LitBytes x, LitBytes y => String.eqb x y
  | LitEnum c x, LitEnum d y => String.eqb c d && String.eqb x y
  | _, _ => false
  end.

Definition isLiteralValueSame (a b : ClassType) : bool :=
  match literalValue a, literalValue b with
  | None, None => true
  | Some x, Some y => literalValue_eqb x y
  | _, _ => false
  end.

Definition cloneWithLiteral (c : ClassType) (v : option LiteralValue) : ClassType :=
  mkClassType (details c) (classInstantiable c) (typeParameters c)
    (typeArguments c) (tupleTypeArguments c) v (classCondition c)
    (isUnpackedClass c) (typeGuardType c) (isStrictTypeGuard c).

Definition cloneForCondition (c : ClassType) (cond : option (list TypeCondition))
  : ClassType :=
  mkClassType (details c) (classInstantiable c) (typeParameters c)
    (typeArguments c) (tupleTypeArguments c) (literalValue c) cond
    (isUnpackedClass c) (typeGuardType c) (isStrictTypeGuard c).

Definition cloneForSpecialization (c : ClassType) (args : list Ty)
  : ClassType :=
  mkClassType (details c) (classInstantiable c) (typeParameters c)
    (Some args) (tupleTypeArguments c) (literalValue c)
    (classCondition c) (isUnpackedClass c) (typeGuardType c)
    (isStrictTypeGuard c).

Definition cloneAsInstantiable (c : ClassType) : ClassType :=
  mkClassType (details c) true (typeParameters c)
    (typeArguments c) (tupleTypeArguments c) (literalValue c)
    (classCondition c) (isUnpackedClass c) (typeGuardType c)
    (isStrictTypeGuard c).
End ClassType_.

Definition isLiteralType (c : ClassType) : bool :=
  negb (classInstantiable c)
  && match literalValue c with Some _ => true | None => false end.
Definition isLiteralTypeOrUnion (t : Ty) : bool :=
  match t with
  | Class c => isLiteralType c
  | Union l =>
      forallb (fun s => match s with Class c => isLiteralType c | _ => false end) l
  | _ => false
  end.

Definition isTupleClass (c : ClassType) : bool := ClassType_.isTupleClass c.
Definition isUnboundedTupleClass (c : ClassType) : bool :=
  match tupleTypeArguments c with
  | Some args => existsb (@isUnbounded Ty) args
  | None => false
  end.

Module Variance_.
Definition eqb (a b : Variance) : bool :=
  match a, b with
  | Invariant, Invariant | Covariant, Covariant
  | Contravariant, Contravariant => true
  | _, _ => false
  end.
End Variance_.

Module TypeVarType_.
Definition getVariance (t : TypeVarType) : Variance := declaredVariance t.

(** A new type variable of the given name: an instance, invariant, with
    neither scope nor bound nor constraints. *)
Definition createInstance (name : string) : TypeVarType :=
  mkTypeVarType name None None [] Invariant false false false false false
    None false false None.

Definition synthesizedDest (name : string) (scope : option string)
  : TypeVarType :=
  mkTypeVarType name scope None [] Invariant false false false true false
    None false false None.

Definition synthesizedSource (name : string) (index : nat) : TypeVarType :=
  mkTypeVarType name None None [] Invariant false false false true false
    (Some index) true false None.
End TypeVarType_.

(** ** The type-variable context *)

Record TypeVarMapEntry : Set := mkTypeVarMapEntry {
  typeVar : TypeVarType;
  narrowBound : option Ty;
  wideBound : option Ty;
  retainLiteral : option bool
}.

Record ParamSpecEntry : Set := mkParamSpecEntry {
  pseCategory : ParameterCategory;
  pseName : option string;
  pseIsNameSynthesized : bool;
  pseHasDefault : bool;
  pseType : Ty
}.

Record ParamSpecValue : Set := mkParamSpecValue {
  psFlags : Z;
  psParameters : list ParamSpecEntry;
  psTypeVarScopeId : option string;
  psDocString : option string;
  psParamSpec : option TypeVarType
}.

Record TypeVarContext : Set := mkTypeVarContext {
  solveForScopes : option (list string);
  locked : bool;
  typeVarMap : list (string * TypeVarMapEntry);
  paramSpecMap : list (string * ParamSpecValue)
}.

(** A JavaScript [Map] keyed by strings: insertion order is kept, and a
    [set] on a key already present replaces the value in place. *)
Section StringMap.
Variable V : Set.

Fixpoint mapGet (k : string) (m : list (string * V)) : option V :=
  match m with
  | [] => None
  | (k', v) :: r => if String.eqb k' k then Some v else mapGet k r
  end.

Fixpoint mapSet (k : string) (v : V) (m : list (string * V))
  : list (string * V) :=
  match m with
  | [] => [(k, v)]
  | (k', v') :: r =>
      if String.eqb k' k then (k, v) :: r else (k', v') :: mapSet k v r
  end.
End StringMap.

Module TypeVarContext_.

(** Modelled from the spec: [typeVarContext.ts] is not among the sources.
    [new TypeVarContext(scopeId)]: an empty, unlocked context that solves
    for the given scope (for none when the scope id is absent). *)
Definition create (solveForScope : option string) : TypeVarContext :=
  mkTypeVarContext
    (match solveForScope with Some s => Some [s] | None => None end)
    false [] [].

(** Modelled from the spec: the key of a type variable in the context's
    maps, its name qualified by its scope ([typeVarContext.ts] is not among
    the sources). *)
Definition getKey (reference : TypeVarType) : string :=
  match scopeId reference with
  | Some s => tvName reference ++ "." ++ s
  | None => tvName reference
  end.

(** Modelled from the spec: [has_solve_for_scope(scope_id)], a membership
    test ([typeVarContext.ts] is not among the sources). *)
Definition hasSolveForScope (ctx : TypeVarContext) (scope : option string)
  : bool :=
  match scope, solveForScopes ctx with
  | Some s, Some l => existsb (String.eqb s) l
  | _, _ => false
  end.

(** Modelled from the spec: [get(type_var)], a lookup whose misses return
    absent ([typeVarContext.ts] is not among the sources). *)
Definition getTypeVar (ctx : TypeVarContext) (reference : TypeVarType)
  : option TypeVarMapEntry :=
  mapGet (getKey reference) (typeVarMap ctx).

(** Modelled from the spec: the binding of a type variable, its narrow
    bound when there is one and its wide bound otherwise
    ([typeVarContext.ts] is not among the sources). *)
Definition getTypeVarType (ctx : TypeVarContext) (reference : TypeVarType)
  : option Ty :=
  match getTypeVar ctx reference with
  | Some e =>
      match narrowBound e with Some n => Some n | None => wideBound e end
  | None => None
  end.

(** Modelled from the spec: [get_param_spec(type_var)]
    ([typeVarContext.ts] is not among the sources). *)
Definition getParamSpec (ctx : TypeVarContext) (reference : TypeVarType)
  : option ParamSpecValue :=
  mapGet (getKey reference) (paramSpecMap ctx).

(** Modelled from the spec: the entries of the context in insertion order
    ([typeVarContext.ts] is not among the sources). *)
Definition getTypeVars (ctx : TypeVarContext) : list TypeVarMapEntry :=
  map snd (typeVarMap ctx).

(** Modelled from the spec: whether literals are retained for a type
    variable, false when it has no entry ([typeVarContext.ts] is not among
    the sources). *)
Definition getRetainLiterals (ctx : TypeVarContext) (reference : TypeVarType)
  : bool :=
  match getTypeVar ctx reference with
  | Some e => match retainLiteral e with Some b => b | None => false end
  | None => false
  end.

Definition isLocked (ctx : TypeVarContext) : bool := locked ctx.


(** Modelled from the spec: [set(type_var, narrow?, wide?,
    retain_literals?)] replaces the entry, and is a no-op on a locked
    context ([typeVarContext.ts] is not among the sources). *)
Definition setTypeVarType (ctx : TypeVarContext) (reference : TypeVarType)
  (narrow wide : option Ty) (retain : option bool) : TypeVarContext :=
  if locked ctx then ctx
  else
    mkTypeVarContext (solveForScopes ctx) (locked ctx)
      (mapSet (getKey reference)
         (mkTypeVarMapEntry reference narrow wide retain) (typeVarMap ctx))
      (paramSpecMap ctx).

(** Modelled from the spec: [set_param_spec(type_var, binding)] records a
    parameter-specification binding, and is a no-op on a locked context
    ([typeVarContext.ts] is not among the sources). *)
Definition setParamSpec (ctx : TypeVarContext) (reference : TypeVarType)
  (value : ParamSpecValue) : TypeVarContext :=
  if locked ctx then ctx
  else
    mkTypeVarContext (solveForScopes ctx) (locked ctx) (typeVarMap ctx)
      (mapSet (getKey reference) value (paramSpecMap ctx)).

End TypeVarContext_.

(** What the assignability judgment does to a context it is handed: it
    reaches the context only through the context's own write operations. *)
Inductive ContextWrite : Set :=
| CtxSetTypeVarType (reference : TypeVarType) (narrow wide : option Ty)
                   (retain : option bool)
| CtxSetParamSpec (reference : TypeVarType) (value : ParamSpecValue).

Definition applyWrite (ctx : TypeVarContext) (w : ContextWrite) : TypeVarContext :=
  match w with
  | CtxSetTypeVarType r n wd rt => TypeVarContext_.setTypeVarType ctx r n wd rt
  | CtxSetParamSpec r v => TypeVarContext_.setParamSpec ctx r v
  end.

Definition applyWrites (ctx : TypeVarContext) (ws : list ContextWrite)
  : TypeVarContext :=
  fold_left applyWrite ws ctx.

(** ** The evaluator and the helpers of the modules that are not modelled *)

Record TypedDictEntry : Set := mkTypedDictEntry {
  valueType : Ty;
  isRequired : bool;
  isProvided : bool
}.

Inductive DeclarationType : Set :=
| DeclVariable | DeclParameter | DeclOther (code : nat).

Inductive ScopeType : Set :=
| ScopeFunction | ScopeModule | ScopeOther (code : nat).

(** A declaration of a local variable, as [getDeclsForLocalVar] looks at it:
    [declNode] is the id of [decl.node], [declScopeNode] the id of the
    execution scope of the node to consider, [inferredTypeSource] the
    expression the variable was assigned (absent, or a node that is not an
    expression, is [None]). *)
Record Declaration : Set := mkDeclaration {
  declType : DeclarationType;
  declNode : nat;
  declScopeNode : nat;
  inferredTypeSource : option Expr;
  inferredTypeSourceIsExpression : bool
}.

(** The capabilities of [TypeEvaluator] the core calls.  [assignType] is
    given the destination context (the source context is [undefined] at
    every call site of the core) and answers with its verdict and the
    writes it makes to that context. *)
Record TypeEvaluator : Type := mkTypeEvaluator {
  assignType : Ty -> Ty -> option TypeVarContext -> Z -> nat
               -> bool * list ContextWrite;
  makeTopLevelTypeVarsConcrete : Ty -> Ty;
  getTypeOfExpression : Expr -> Z -> Ty;
  getObjectType : option Ty;
  getTupleClassType : option Ty;
  getEffectiveTypeOfSymbol : Symbol -> Ty;
  isNodeReachable : nat -> nat -> bool
}.

(** The verdict of the judgment alone. *)
Definition assigns (evaluator : TypeEvaluator) (dest src : Ty)
  (ctx : option TypeVarContext) (flags : Z) (recursionCount : nat) : bool :=
  fst (assignType evaluator dest src ctx flags recursionCount).

(** The judgment run on a context of the caller: verdict and context after. *)
Definition assignTypeIn (evaluator : TypeEvaluator) (dest src : Ty)
  (ctx : TypeVarContext) (flags : Z) (recursionCount : nat)
  : bool * TypeVarContext :=
  let r := assignType evaluator dest src (Some ctx) flags recursionCount in
  (fst r, applyWrites ctx (snd r)).

(** Helpers of [types.ts], [typeUtils.ts], [typedDicts.ts], [scopeUtils.ts]
    and [parseTreeUtils.ts] that the core calls and whose code is not among
    the sources: they are parameters of the development. *)
Class TypeUtils : Type := mkTypeUtils {
  isTypeSame : Ty -> Ty -> bool;
  combineConditions : list TypeCondition -> list TypeCondition
                      -> list TypeCondition;
  stripLiteralValue : Ty -> Ty;
  containsLiteralType : Ty -> bool;
  isEffectivelyInstantiable : Ty -> bool;
  isPartlyUnknown : Ty -> bool;
  convertToInstance : Ty -> bool -> Ty;
  convertToInstantiable : Ty -> Ty;
  transformPossibleRecursiveTypeAlias : Ty -> Ty;
  transformExpectedTypeForConstructor : Ty -> TypeVarContext -> list string
                                        -> option Ty;
  convertParamSpecValueToType : ParamSpecValue -> bool -> Ty;
  getEffectiveParameterType : FunctionType -> nat -> Ty;
  specializeUnpackedTuple : Ty -> Ty -> Ty;
  getTypeVarScopeId : Ty -> option string;
  getTypedDictMembersForClass : ClassType -> bool
                                -> list (string * TypedDictEntry);
  getScopeTypeForNode : Expr -> option ScopeType;
  lookUpSymbolDeclarations : Expr -> option (list Declaration);
  isNodeContainedWithin : Expr -> Expr -> bool;
  maxTypeRecursionCount : nat
}.

Module AssignTypeFlags.
(** Modelled from the spec: the flag set of [assign_type_var]; the enum
    is declared in [typeUtils.ts], which is not among the sources.  Each
    flag is a bit of its own. *)
Definition Default : Z := 0.
Definition ReverseTypeVarMatching : Z := Z.shiftl 1 1.
Definition AllowTypeVarNarrowing : Z := Z.shiftl 1 2.
Definition SkipSolveTypeVars : Z := Z.shiftl 1 3.
Definition SkipFunctionReturnTypeCheck : Z := Z.shiftl 1 4.
Definition RetainLiteralsForTypeVar : Z := Z.shiftl 1 6.
Definition IgnoreTypeVarScope : Z := Z.shiftl 1 8.
Definition PopulatingExpectedType : Z := Z.shiftl 1 9.

Definition has (flags flag : Z) : bool := negb (Z.eqb (Z.land flags flag) 0).
End AssignTypeFlags.

(** Maximum number of unioned subtypes for an inferred type. *)
Definition maxSubtypesForInferredType : nat := 64.

Section TypeHelpers.
Context {U : TypeUtils}.

(** Modelled from the spec: [TypeCondition.combine] ([types.ts] is not
    among the sources): an absent list is neutral. *)
Definition TypeCondition_combine (c1 c2 : option (list TypeCondition))
  : option (list TypeCondition) :=
  match c1, c2 with
  | None, _ => c2
  | _, None => c1
  | Some a, Some b => Some (combineConditions a b)
  end.

Definition addTypeIfUnique (acc : list Ty) (t : Ty) : list Ty :=
  if existsb (fun x => isTypeSame x t) acc then acc else acc ++ [t].

Definition expandUnion (t : Ty) : list Ty :=
  match t with Union l => l | _ => [t] end.

(** Modelled from the spec: [combineTypes] ([types.ts] is not among the
    sources).  [Never] is dropped; an [Unknown] or [Any] member absorbs
    the rest; unions are flattened (invariant I1) and duplicates are
    dropped; a single remaining member is returned as it is. *)
Definition combineTypes (subtypes : list Ty) : Ty :=
  let subtypes := filter (fun t => negb (isNever t)) subtypes in
  match subtypes with
  | [] => Never
  | _ =>
      if existsb isAnyOrUnknown subtypes then
        if existsb isUnknown subtypes then Unknown else Any
      else
        match subtypes with
        | [t] => t
        | _ =>
            match fold_left addTypeIfUnique
                    (flat_map expandUnion subtypes) [] with
            | [] => Unknown
            | [t] => t
            | l => Union l
            end
        end
  end.

(** Modelled from the spec: [addConditionToType] ([typeUtils.ts] is not
    among the sources): the condition list is attached to the variants
    that carry one. *)
Fixpoint addConditionToType (t : Ty) (condition : option (list TypeCondition))
  : Ty :=
  match condition with
  | None => t
  | Some _ =>
      match t with
      | NoneT i c => NoneT i (TypeCondition_combine c condition)
      | Class c =>
          Class (ClassType_.cloneForCondition c
                   (TypeCondition_combine (classCondition c) condition))
      | Function f =>
          Function (mkFunctionType (fnFullName f) (builtInName f)
                      (parameters f) (fnFlags f) (fnTypeVarScopeId f)
                      (docString f) (fnParamSpec f) (declaredReturnType f)
                      (TypeCondition_combine (fnCondition f) condition))
      | Union l =>
          combineTypes (map (fun s => addConditionToType s condition) l)
      | _ => t
      end
  end.

(** The accumulation loop of [mapSubtypes], with the state [S] that the
    callback's closure reads and writes. *)
Fixpoint mapSubtypesLoop (S : Type) (callback : S -> Ty -> S * option Ty)
  (s : S) (subtypes : list Ty) : S * list Ty :=
  match subtypes with
  | [] => (s, [])
  | t :: r =>
      let '(s1, x) := callback s t in
      let '(s2, xs) := mapSubtypesLoop callback s1 r in
      (s2, match x with Some y => y :: xs | None => xs end)
  end.

(** Modelled from the spec: [map_subtypes] ([typeUtils.ts] is not among
    the sources): the callback is applied to every subtype of a union, in
    order and once each; the subtypes it keeps are combined; a type that
    is not a union is passed to the callback itself, and [Never] stands
    for a dropped one.  The callback may update variables of its closure:
    their state is threaded through. *)
Definition mapSubtypesSt (S : Type) (t : Ty)
  (callback : S -> Ty -> S * option Ty) (s : S) : S * Ty :=
  match t with
  | Union l =>
      let '(s', xs) := mapSubtypesLoop callback s l in
      (s', combineTypes xs)
  | _ =>
      let '(s', x) := callback s t in
      (s', match x with Some y => y | None => Never end)
  end.

Definition mapSubtypes (t : Ty) (callback : Ty -> option Ty) : Ty :=
  snd (mapSubtypesSt t (fun (_ : unit) x => (tt, callback x)) tt).

(** Modelled from the spec: [map_subtypes_expand_typevars(t,
    condition_filter, f(expanded, unexpanded))], a method of the evaluator
    whose code is not among the sources, here without a condition filter:
    every subtype is made concrete, the callback sees each subtype of the
    concrete type together with the subtype it came from, and what it
    keeps is combined. *)
Definition mapSubtypesExpandTypeVars (evaluator : TypeEvaluator) (t : Ty)
  (callback : Ty -> Ty -> option Ty) : Ty :=
  let expandSubtype (unexpanded : Ty) : list Ty :=
    let expanded :=
      transformPossibleRecursiveTypeAlias
        (if isUnion unexpanded then unexpanded
         else makeTopLevelTypeVarsConcrete evaluator unexpanded) in
    flat_map
      (fun subtype =>
         match callback subtype unexpanded with
         | Some r =>
             [match getTypeCondition subtype with
              | Some c =>
                  match filter isConstrainedTypeVar c with
                  | [] => r
                  | c' => addConditionToType r (Some c')
                  end
              | None => r
              end]
         | None => []
         end)
      (expandUnion expanded) in
  combineTypes (flat_map expandSubtype (expandUnion t)).

End TypeHelpers.

(** ** [parseTreeUtils.ts]: matching expressions *)

Module ParseTreeUtils.

Fixpoint isMatchingExpression (reference expression : Expr) : bool :=
  match reference with
  | Name _ referenceValue =>
      match expression with
      | Name _ value => String.eqb referenceValue value
      | AssignmentExpression _ name _ =>
          String.eqb referenceValue (nameValue name)
      | _ => false
      end
  | MemberAccess _ referenceLeft referenceMember =>
      match expression with
      | MemberAccess _ leftExpression member =>
          isMatchingExpression referenceLeft leftExpression
          && String.eqb referenceMember member
      | _ => false
      end
  | Index _ referenceBase referenceItem0 _ _ =>
      match expression with
      | Index _ base item0 moreItems trailingComma =>
          if negb (isMatchingExpression referenceBase base) then false
          else if negb (Nat.eqb (List.length (item0 :: moreItems)) 1)
                  || trailingComma
                  || isSome (argName item0)
                  || negb (isSimple (argumentCategory item0))
          then false
          else
            let expr := valueExpression referenceItem0 in
            let subscriptNode := valueExpression item0 in
            match expr with
            | Number _ value _ _ =>
                match subscriptNode with
                | Number _ subscriptValue isInteger isImaginary =>
                    if isImaginary || negb isInteger then false
                    else numberValue_eqb value subscriptValue
                | _ => false
                end
            | UnaryOperation _ OpSubtract (Number _ value _ _) =>
                match subscriptNode with
                | UnaryOperation _ OpSubtract
                    (Number _ subscriptValue isInteger isImaginary) =>
                    if isImaginary || negb isInteger then false
                    else numberValue_eqb value subscriptValue
                | _ => false
                end
            | StringList _ [StringNode value] =>
                match subscriptNode with
                | StringList _ [StringNode subscriptValue] =>
                    String.eqb value subscriptValue
                | _ => false
                end
            | _ => false
            end
      | _ => false
      end
  | _ => false
  end.

End ParseTreeUtils.

(** The statement of the specification: structural equality over chains of
    names, member accesses and indexes by a scalar.  [walrus] adds the
    clause by which a name also stands for an assignment expression that
    assigns to it. *)
Module MatchingSpec.

Definition scalarEqual (a b : Expr) : bool :=
  match a, b with
  | Number _ x true false, Number _ y true false => numberValue_eqb x y
  | UnaryOperation _ OpSubtract (Number _ x true false),
    UnaryOperation _ OpSubtract (Number _ y true false) =>
      numberValue_eqb x y
  | StringList _ [StringNode x], StringList _ [StringNode y] =>
      String.eqb x y
  | _, _ => false
  end.

Definition scalarItem (item0 : Argument) (moreItems : list Argument)
  (trailingComma : bool) : option Expr :=
  match moreItems, trailingComma, item0 with
  | [], false, mkArgument Simple None e => Some e
  | _, _, _ => None
  end.

Fixpoint chainEqual (walrus : bool) (reference candidate : Expr) : bool :=
  match reference, candidate with
  | Name _ x, Name _ y => String.eqb x y
  | Name _ x, AssignmentExpression _ target _ =>
      walrus && String.eqb x (nameValue target)
  | MemberAccess _ r m, MemberAccess _ c n =>
      chainEqual walrus r c && String.eqb m n
  | Index _ r ri rm rt, Index _ c ci cm ct =>
      chainEqual walrus r c
      && match scalarItem ri rm rt, scalarItem ci cm ct with
         | Some a, Some b => scalarEqual a b
         | _, _ => false
         end
  | _, _ => false
  end.

(** The expressions that serve as reference keys: names, member-access
    chains, and indexes by one simple unnamed subscript. *)
Fixpoint supportedReference (reference : Expr) : bool :=
  match reference with
  | Name _ _ => true
  | MemberAccess _ r _ => supportedReference r
  | Index _ r item0 moreItems trailingComma =>
      supportedReference r
      && match scalarItem item0 moreItems trailingComma with
         | Some (Number _ _ isInteger isImaginary) =>
             isInteger && negb isImaginary
         | Some (UnaryOperation _ OpSubtract (Number _ _ isInteger isImaginary)) =>
             isInteger && negb isImaginary
         | Some (StringList _ [StringNode _]) => true
         | _ => false
         end
  | _ => false
  end.

End MatchingSpec.

(** ** [typeGuards.ts]: the narrowing engine *)

Module EvaluatorFlags.
Definition None_ : Z := 0.
Definition DoNotSpecialize : Z := Z.shiftl 1 1.
Definition EvaluateStringLiteralAsType : Z := Z.shiftl 1 3.
Definition ParamSpecDisallowed : Z := Z.shiftl 1 5.
Definition TypeVarTupleDisallowed : Z := Z.shiftl 1 7.
End EvaluatorFlags.

Definition TypeNarrowingCallback : Type := Ty -> Ty.

(** The narrowing functions of [typeGuards.ts] that no property below is
    about.  The dispatcher only builds closures over them, so they are
    parameters. *)
Record NarrowingOps : Type := mkNarrowingOps {
  narrowTupleTypeForIsNone : TypeEvaluator -> Ty -> bool -> NumberValue -> Ty;
  narrowTypeForTypeIs : Ty -> ClassType -> bool -> Ty;
  narrowTypeForTupleLength : TypeEvaluator -> Ty -> NumberValue -> bool -> Ty;
  narrowTypeForDiscriminatedLiteralFieldComparison :
    TypeEvaluator -> Ty -> string -> ClassType -> bool -> Ty;
  narrowTypeForDiscriminatedFieldNoneComparison :
    TypeEvaluator -> Ty -> string -> bool -> Ty;
  narrowTypeForContainerType : TypeEvaluator -> Ty -> Ty -> Ty;
  narrowTypeForTypedDictKey : TypeEvaluator -> Ty -> ClassType -> bool -> Ty;
  getIsInstanceClassTypes : Ty -> option (list Ty);
  narrowTypeForIsInstance :
    TypeEvaluator -> Ty -> list Ty -> bool -> bool -> bool -> Expr -> Ty;
  narrowTypeForCallable : TypeEvaluator -> Ty -> bool -> Expr -> bool -> Ty;
  narrowTypeForTruthiness : TypeEvaluator -> Ty -> bool -> Ty;
  narrowTypeForUserDefinedTypeGuard :
    TypeEvaluator -> Ty -> Ty -> bool -> bool -> Ty
}.

(** The answer of a function run on a bounded number of nested calls. *)
Inductive Fuelled (A : Type) : Type :=
| Finished (a : A)
| OutOfFuel.
Arguments OutOfFuel {A}.

Definition orElse (A : Type) (a b : option A) : option A :=
  match a with Some x => Some x | None => b end.
Infix "<|>" := orElse (at level 51, right associativity).

Section TypeGuards.
Context {U : TypeUtils}.
Variable N : NarrowingOps.
Variable evaluator : TypeEvaluator.

Import ParseTreeUtils.

(** The callback of [narrowTypeForIsNone] for one expanded subtype. *)
Definition narrowSubtypeForIsNone (isPositiveTest : bool)
  (subtype unexpandedSubtype : Ty) : option Ty :=
  if isAnyOrUnknown subtype then
    (* "Any" is always both None and not None. *)
    Some subtype
  else
    let adjustedSubtype :=
      match unexpandedSubtype with
      | TypeVar v =>
          if Nat.eqb (List.length (constraints v)) 0
          then unexpandedSubtype else subtype
      | _ => subtype
      end in
    match subtype with
    | Class c =>
        if negb (classInstantiable c) && ClassType_.isBuiltIn c "object" then
          Some (if isPositiveTest
                then addConditionToType NoneType.createInstance
                       (classCondition c)
                else adjustedSubtype)
        else if Bool.eqb (isNoneInstance subtype) isPositiveTest
             then Some subtype else None
    | _ =>
        if Bool.eqb (isNoneInstance subtype) isPositiveTest
        then Some subtype else None
    end.

(** Handle type narrowing for expressions of the form "x is None" and
    "x is not None". *)
Definition narrowTypeForIsNone (type : Ty) (isPositiveTest : bool) : Ty :=
  let expandedType :=
    mapSubtypes type
      (fun subtype => Some (transformPossibleRecursiveTypeAlias subtype)) in
  mapSubtypesExpandTypeVars evaluator expandedType
    (narrowSubtypeForIsNone isPositiveTest).

Definition enumerateLiteralsForType (type : ClassType)
  : option (list ClassType) :=
  if ClassType_.isBuiltIn type "bool" then
    (* Booleans have only two types: True and False. *)
    Some [ClassType_.cloneWithLiteral type (Some (LitBool true));
          ClassType_.cloneWithLiteral type (Some (LitBool false))]
  else if ClassType_.isEnumClass type then
    (* Enumerate all of the values in this enumeration. *)
    Some (flat_map
            (fun field : string * Symbol =>
               let symbol := snd field in
               if negb (ignoredForProtocolMatch symbol) then
                 match getEffectiveTypeOfSymbol evaluator symbol with
                 | Class symbolType =>
                     if negb (classInstantiable symbolType)
                        && ClassType_.isSameGenericClass type symbolType
                        && isSome (literalValue symbolType)
                     then [symbolType] else []
                 | _ => []
                 end
               else [])
            (fields (details type)))
  else None.

(** The callback of [narrowTypeForLiteralComparison] for one subtype. *)
Definition narrowSubtypeForLiteralComparison (literalType : ClassType)
  (isPositiveTest isIsOperator : bool) (subtype : Ty) : option Ty :=
  let subtype := makeTopLevelTypeVarsConcrete evaluator subtype in
  let otherwise :=
    if isPositiveTest && (isIsOperator || isNoneInstance subtype)
    then None else Some subtype in
  match subtype with
  | Class c =>
      if negb (classInstantiable c)
         && ClassType_.isSameGenericClass literalType c then
        match literalValue c with
        | Some _ =>
            let literalValueMatches :=
              ClassType_.isLiteralValueSame c literalType in
            if (literalValueMatches && negb isPositiveTest)
               || (negb literalValueMatches && isPositiveTest)
            then None else Some subtype
        | None =>
            if isPositiveTest then Some (Class literalType)
            else
              (* If we're able to enumerate all possible literal values
                 (for bool or enum), we can eliminate all others in a
                 negative test. *)
              match enumerateLiteralsForType c with
              | Some ((_ :: _) as allLiteralTypes) =>
                  Some (combineTypes
                          (map Class
                             (filter
                                (fun t =>
                                   negb (ClassType_.isLiteralValueSame
                                           t literalType))
                                allLiteralTypes)))
              | _ => Some subtype
              end
        end
      else otherwise
  | _ => otherwise
  end.

Definition narrowTypeForLiteralComparison (referenceType : Ty)
  (literalType : ClassType) (isPositiveTest isIsOperator : bool) : Ty :=
  mapSubtypes referenceType
    (narrowSubtypeForLiteralComparison literalType isPositiveTest
       isIsOperator).

Definition assignTypeDefault (dest src : Ty) : bool :=
  assigns evaluator dest src None AssignTypeFlags.Default 0.

(** The callback of [narrowTypeForDiscriminatedDictEntryComparison]; the
    state is the closure variable [canNarrow]. *)
Definition narrowSubtypeForDiscriminatedDictEntry
  (indexLiteralType literalType : ClassType) (isPositiveTest : bool)
  (canNarrow : bool) (subtype : Ty) : bool * option Ty :=
  let giveUp := (false, Some subtype) in
  match subtype with
  | Class c =>
      if negb (classInstantiable c) && ClassType_.isTypedDictClass c then
        let symbolMap := getTypedDictMembersForClass c false in
        let tdEntry :=
          match literalValue indexLiteralType with
          | Some (LitStr key) => mapGet key symbolMap
          | _ => None
          end in
        match tdEntry with
        | Some tdEntry =>
            if isLiteralTypeOrUnion (valueType tdEntry) then
              if isPositiveTest then
                (canNarrow,
                 if assignTypeDefault (valueType tdEntry) (Class literalType)
                 then Some subtype else None)
              else
                (canNarrow,
                 if assignTypeDefault (Class literalType) (valueType tdEntry)
                 then None else Some subtype)
            else giveUp
        | None => giveUp
        end
      else giveUp
  | _ => giveUp
  end.

(** Attempts to narrow a TypedDict type based on a comparison (equal or
    not equal) between a discriminating entry type that has a declared
    literal type to a literal value. *)
Definition narrowTypeForDiscriminatedDictEntryComparison
  (referenceType : Ty) (indexLiteralType literalType : ClassType)
  (isPositiveTest : bool) : Ty :=
  let '(canNarrow, narrowedType) :=
    mapSubtypesSt referenceType
      (narrowSubtypeForDiscriminatedDictEntry indexLiteralType literalType
         isPositiveTest) true in
  if canNarrow then narrowedType else referenceType.

(** The callback of [narrowTypeForDiscriminatedTupleComparison]. *)
Definition narrowSubtypeForDiscriminatedTuple
  (indexLiteralType literalType : ClassType) (isPositiveTest : bool)
  (canNarrow : bool) (subtype : Ty) : bool * option Ty :=
  let giveUp := (false, Some subtype) in
  match subtype, literalValue indexLiteralType with
  | Class c, Some (LitInt indexValue) =>
      if negb (classInstantiable c) && ClassType_.isTupleClass c
         && negb (isUnboundedTupleClass c) then
        match tupleTypeArguments c with
        | Some args =>
            if (0 <=? indexValue)%Z
               && (indexValue <? Z.of_nat (List.length args))%Z then
              match nth_error args (Z.to_nat indexValue) with
              | Some entry =>
                  let tupleEntryType := tupleArgType entry in
                  if isLiteralTypeOrUnion tupleEntryType then
                    if isPositiveTest then
                      (canNarrow,
                       if assignTypeDefault tupleEntryType (Class literalType)
                       then Some subtype else None)
                    else
                      (canNarrow,
                       if assignTypeDefault (Class literalType) tupleEntryType
                       then None else Some subtype)
                  else giveUp
              | None => giveUp
              end
            else giveUp
        | None => giveUp
        end
      else giveUp
  | _, _ => giveUp
  end.

Definition narrowTypeForDiscriminatedTupleComparison
  (referenceType : Ty) (indexLiteralType literalType : ClassType)
  (isPositiveTest : bool) : Ty :=
  let '(canNarrow, narrowedType) :=
    mapSubtypesSt referenceType
      (narrowSubtypeForDiscriminatedTuple indexLiteralType literalType
         isPositiveTest) true in
  if canNarrow then narrowedType else referenceType.

End TypeGuards.

Section NarrowingCallback.
Context {U : TypeUtils}.
Variable N : NarrowingOps.
Variable evaluator : TypeEvaluator.

Import ParseTreeUtils.

Definition typeOfExpression (e : Expr) : Ty :=
  getTypeOfExpression evaluator e EvaluatorFlags.None_.

Definition isOrIsNotOperator (op : OperatorType) : bool :=
  match op with OpIs | OpIsNot => true | _ => false end.
Definition equalsOrNotEqualsOperator (op : OperatorType) : bool :=
  match op with OpEquals | OpNotEquals => true | _ => false end.
Definition isNoneConstant (e : Expr) : bool :=
  match e with Constant _ KwNone => true | _ => false end.

(** [isClassInstance(t) && t.literalValue !== undefined] *)
Definition literalInstance (t : Ty) : option ClassType :=
  match t with
  | Class c =>
      if negb (classInstantiable c) && isSome (literalValue c)
      then Some c else None
  | _ => None
  end.

(** [isClassInstance(t) && (isEnumClass(t) || isBuiltIn(t, 'bool')) &&
    t.literalValue !== undefined] *)
Definition enumOrBoolLiteralInstance (t : Ty) : option ClassType :=
  match t with
  | Class c =>
      if negb (classInstantiable c)
         && (ClassType_.isEnumClass c || ClassType_.isBuiltIn c "bool")
         && isSome (literalValue c)
      then Some c else None
  | _ => None
  end.

(** The patterns on [is], [is not], [==] and [!=]. *)
Definition comparisonCallback (reference leftExpression : Expr)
  (operator : OperatorType) (rightExpression : Expr)
  (isPositiveTest : bool) : option TypeNarrowingCallback :=
  let isOrIsNot := isOrIsNotOperator operator in
  let equalsOrNotEquals := equalsOrNotEqualsOperator operator in
  (* Invert the "isPositiveTest" value if this is an "is not" operation. *)
  let adjIsPositiveTest :=
    match operator with
    | OpIs | OpEquals => isPositiveTest
    | _ => negb isPositiveTest
    end in
  (* Look for "X is None", "X is not None", "X == None", and "X != None". *)
  (if isNoneConstant rightExpression then
     let leftExpression :=
       match leftExpression with
       | AssignmentExpression _ name _ => name
       | _ => leftExpression
       end in
     if isMatchingExpression reference leftExpression then
       Some (fun type => narrowTypeForIsNone evaluator type adjIsPositiveTest)
     else
       match leftExpression with
       | Index _ base item0 moreItems trailingComma =>
           if isMatchingExpression reference base
              && Nat.eqb (List.length (item0 :: moreItems)) 1
              && negb trailingComma
              && isSimple (argumentCategory item0)
              && negb (isSome (argName item0))
           then
             match valueExpression item0 with
             | Number _ indexValue isInteger isImaginary =>
                 if isInteger && negb isImaginary && isJsNumber indexValue
                 then Some (fun type =>
                              narrowTupleTypeForIsNone N evaluator type
                                adjIsPositiveTest indexValue)
                 else None
             | _ => None
             end
           else None
       | _ => None
       end
   else None)
  <|>
  (* Look for "type(X) is Y" or "type(X) is not Y". *)
  (match leftExpression with
   | Call _ callee [arg0] =>
       if isOrIsNot && isSimple (argumentCategory arg0)
          && isMatchingExpression reference (valueExpression arg0)
       then
         match getTypeOfExpression evaluator callee
                 EvaluatorFlags.DoNotSpecialize with
         | Class callType =>
             if classInstantiable callType
                && ClassType_.isBuiltIn callType "type" then
               match makeTopLevelTypeVarsConcrete evaluator
                       (typeOfExpression rightExpression) with
               | Class classType =>
                   if classInstantiable classType then
                     Some (fun type =>
                             narrowTypeForTypeIs N type classType
                               adjIsPositiveTest)
                   else None
               | _ => None
               end
             else None
         | _ => None
         end
       else None
   | _ => None
   end)
  <|>
  (* Look for "X is Y" or "X is not Y" where Y is a an enum or bool literal. *)
  (if isOrIsNot && isMatchingExpression reference leftExpression then
     match enumOrBoolLiteralInstance (typeOfExpression rightExpression) with
     | Some rightType =>
         Some (fun type =>
                 narrowTypeForLiteralComparison evaluator type rightType
                   adjIsPositiveTest true)
     | None => None
     end
   else None)
  <|>
  (if equalsOrNotEquals then
     let adjIsPositiveTest :=
       match operator with
       | OpEquals => isPositiveTest
       | _ => negb isPositiveTest
       end in
     (* Look for X == <literal> or X != <literal> *)
     (if isMatchingExpression reference leftExpression then
        match literalInstance (typeOfExpression rightExpression) with
        | Some rightType =>
            Some (fun type =>
                    narrowTypeForLiteralComparison evaluator type rightType
                      adjIsPositiveTest false)
        | None => None
        end
      else None)
     <|>
     (* Look for <literal> == X or <literal> != X *)
     (if isMatchingExpression reference rightExpression then
        match literalInstance (typeOfExpression leftExpression) with
        | Some leftType =>
            Some (fun type =>
                    narrowTypeForLiteralComparison evaluator type leftType
                      adjIsPositiveTest false)
        | None => None
        end
      else None)
     <|>
     (* Look for X[<literal>] == <literal> or X[<literal>] != <literal> *)
     (match leftExpression with
      | Index _ base item0 moreItems trailingComma =>
          if Nat.eqb (List.length (item0 :: moreItems)) 1
             && negb trailingComma
             && isSimple (argumentCategory item0)
             && isMatchingExpression reference base
          then
            match typeOfExpression (valueExpression item0) with
            | Class indexType =>
                if negb (classInstantiable indexType)
                   && isLiteralType indexType then
                  if ClassType_.isBuiltIn indexType "str" then
                    match literalInstance (typeOfExpression rightExpression)
                    with
                    | Some rightType =>
                        Some (fun type =>
                                narrowTypeForDiscriminatedDictEntryComparison
                                  evaluator type indexType rightType
                                  adjIsPositiveTest)
                    | None => None
                    end
                  else if ClassType_.isBuiltIn indexType "int" then
                    match literalInstance (typeOfExpression rightExpression)
                    with
                    | Some rightType =>
                        Some (fun type =>
                                narrowTypeForDiscriminatedTupleComparison
                                  evaluator type indexType rightType
                                  adjIsPositiveTest)
                    | None => None
                    end
                  else None
                else None
            | _ => None
            end
          else None
      | _ => None
      end)
   else None)
  <|>
  (* Look for len(x) == <literal> or len(x) != <literal> *)
  (match leftExpression, rightExpression with
   | Call _ callee [arg0], Number _ tupleLength true _ =>
       if equalsOrNotEquals
          && isMatchingExpression reference (valueExpression arg0)
       then
         match getTypeOfExpression evaluator callee
                 EvaluatorFlags.DoNotSpecialize with
         | Function callType =>
             if String.eqb (fnFullName callType) "builtins.len"
                && isJsNumber tupleLength
             then Some (fun type =>
                          narrowTypeForTupleLength N evaluator type
                            tupleLength adjIsPositiveTest)
             else None
         | _ => None
         end
       else None
   | _, _ => None
   end)
  <|>
  (* Look for X.Y == <literal> or X.Y != <literal> *)
  (match leftExpression with
   | MemberAccess _ receiver memberName =>
       if equalsOrNotEquals && isMatchingExpression reference receiver then
         match literalInstance (typeOfExpression rightExpression) with
         | Some rightType =>
             Some (fun type =>
                     narrowTypeForDiscriminatedLiteralFieldComparison N
                       evaluator type memberName rightType adjIsPositiveTest)
         | None => None
         end
       else None
   | _ => None
   end)
  <|>
  (* Look for X.Y is <literal> or X.Y is not <literal> where <literal> is
     an enum or bool literal *)
  (match leftExpression with
   | MemberAccess _ receiver memberName =>
       if isMatchingExpression reference receiver then
         match enumOrBoolLiteralInstance (typeOfExpression rightExpression)
         with
         | Some rightType =>
             Some (fun type =>
                     narrowTypeForDiscriminatedLiteralFieldComparison N
                       evaluator type memberName rightType adjIsPositiveTest)
         | None => None
         end
       else None
   | _ => None
   end)
  <|>
  (* Look for X.Y is None or X.Y is not None *)
  (match leftExpression with
   | MemberAccess _ receiver memberName =>
       if isMatchingExpression reference receiver
          && isNoneConstant rightExpression
       then Some (fun type =>
                    narrowTypeForDiscriminatedFieldNoneComparison N evaluator
                      type memberName adjIsPositiveTest)
       else None
   | _ => None
   end).

(** The patterns on [in] and [not in]. *)
Definition containmentCallback (reference leftExpression : Expr)
  (operator : OperatorType) (rightExpression : Expr)
  (isPositiveTest : bool) : option TypeNarrowingCallback :=
  let adjIsPositiveTest :=
    match operator with
    | OpIn => isPositiveTest
    | _ => negb isPositiveTest
    end in
  (* Look for "x in y" or "x not in y" where y is one of several built-in
     types. *)
  (if isMatchingExpression reference leftExpression && adjIsPositiveTest then
     let rightType := typeOfExpression rightExpression in
     Some (fun type => narrowTypeForContainerType N evaluator type rightType)
   else None)
  <|>
  (* Look for <string literal> in y where y is a union that contains one
     or more TypedDicts. *)
  (if isMatchingExpression reference rightExpression then
     match typeOfExpression leftExpression with
     | Class leftType =>
         if negb (classInstantiable leftType)
            && ClassType_.isBuiltIn leftType "str"
            && isLiteralType leftType
         then Some (fun type =>
                      narrowTypeForTypedDictKey N evaluator type
                        (ClassType_.cloneAsInstantiable leftType)
                        adjIsPositiveTest)
         else None
     | _ => None
     end
   else None).

Definition isFunctionReturnTypeGuard (type : FunctionType) : bool :=
  match declaredReturnType type with
  | Some (Class returnType) =>
      negb (classInstantiable returnType)
      && ClassType_.isBuiltInAny returnType ["TypeGuard"; "StrictTypeGuard"]
  | _ => false
  end.

(** The patterns on a call. *)
Definition callCallback (reference testExpression callee : Expr)
  (arguments : list Argument) (isPositiveTest : bool)
  : option TypeNarrowingCallback :=
  let callType :=
    getTypeOfExpression evaluator callee EvaluatorFlags.DoNotSpecialize in
  (* Look for "isinstance(X, Y)" or "issubclass(X, Y)". *)
  (match arguments with
   | [arg0; arg1] =>
       if isMatchingExpression reference (valueExpression arg0) then
         match callType with
         | Function callFunction =>
             let isInstanceCheck :=
               match builtInName callFunction with
               | Some n => String.eqb n "isinstance"
               | None => false
               end in
             let isSubclassCheck :=
               match builtInName callFunction with
               | Some n => String.eqb n "issubclass"
               | None => false
               end in
             if isInstanceCheck || isSubclassCheck then
               let arg1Type :=
                 getTypeOfExpression evaluator (valueExpression arg1)
                   (Z.lor EvaluatorFlags.EvaluateStringLiteralAsType
                      (Z.lor EvaluatorFlags.ParamSpecDisallowed
                         EvaluatorFlags.TypeVarTupleDisallowed)) in
               match getIsInstanceClassTypes N arg1Type with
               | Some classTypeList =>
                   Some (fun type =>
                           let narrowedType :=
                             narrowTypeForIsInstance N evaluator type
                               classTypeList isInstanceCheck isPositiveTest
                               false testExpression in
                           if negb (isNever narrowedType) then narrowedType
                           else
                             (* Try again with intersection types allowed. *)
                             narrowTypeForIsInstance N evaluator type
                               classTypeList isInstanceCheck isPositiveTest
                               true testExpression)
               | None => None
               end
             else None
         | _ => None
         end
       else None
   | _ => None
   end)
  <|>
  (* Look for "callable(X)" *)
  (match arguments with
   | [arg0] =>
       if isMatchingExpression reference (valueExpression arg0) then
         match callType with
         | Function callFunction =>
             match builtInName callFunction with
             | Some n =>
                 if String.eqb n "callable" then
                   Some (fun type =>
                           let narrowedType :=
                             narrowTypeForCallable N evaluator type
                               isPositiveTest testExpression false in
                           if isPositiveTest && isNever narrowedType then
                             (* Try again with intersections allowed. *)
                             narrowTypeForCallable N evaluator type
                               isPositiveTest testExpression true
                           else narrowedType)
                 else None
             | None => None
             end
         | _ => None
         end
       else None
   | _ => None
   end)
  <|>
  (* Look for "bool(X)" *)
  (match arguments with
   | [arg0] =>
       if negb (isSome (argName arg0))
          && isMatchingExpression reference (valueExpression arg0)
       then
         match callType with
         | Class callClass =>
             if classInstantiable callClass
                && ClassType_.isBuiltIn callClass "bool"
             then Some (fun type =>
                          narrowTypeForTruthiness N evaluator type
                            isPositiveTest)
             else None
         | _ => None
         end
       else None
   | _ => None
   end)
  <|>
  (* Look for a TypeGuard function. *)
  (match arguments with
   | arg0 :: _ =>
       if isMatchingExpression reference (valueExpression arg0) then
         (* Does this look like it's a custom type guard function? *)
         let isPossiblyTypeGuard :=
           match callType with
           | Function f => isFunctionReturnTypeGuard f
           | OverloadedFunction overloads =>
               existsb isFunctionReturnTypeGuard overloads
           | _ => false
           end in
         if isPossiblyTypeGuard then
           (* Evaluate the type guard call expression. *)
           match typeOfExpression testExpression with
           | Class functionReturnType =>
               if negb (classInstantiable functionReturnType)
                  && ClassType_.isBuiltIn functionReturnType "bool" then
                 match typeGuardType functionReturnType with
                 | Some guardType =>
                     let isStrict := isStrictTypeGuard functionReturnType in
                     Some (fun type =>
                             narrowTypeForUserDefinedTypeGuard N evaluator
                               type guardType isPositiveTest isStrict)
                 | None => None
                 end
               else None
           | _ => None
           end
         else None
       else None
   | [] => None
   end).

(** The patterns of [getTypeNarrowingCallback] that involve no recursive
    call, from the binary operations down to the test of the reference
    itself. *)
Definition directCallback (reference testExpression : Expr)
  (isPositiveTest : bool) : option TypeNarrowingCallback :=
  (match testExpression with
   | BinaryOperation _ leftExpression operator rightExpression =>
       (if isOrIsNotOperator operator || equalsOrNotEqualsOperator operator
        then comparisonCallback reference leftExpression operator
               rightExpression isPositiveTest
        else None)
       <|>
       (match operator with
        | OpIn | OpNotIn =>
            containmentCallback reference leftExpression operator
              rightExpression isPositiveTest
        | _ => None
        end)
   | _ => None
   end)
  <|>
  (match testExpression with
   | Call _ callee arguments =>
       callCallback reference testExpression callee arguments isPositiveTest
   | _ => None
   end)
  <|>
  (if isMatchingExpression reference testExpression then
     Some (fun type => narrowTypeForTruthiness N evaluator type isPositiveTest)
   else None).

(** A run of [decls.some] that reports a declaration whose execution scope
    differs from that of the declaration before it. *)
Fixpoint scopeDiffersFromPrevious (prevDeclScope : option nat)
  (decls : list Declaration) : bool :=
  match decls with
  | [] => false
  | decl :: rest =>
      match prevDeclScope with
      | Some p =>
          if negb (Nat.eqb (declScopeNode decl) p) then true
          else scopeDiffersFromPrevious (Some (declScopeNode decl)) rest
      | None => scopeDiffersFromPrevious (Some (declScopeNode decl)) rest
      end
  end.

(** Determines whether the symbol is a local variable or parameter within
    the current scope. *)
Definition getDeclsForLocalVar (name : Expr) (reachableFrom : Expr)
  : option (list Declaration) :=
  match getScopeTypeForNode name with
  | Some ScopeFunction | Some ScopeModule =>
      match lookUpSymbolDeclarations name with
      | None => None
      | Some decls =>
          if Nat.eqb (List.length decls) 0
             || existsb
                  (fun decl =>
                     match declType decl with
                     | DeclVariable | DeclParameter => false
                     | _ => true
                     end) decls
          then None
          else if scopeDiffersFromPrevious None decls then None
          else
            let reachableDecls :=
              filter
                (fun decl =>
                   isNodeReachable evaluator (nodeId reachableFrom)
                     (declNode decl)) decls in
            if Nat.ltb 0 (List.length reachableDecls)
            then Some reachableDecls else None
      end
  | _ => None
  end.

(** [getTypeNarrowingCallbackForAliasedCondition] up to its recursive
    call: the expression the aliased condition was assigned, when every
    check passes. *)
Definition aliasedConditionSource (reference testExpression : Expr)
  : option Expr :=
  match testExpression, reference with
  | Name testId _, Name referenceId _ =>
      if Nat.eqb testId referenceId then None
      else
        match getDeclsForLocalVar testExpression testExpression with
        | Some [testExprDecl] =>
            match declType testExprDecl with
            | DeclVariable =>
                match getDeclsForLocalVar reference testExpression with
                | None => None
                | Some referenceDecls =>
                    let modifyingDecls :=
                      if Nat.ltb 1 (List.length referenceDecls) then
                        filter
                          (fun decl =>
                             isNodeReachable evaluator (nodeId testExpression)
                               (declNode decl)
                             && isNodeReachable evaluator (declNode decl)
                                  (declNode testExprDecl))
                          referenceDecls
                      else [] in
                    if negb (Nat.eqb (List.length modifyingDecls) 0) then None
                    else
                      match inferredTypeSource testExprDecl with
                      | None => None
                      | Some initNode =>
                          if isNodeContainedWithin testExpression initNode
                             || negb (inferredTypeSourceIsExpression
                                        testExprDecl)
                          then None
                          else Some initNode
                      end
                end
            | _ => None
            end
        | _ => None
        end
  | _, _ => None
  end.

(** The three functions below call one another in the source;
    [recurse] stands for [getTypeNarrowingCallback]. *)
Definition getTypeNarrowingCallbackForAliasedCondition
  (recurse : Expr -> Expr -> bool -> nat
             -> Fuelled (option TypeNarrowingCallback))
  (reference testExpression : Expr) (isPositiveTest : bool)
  (recursionCount : nat) : Fuelled (option TypeNarrowingCallback) :=
  match aliasedConditionSource reference testExpression with
  | Some initNode => recurse reference initNode isPositiveTest recursionCount
  | None => Finished None
  end.

Definition getTypeNarrowingCallbackForAssignmentExpression
  (recurse : Expr -> Expr -> bool -> nat
             -> Fuelled (option TypeNarrowingCallback))
  (reference name rightExpression : Expr) (isPositiveTest : bool)
  (recursionCount : nat) : Fuelled (option TypeNarrowingCallback) :=
  match recurse reference rightExpression isPositiveTest recursionCount with
  | Finished None => recurse reference name isPositiveTest recursionCount
  | answer => answer
  end.

(** [getTypeNarrowingCallback] past its recursion guard. *)
Definition narrowingCallbackBody
  (recurse : Expr -> Expr -> bool -> nat
             -> Fuelled (option TypeNarrowingCallback))
  (reference testExpression : Expr) (isPositiveTest : bool)
  (recursionCount : nat) : Fuelled (option TypeNarrowingCallback) :=
  match testExpression with
  | AssignmentExpression _ name rightExpression =>
      getTypeNarrowingCallbackForAssignmentExpression recurse reference name
        rightExpression isPositiveTest recursionCount
  | _ =>
      match directCallback reference testExpression isPositiveTest with
      | Some callback => Finished (Some callback)
      | None =>
          (* Is this a reference to an aliased conditional expression? *)
          match getTypeNarrowingCallbackForAliasedCondition recurse
                  reference testExpression isPositiveTest recursionCount
          with
          | Finished None =>
              (* We normally won't find a "not" operator here, but we can
                 find this in the case of local variables type
                 narrowing. *)
              match reference, testExpression with
              | Name _ _, UnaryOperation _ OpNot expression =>
                  recurse reference expression (negb isPositiveTest)
                    recursionCount
              | _, _ => Finished None
              end
          | answer => answer
          end
      end
  end.

(** Given a reference expression and a test expression, returns a callback
    that can be used to narrow the type described by the reference
    expression.  [fuel] bounds the nesting of the calls that get past the
    recursion guard. *)
Fixpoint getTypeNarrowingCallbackFuel (fuel : nat)
  (reference testExpression : Expr) (isPositiveTest : bool)
  (recursionCount : nat) {struct fuel}
  : Fuelled (option TypeNarrowingCallback) :=
  if Nat.ltb maxTypeRecursionCount recursionCount then Finished None
  else
    match fuel with
    | O => OutOfFuel
    | S fuel =>
        narrowingCallbackBody (getTypeNarrowingCallbackFuel fuel) reference
          testExpression isPositiveTest (S recursionCount)
    end.

Definition getTypeNarrowingCallback (reference testExpression : Expr)
  (isPositiveTest : bool) (recursionCount : nat)
  : Fuelled (option TypeNarrowingCallback) :=
  getTypeNarrowingCallbackFuel (S maxTypeRecursionCount - recursionCount)
    reference testExpression isPositiveTest recursionCount.

(** Modelled from the spec: how the checker uses the answer of the
    engine (the code-flow engine is not among the sources): the callback
    is applied to the type of the reference before the edge, and an absent
    callback leaves that type as it is. *)
Definition applyNarrowing (callback : option TypeNarrowingCallback)
  (type : Ty) : Ty :=
  match callback with
  | Some f => f type
  | None => type
  end.

End NarrowingCallback.

(** ** The calls the narrowing engine makes

    [getTypeNarrowingCallback] once more, each answer paired with the
    number of calls of [getTypeNarrowingCallback] that were made to
    compute it, the call that gives the answer not counted. *)

Section NarrowingCalls.
Context {U : TypeUtils}.
Variable N : NarrowingOps.
Variable evaluator : TypeEvaluator.

Definition Counted : Type := (option TypeNarrowingCallback * nat)%type.

(** One call of [getTypeNarrowingCallback] from within the engine: the
    call itself and the calls made under it. *)
Definition countedCall
  (recurse : Expr -> Expr -> bool -> nat -> Fuelled Counted)
  (reference testExpression : Expr) (isPositiveTest : bool)
  (recursionCount : nat) : Fuelled Counted :=
  match recurse reference testExpression isPositiveTest recursionCount with
  | Finished (answer, calls) => Finished (answer, S calls)
  | OutOfFuel => OutOfFuel
  end.

(** [first ?? next], and [if (first) return first; return next]: [next]
    is evaluated only when [first] gives no callback. *)
Definition orElseCounted (first : Fuelled Counted)
  (next : unit -> Fuelled Counted) : Fuelled Counted :=
  match first with
  | Finished (None, calls) =>
      match next tt with
      | Finished (answer, more) => Finished (answer, calls + more)
      | OutOfFuel => OutOfFuel
      end
  | answer => answer
  end.

(** [narrowingCallbackBody] with its calls counted. *)
Definition narrowingCallbackBodyCounted
  (recurse : Expr -> Expr -> bool -> nat -> Fuelled Counted)
  (reference testExpression : Expr) (isPositiveTest : bool)
  (recursionCount : nat) : Fuelled Counted :=
  match testExpression with
  | AssignmentExpression _ name rightExpression =>
      orElseCounted
        (countedCall recurse reference rightExpression isPositiveTest
           recursionCount)
        (fun _ =>
           countedCall recurse reference name isPositiveTest recursionCount)
  | _ =>
      match directCallback N evaluator reference testExpression
              isPositiveTest with
      | Some callback => Finished (Some callback, 0)
      | None =>
          orElseCounted
            (* Is this a reference to an aliased conditional expression? *)
            (match aliasedConditionSource evaluator reference testExpression
             with
             | Some initNode =>
                 countedCall recurse reference initNode isPositiveTest
                   recursionCount
             | None => Finished (None, 0)
             end)
            (fun _ =>
               match reference, testExpression with
               | Name _ _, UnaryOperation _ OpNot expression =>
                   countedCall recurse reference expression
                     (negb isPositiveTest) recursionCount
               | _, _ => Finished (None, 0)
               end)
      end
  end.

Fixpoint getTypeNarrowingCallbackCountedFuel (fuel : nat)
  (reference testExpression : Expr) (isPositiveTest : bool)
  (recursionCount : nat) {struct fuel} : Fuelled Counted :=
  if Nat.ltb maxTypeRecursionCount recursionCount then Finished (None, 0)
  else
    match fuel with
    | O => OutOfFuel
    | S fuel =>
        narrowingCallbackBodyCounted
          (getTypeNarrowingCallbackCountedFuel fuel) reference
          testExpression isPositiveTest (S recursionCount)
    end.

Definition getTypeNarrowingCallbackCounted (reference testExpression : Expr)
  (isPositiveTest : bool) (recursionCount : nat) : Fuelled Counted :=
  getTypeNarrowingCallbackCountedFuel
    (S maxTypeRecursionCount - recursionCount) reference testExpression
    isPositiveTest recursionCount.

(** The answer alone. *)
Definition forgetCalls (answer : Fuelled Counted)
  : Fuelled (option TypeNarrowingCallback) :=
  match answer with
  | Finished (callback, _) => Finished callback
  | OutOfFuel => OutOfFuel
  end.

End NarrowingCalls.

(** ** The constraint solver *)

Section ConstraintSolver.
Context {U : TypeUtils}.
Variable evaluator : TypeEvaluator.

Import ParseTreeUtils.

(** [!destType.scopeId]: an absent or empty scope id. *)
Definition scopeIdIsFalsy (s : option string) : bool :=
  match s with
  | None => true
  | Some s => String.eqb s ""
  end.

(** Identity of two optional type-variable objects, taken as identity of
    their names qualified by scope. *)
Definition sameTypeVarObject (a b : option TypeVarType) : bool :=
  match a, b with
  | None, None => true
  | Some x, Some y =>
      String.eqb (TypeVarContext_.getKey x) (TypeVarContext_.getKey y)
  | _, _ => false
  end.

Definition assignTypeToParamSpec (destType : TypeVarType) (srcType : Ty)
  (typeVarContext : TypeVarContext) (recursionCount : nat)
  : bool * TypeVarContext :=
  let canRecord :=
    negb (TypeVarContext_.isLocked typeVarContext)
    && TypeVarContext_.hasSolveForScope typeVarContext (scopeId destType) in
  let otherSource :=
    match srcType with
    | Function functionSrcType =>
        let parameters :=
          map (fun ip : nat * FunctionParameter =>
                 let '(index, p) := ip in
                 mkParamSpecEntry (category p) (paramName p)
                   (isNameSynthesized p) (hasDefault p)
                   (getEffectiveParameterType functionSrcType index))
              (combine (seq 0 (List.length (parameters functionSrcType)))
                 (parameters functionSrcType)) in
        match TypeVarContext_.getParamSpec typeVarContext destType with
        | Some existingEntry =>
            if sameTypeVarObject (psParamSpec existingEntry)
                 (fnParamSpec functionSrcType) then
              (* Convert the remaining portion of the signature to a
                 function for comparison purposes. *)
              let existingFunction :=
                convertParamSpecValueToType existingEntry true in
              let assignedFunction :=
                convertParamSpecValueToType
                  (mkParamSpecValue (fnFlags functionSrcType) parameters
                     (fnTypeVarScopeId functionSrcType) None None) true in
              (assigns evaluator existingFunction assignedFunction None
                 AssignTypeFlags.SkipFunctionReturnTypeCheck recursionCount,
               typeVarContext)
            else (false, typeVarContext)
        | None =>
            (true,
             if canRecord then
               TypeVarContext_.setParamSpec typeVarContext destType
                 (mkParamSpecValue (fnFlags functionSrcType) parameters
                    (fnTypeVarScopeId functionSrcType)
                    (docString functionSrcType)
                    (fnParamSpec functionSrcType))
             else typeVarContext)
        end
    | _ => (isAnyOrUnknown srcType, typeVarContext)
    end in
  match srcType with
  | TypeVar srcTypeVar =>
      if isParamSpec srcTypeVar then
        match TypeVarContext_.getParamSpec typeVarContext destType with
        | Some existingEntry =>
            match psParamSpec existingEntry with
            | Some existingParamSpec =>
                (* If there's an existing entry that matches, that's fine. *)
                (Nat.eqb (List.length (psParameters existingEntry)) 0
                 && isTypeSame (TypeVar existingParamSpec) srcType,
                 typeVarContext)
            | None => (false, typeVarContext)
            end
        | None =>
            (true,
             if canRecord then
               TypeVarContext_.setParamSpec typeVarContext destType
                 (mkParamSpecValue 0 [] None None (Some srcTypeVar))
             else typeVarContext)
        end
      else otherSource
  | _ => otherSource
  end.

(** What the scope check at the head of [assignTypeToTypeVar] decides. *)
Inductive ScopeCheck : Set :=
| ScopeReturn (result : bool)
| ScopeContinue (isTypeVarInScope : bool).

Definition checkTypeVarScope (destType : TypeVarType) (srcType : Ty)
  (typeVarContext : TypeVarContext) (flags : Z) (recursionCount : nat)
  : ScopeCheck :=
  let isContravariant :=
    AssignTypeFlags.has flags AssignTypeFlags.ReverseTypeVarMatching in
  (* Verify that we are solving for the scope associated with this type
     variable. *)
  if negb (TypeVarContext_.hasSolveForScope typeVarContext (scopeId destType))
  then
    if isAnyOrUnknown srcType
       || match srcType with
          | Class c => ClassType_.derivesFromAnyOrUnknown c
          | _ => false
          end
    then ScopeReturn true
    else if AssignTypeFlags.has flags AssignTypeFlags.IgnoreTypeVarScope
    then ScopeReturn true
    else if isContravariant
            && assigns evaluator
                 (makeTopLevelTypeVarsConcrete evaluator (TypeVar destType))
                 (makeTopLevelTypeVarsConcrete evaluator srcType)
                 None flags recursionCount
    then ScopeReturn true
    else if negb (isSynthesized destType) then ScopeReturn false
    else ScopeContinue false
  else ScopeContinue true.

Definition adjustConstraint (destType : TypeVarType) (constraint : Ty) : Ty :=
  if tvInstantiable destType then convertToInstantiable constraint
  else constraint.

(** The [forEach] over the constraints for one source subtype: the
    narrowest constraint found so far and its index. *)
Fixpoint findNarrowestConstraint (destType : TypeVarType) (srcSubtype : Ty)
  (recursionCount : nat) (indexed : list (nat * Ty))
  (found : option (Ty * nat)) : option (Ty * nat) :=
  match indexed with
  | [] => found
  | (i, constraint) :: rest =>
      let adjustedConstraint := adjustConstraint destType constraint in
      let found :=
        if assigns evaluator adjustedConstraint srcSubtype None
             AssignTypeFlags.Default recursionCount
        then
          if match found with
             | None => true
             | Some (constrainedSubtype, _) =>
                 assigns evaluator
                   (adjustConstraint destType constrainedSubtype)
                   adjustedConstraint None AssignTypeFlags.Default
                   recursionCount
             end
          then Some (addConditionToType constraint
                       (getTypeCondition srcSubtype), i)
          else found
        else found in
      findNarrowestConstraint destType srcSubtype recursionCount rest found
  end.

Definition indexedConstraints (destType : TypeVarType) : list (nat * Ty) :=
  combine (seq 0 (List.length (constraints destType))) (constraints destType).

(** The callback of the [mapSubtypes] over the source; its state is the
    pair of closure variables [isCompatible] and
    [unconditionalConstraintIndex]. *)
Definition constrainSubtype (destType : TypeVarType) (isContravariant : bool)
  (recursionCount : nat) (state : bool * option nat) (srcSubtype : Ty)
  : (bool * option nat) * option Ty :=
  let '(isCompatible, unconditionalConstraintIndex) := state in
  if isAnyOrUnknown srcSubtype then (state, Some srcSubtype)
  else
    let found :=
      findNarrowestConstraint destType srcSubtype recursionCount
        (indexedConstraints destType) None in
    let constrainedSubtype := option_map fst found in
    let constraintIndexUsed := option_map snd found in
    (* A source subtype that is not compatible with the dest is OK in the
       contravariant case. *)
    let isCompatible :=
      if negb (isSome constrainedSubtype) && negb isContravariant
      then false else isCompatible in
    (* If this subtype isn't conditional, make sure it maps to the same
       constraint index as previous unconditional subtypes. *)
    match constraintIndexUsed, getTypeCondition srcSubtype with
    | Some i, None =>
        ((match unconditionalConstraintIndex with
          | Some j => if negb (Nat.eqb j i) then false else isCompatible
          | None => isCompatible
          end, Some i), constrainedSubtype)
    | _, _ => ((isCompatible, unconditionalConstraintIndex), constrainedSubtype)
    end.

(** The constrained type chosen for the source, if any. *)
Definition findConstrainedType (destType : TypeVarType) (srcType : Ty)
  (isContravariant : bool) (recursionCount : nat) : option Ty :=
  let concreteSrcType := makeTopLevelTypeVarsConcrete evaluator srcType in
  if isTypeVar srcType then
    if assigns evaluator (TypeVar destType) concreteSrcType
         (Some (TypeVarContext_.create (scopeId destType)))
         AssignTypeFlags.Default recursionCount
    then Some (if TypeBase.isInstantiable srcType
               then convertToInstance srcType false else srcType)
    else None
  else
    (* Find the narrowest constrained type that is compatible. *)
    let '((isCompatible, _), constrainedType) :=
      mapSubtypesSt concreteSrcType
        (constrainSubtype destType isContravariant recursionCount)
        (true, None) in
    if isNever constrainedType || negb isCompatible then
      (* If the type is a union, see if the entire union is assignable to
         one of the constraints. *)
      if isUnion concreteSrcType then
        find (fun constraint =>
                assigns evaluator (adjustConstraint destType constraint)
                  concreteSrcType None AssignTypeFlags.Default recursionCount)
             (constraints destType)
      else None
    else Some constrainedType.

(** Handle the constrained case. *)
Definition assignConstrained (destType : TypeVarType) (srcType : Ty)
  (typeVarContext : TypeVarContext) (isContravariant isTypeVarInScope : bool)
  (curNarrowTypeBound : option Ty) (recursionCount : nat)
  : bool * TypeVarContext :=
  let record constrainedType :=
    if negb (TypeVarContext_.isLocked typeVarContext) && isTypeVarInScope
    then TypeVarContext_.setTypeVarType typeVarContext destType
           (Some constrainedType) None None
    else typeVarContext in
  match findConstrainedType destType srcType isContravariant recursionCount
  with
  | None =>
      (* No constrained type was assignable, or several were and they are
         not conditional. *)
      (false, typeVarContext)
  | Some constrainedType =>
      match curNarrowTypeBound with
      | Some cur =>
          if negb (isAnyOrUnknown cur) then
            if negb (assigns evaluator cur constrainedType None
                       AssignTypeFlags.Default recursionCount) then
              (* One of the constrained types may be a wider version of
                 another one that was previously assigned. *)
              if assigns evaluator constrainedType cur None
                   AssignTypeFlags.Default recursionCount
              then (true, record constrainedType)
              else (false, typeVarContext)
            else (true, typeVarContext)
          else (true, record constrainedType)
      | None => (true, record constrainedType)
      end
  end.

(** [flags & AssignTypeFlags.IgnoreTypeVarScope] *)
Definition scopeFlagOnly (flags : Z) : Z :=
  Z.land flags AssignTypeFlags.IgnoreTypeVarScope.

Definition freshContext (destType : TypeVarType) : option TypeVarContext :=
  Some (TypeVarContext_.create (scopeId destType)).

(** Update of the wide type bound (contravariant or narrowing mode);
    [None] is the failure of the assignment. *)
Definition updateWideBound (curNarrowTypeBound curWideTypeBound : option Ty)
  (adjSrcType : Ty) (flags : Z) (recursionCount : nat) : option Ty :=
  let newWideTypeBound :=
    match curWideTypeBound with
    | None => Some adjSrcType
    | Some curWide =>
        if negb (isTypeSame curWide adjSrcType) then
          if assigns evaluator curWide
               (makeTopLevelTypeVarsConcrete evaluator adjSrcType) None
               (scopeFlagOnly flags) recursionCount
          then
            (* The srcType is narrower than the current wideTypeBound, so
               replace it. *)
            Some adjSrcType
          else if negb (assigns evaluator adjSrcType curWide None
                          (scopeFlagOnly flags) recursionCount)
          then None
          else Some curWide
        else Some curWide
    end in
  match newWideTypeBound with
  | None => None
  | Some newWide =>
      (* Make sure we haven't narrowed it beyond the current narrow bound. *)
      match curNarrowTypeBound with
      | Some curNarrow =>
          if negb (assigns evaluator newWide curNarrow None
                     (scopeFlagOnly flags) recursionCount)
          then None else Some newWide
      | None => Some newWide
      end
  end.

(** The widened narrow bound, once widening is known to be needed and
    allowed. *)
Definition widenNarrowBound (destType : TypeVarType)
  (curNarrowTypeBound adjSrcType : Ty) (flags : Z) (recursionCount : nat)
  : Ty :=
  if assigns evaluator adjSrcType curNarrowTypeBound (freshContext destType)
       (scopeFlagOnly flags) recursionCount
  then adjSrcType
  else
    let objectType := getObjectType evaluator in
    (* In some extreme edge cases, the narrow type bound can become a
       union with so many subtypes that performance grinds to a halt.
       We'll detect this case and widen the resulting type to an 'object'
       instead of making the union even bigger. *)
    match curNarrowTypeBound, objectType with
    | Union subtypes, Some objectType =>
        if Nat.ltb maxSubtypesForInferredType (List.length subtypes)
           && isSome (boundType destType)
           && isClassInstance objectType
        then combineTypes [curNarrowTypeBound; objectType]
        else combineTypes [curNarrowTypeBound; adjSrcType]
    | _, _ => combineTypes [curNarrowTypeBound; adjSrcType]
    end.

(** Update of the narrow type bound (covariant, default mode), before the
    check against the wide bound; [None] is the failure of the
    assignment. *)
Definition updateNarrowBound (destType : TypeVarType)
  (typeVarContext : TypeVarContext) (curNarrowTypeBound : option Ty)
  (adjSrcType : Ty) (flags : Z) (recursionCount : nat) : option Ty :=
  match curNarrowTypeBound with
  | None =>
      (* There was previously no narrow bound. We've now established one. *)
      Some adjSrcType
  | Some curNarrow =>
      if negb (isTypeSame curNarrow adjSrcType) then
        if assigns evaluator curNarrow adjSrcType (freshContext destType)
             flags recursionCount
        then
          (* No need to widen. Stick with the existing type unless it's
             unknown or partly unknown. *)
          if isPartlyUnknown curNarrow
             && negb (isUnknown adjSrcType)
             && assigns evaluator adjSrcType curNarrow
                  (freshContext destType) (scopeFlagOnly flags)
                  recursionCount
          then Some adjSrcType
          else Some curNarrow
        else
          (* We need to widen the type. *)
          if TypeVarContext_.isLocked typeVarContext then None
          else if isVariadicTypeVar destType then
            (* Don't allow widening for variadic type variables. *)
            None
          else Some (widenNarrowBound destType curNarrow adjSrcType flags
                       recursionCount)
      else Some curNarrow
  end.

(** Make sure we don't exceed the wide type bound. *)
Definition withinWideBound (destType : TypeVarType)
  (curWideTypeBound : option Ty) (newNarrowTypeBound : Ty) (flags : Z)
  (recursionCount : nat) : bool :=
  match curWideTypeBound with
  | None => true
  | Some curWide =>
      if negb (isTypeSame curWide newNarrowTypeBound) then
        let makeConcrete :=
          (* The wide type T and the narrow type T, or T | <some other
             type>, are matched as they are. *)
          if isTypeVar curWide then
            if isTypeSame newNarrowTypeBound curWide then false
            else
              match newNarrowTypeBound with
              | Union subtypes =>
                  negb (existsb (fun subtype => isTypeSame subtype curWide)
                          subtypes)
              | _ => true
              end
          else true in
        assigns evaluator
          (if makeConcrete
           then makeTopLevelTypeVarsConcrete evaluator curWide
           else curWide)
          newNarrowTypeBound (freshContext destType) (scopeFlagOnly flags)
          recursionCount
      else true
  end.

(** Strip literals if the existing value contains no literals.  This
    allows for explicit (but no implicit) literal specialization of a
    generic class. *)
Definition retainLiteralsFor (destType : TypeVarType)
  (typeVarContext : TypeVarContext) (flags : Z) : bool :=
  AssignTypeFlags.has flags AssignTypeFlags.RetainLiteralsForTypeVar
  || TypeVarContext_.getRetainLiterals typeVarContext destType
  || match boundType destType with
     | Some bound => containsLiteralType bound
     | None => false
     end
  || existsb containsLiteralType (constraints destType).

(** Handle the unconstrained (but possibly bound) case. *)
Definition assignUnconstrained (destType : TypeVarType) (srcType : Ty)
  (typeVarContext : TypeVarContext) (flags : Z) (isTypeVarInScope : bool)
  (curNarrowTypeBound curWideTypeBound : option Ty) (recursionCount : nat)
  : bool * TypeVarContext :=
  let isContravariant :=
    AssignTypeFlags.has flags AssignTypeFlags.ReverseTypeVarMatching in
  let retainLiterals := retainLiteralsFor destType typeVarContext flags in
  let adjSrcType :=
    if retainLiterals then srcType else stripLiteralValue srcType in
  if tvInstantiable destType && negb (isEffectivelyInstantiable adjSrcType)
  then (false, typeVarContext)
  else
    let adjSrcType :=
      if tvInstantiable destType then convertToInstance adjSrcType false
      else adjSrcType in
    (* The new bounds, and the bound that survives (narrow else wide). *)
    let newBounds : option (option Ty * option Ty * Ty) :=
      if isContravariant
         || AssignTypeFlags.has flags AssignTypeFlags.AllowTypeVarNarrowing
      then
        (* Update the wide type bound. *)
        match updateWideBound curNarrowTypeBound curWideTypeBound adjSrcType
                flags recursionCount with
        | Some newWide =>
            Some (curNarrowTypeBound, Some newWide,
                  match curNarrowTypeBound with
                  | Some n => n
                  | None => newWide
                  end)
        | None => None
        end
      else
        match updateNarrowBound destType typeVarContext curNarrowTypeBound
                adjSrcType flags recursionCount with
        | Some newNarrow =>
            if withinWideBound destType curWideTypeBound newNarrow flags
                 recursionCount
            then Some (Some newNarrow, curWideTypeBound, newNarrow)
            else None
        | None => None
        end in
    match newBounds with
    | None => (false, typeVarContext)
    | Some (newNarrowTypeBound, newWideTypeBound, updatedType) =>
        let record ctx :=
          if negb (TypeVarContext_.isLocked ctx) && isTypeVarInScope then
            TypeVarContext_.setTypeVarType ctx destType newNarrowTypeBound
              newWideTypeBound (Some retainLiterals)
          else ctx in
        (* If there's a bound type, make sure the source is assignable to
           it. *)
        match boundType destType with
        | Some bound =>
            if tvInstantiable destType && negb (TypeBase.isInstantiable srcType)
            then (false, typeVarContext)
            else if isSynthesizedSelf destType then
              (* The "Self" type uses the original TypeVarContext to solve
                 for the type variables in the bound type. *)
              let '(ok, typeVarContext) :=
                assignTypeIn evaluator bound
                  (makeTopLevelTypeVarsConcrete evaluator updatedType)
                  typeVarContext (scopeFlagOnly flags) recursionCount in
              if ok then (true, record typeVarContext)
              else (false, typeVarContext)
            else if assigns evaluator bound
                      (makeTopLevelTypeVarsConcrete evaluator updatedType)
                      (freshContext destType) (scopeFlagOnly flags)
                      recursionCount
            then (true, record typeVarContext)
            else (false, typeVarContext)
        | None => (true, record typeVarContext)
        end
    end.

(** The two rewritings of the source before the bounds are looked at. *)
Definition adjustSourceType (destType : TypeVarType) (srcType : Ty) : Ty :=
  let srcType :=
    if isVariadic destType && negb (isUnpacked srcType) then
      match getTupleClassType evaluator with
      | Some tupleClassType =>
          if isInstantiableClass tupleClassType then
            (* Package up the type into a tuple. *)
            specializeUnpackedTuple tupleClassType srcType
          else Unknown
      | None => Unknown
      end
    else srcType in
  (* If we're attempting to assign `type` to Type[T], transform `type`
     into `Type[Any]`. *)
  match srcType with
  | Class c =>
      if tvInstantiable destType
         && negb (classInstantiable c)
         && ClassType_.isBuiltIn c "type"
         && negb (isSome (typeArguments c))
      then Any else srcType
  | _ => srcType
  end.

(** Assigns the source type to the dest type var in the type var context.
    If an existing type is already associated with that type var name, it
    attempts to either widen or narrow the type.  If the type var context
    has been "locked", it simply validates that the srcType is
    compatible. *)
Definition assignTypeToTypeVar (destType : TypeVarType) (srcType : Ty)
  (typeVarContext : TypeVarContext) (flags : Z) (recursionCount : nat)
  : bool * TypeVarContext :=
  let isContravariant :=
    AssignTypeFlags.has flags AssignTypeFlags.ReverseTypeVarMatching in
  (* If the TypeVar doesn't have a scope ID, then it's being used outside
     of a valid TypeVar scope. *)
  if scopeIdIsFalsy (scopeId destType) then (true, typeVarContext)
  else
    match checkTypeVarScope destType srcType typeVarContext flags
            recursionCount with
    | ScopeReturn result => (result, typeVarContext)
    | ScopeContinue isTypeVarInScope =>
        if AssignTypeFlags.has flags AssignTypeFlags.SkipSolveTypeVars then
          (assigns evaluator
             (makeTopLevelTypeVarsConcrete evaluator (TypeVar destType))
             (makeTopLevelTypeVarsConcrete evaluator srcType)
             None flags recursionCount,
           typeVarContext)
        else if isParamSpec destType then
          assignTypeToParamSpec destType srcType typeVarContext recursionCount
        else
          let srcType := adjustSourceType destType srcType in
          let curEntry := TypeVarContext_.getTypeVar typeVarContext destType in
          let curNarrowTypeBound :=
            match curEntry with Some e => narrowBound e | None => None end in
          let curWideTypeBound :=
            match match curEntry with Some e => wideBound e | None => None end
            with
            | Some w => Some w
            | None => boundType destType
            end in
          if Nat.ltb 0 (List.length (constraints destType)) then
            assignConstrained destType srcType typeVarContext isContravariant
              isTypeVarInScope curNarrowTypeBound recursionCount
          else
            assignUnconstrained destType srcType typeVarContext flags
              isTypeVarInScope curNarrowTypeBound curWideTypeBound
              recursionCount
    end.

(** Modelled from the spec: [buildTypeVarContextFromSpecializedClass]
    ([typeUtils.ts] is not among the sources): the context that binds
    every type parameter of a specialised class, parameter specifications
    apart, to its type argument ([Any] where the arguments run out). *)
Definition buildTypeVarContextFromSpecializedClass (classType : ClassType)
  : TypeVarContext :=
  let empty := TypeVarContext_.create (getTypeVarScopeId (Class classType)) in
  match typeArguments classType with
  | None => empty
  | Some typeArgs =>
      fold_left
        (fun ctx (ip : nat * TypeVarType) =>
           let '(index, typeParam) := ip in
           if isParamSpec typeParam then ctx
           else TypeVarContext_.setTypeVarType ctx typeParam
                  (Some (nth index typeArgs Any)) None (Some true))
        (combine (seq 0 (List.length (typeParameters classType)))
           (typeParameters classType))
        empty
  end.

Definition indexedName (prefix : string) (index : nat) : string :=
  prefix ++ NilEmpty.string_of_uint (Nat.to_uint index).

(** [isTypeVar(t) && t.scopeId === scope] *)
Definition isTypeVarOfScope (scope : option string) (t : Ty) : bool :=
  match t with
  | TypeVar v =>
      match scopeId v, scope with
      | Some a, Some b => String.eqb a b
      | None, None => true
      | _, _ => false
      end
  | _ => false
  end.

(** The body of the [forEach] of the same-class path for one entry. *)
Definition copySpecializedEntry (type : ClassType)
  (sameClassTypeVarContext : TypeVarContext)
  (typeVarContext : TypeVarContext) (entry : TypeVarMapEntry)
  : TypeVarContext :=
  match TypeVarContext_.getTypeVarType sameClassTypeVarContext (typeVar entry)
  with
  | Some typeVarType =>
      (* Skip this if the type argument is a TypeVar defined by the class
         scope because we're potentially solving for these TypeVars. *)
      if negb (isTypeVarOfScope (typeVarScopeId (details type)) typeVarType)
      then
        TypeVarContext_.setTypeVarType typeVarContext (typeVar entry)
          (if Variance_.eqb (TypeVarType_.getVariance (typeVar entry))
                Covariant then None else Some typeVarType)
          (if Variance_.eqb (TypeVarType_.getVariance (typeVar entry))
                Contravariant then None else Some typeVarType)
          (retainLiteral entry)
      else typeVarContext
  | None => typeVarContext
  end.

(** The body of the [forEach] of the general path for one synthesized
    type variable; [None] stands for the [TypeError] raised when the
    binding names a type parameter the target does not have. *)
Definition projectSynthesizedEntry (specializedType : ClassType)
  (expectedTypeArgs : list Ty) (syntheticTypeVarContext : TypeVarContext)
  (liveTypeVarScopes : option (list string))
  (state : option (bool * TypeVarContext)) (it : nat * TypeVarType)
  : option (bool * TypeVarContext) :=
  let '(index, typeVar) := it in
  match state with
  | None => None
  | Some (isResultValid, typeVarContext) =>
      match TypeVarContext_.getTypeVarType syntheticTypeVarContext typeVar with
      | Some (TypeVar synthTypeVar) =>
          match isSynthesized synthTypeVar, synthesizedIndex synthTypeVar with
          | true, Some synthesizedIndex =>
              if Nat.ltb index (List.length expectedTypeArgs) then
                let expectedTypeArgValue :=
                  match nth_error expectedTypeArgs index, liveTypeVarScopes
                  with
                  | Some v, Some scopes =>
                      transformExpectedTypeForConstructor v typeVarContext
                        scopes
                  | v, _ => v
                  end in
                match expectedTypeArgValue with
                | Some value =>
                    match nth_error (typeParameters specializedType)
                            synthesizedIndex with
                    | Some targetTypeVar =>
                        Some (isResultValid,
                              TypeVarContext_.setTypeVarType typeVarContext
                                targetTypeVar
                                (if Variance_.eqb
                                      (TypeVarType_.getVariance typeVar)
                                      Covariant
                                 then None else Some value)
                                (if Variance_.eqb
                                      (TypeVarType_.getVariance typeVar)
                                      Contravariant
                                 then None else Some value)
                                None)
                    | None => None
                    end
                | None => Some (false, typeVarContext)
                end
              else state
          | _, _ => state
          end
      | _ => state
      end
  end.

(** In cases where the expected type is a specialized base class of the
    source type, we need to determine which type arguments in the derived
    class will make it compatible with the specialized base class.  This
    performs this reverse mapping of type arguments and populates the
    type var map for the target type.  The variance of the type
    parameters is taken as already inferred
    ([inferTypeParameterVarianceForClass]). *)
Definition populateTypeVarContextBasedOnExpectedType (type : ClassType)
  (expectedType : Ty) (typeVarContext : TypeVarContext)
  (liveTypeVarScopes : option (list string))
  : option (bool * TypeVarContext) :=
  match expectedType with
  | Any =>
      Some (true,
            fold_left
              (fun ctx typeParam =>
                 TypeVarContext_.setTypeVarType ctx typeParam
                   (Some expectedType) None None)
              (typeParameters type) typeVarContext)
  | Class expectedClass =>
      match typeArguments expectedClass with
      | None =>
          (* If the expected type is generic (but not specialized), we
             can't proceed. *)
          Some (assignTypeIn evaluator (Class type) expectedType
                  typeVarContext AssignTypeFlags.PopulatingExpectedType 0)
      | Some expectedTypeArgs =>
          (* If the expected type is the same as the target type (commonly
             the case), we can use a faster method. *)
          if ClassType_.isSameGenericClass expectedClass type then
            let sameClassTypeVarContext :=
              buildTypeVarContextFromSpecializedClass expectedClass in
            Some (true,
                  fold_left
                    (copySpecializedEntry type sameClassTypeVarContext)
                    (TypeVarContext_.getTypeVars sameClassTypeVarContext)
                    typeVarContext)
          else
            (* Create a generic version of the expected type. *)
            let expectedTypeScopeId := getTypeVarScopeId expectedType in
            let synthExpectedTypeArgs :=
              map (fun index =>
                     TypeVarType_.synthesizedDest
                       (indexedName "__dest" index) expectedTypeScopeId)
                  (seq 0 (List.length (typeParameters expectedClass))) in
            let genericExpectedType :=
              ClassType_.cloneForSpecialization expectedClass
                (map TypeVar synthExpectedTypeArgs) in
            (* For each type param in the target type, create a
               placeholder type variable. *)
            let typeArgs :=
              map (fun index =>
                     TypeVarType_.synthesizedSource
                       (indexedName "__source" index) index)
                  (seq 0 (List.length (typeParameters type))) in
            let specializedType :=
              ClassType_.cloneForSpecialization type (map TypeVar typeArgs) in
            let '(ok, syntheticTypeVarContext) :=
              assignTypeIn evaluator (Class genericExpectedType)
                (Class specializedType)
                (TypeVarContext_.create expectedTypeScopeId)
                AssignTypeFlags.PopulatingExpectedType 0 in
            if ok then
              fold_left
                (projectSynthesizedEntry specializedType expectedTypeArgs
                   syntheticTypeVarContext liveTypeVarScopes)
                (combine (seq 0 (List.length synthExpectedTypeArgs))
                   synthExpectedTypeArgs)
                (Some (true, typeVarContext))
            else Some (false, typeVarContext)
      end
  | _ => Some (false, typeVarContext)
  end.

End ConstraintSolver.

(** ** A small universe of types and a nominal evaluator

    Concrete classes, a nominal assignability judgment over them and
    concrete helpers, on which the functions above are run. *)

Module Fixture.

Definition plainDetails (name fullName : string) (id : nat) (builtIn : bool)
  (ancestors : list string) : ClassDetails :=
  mkClassDetails name fullName id builtIn false false false false
    (map Some (fullName :: ancestors)) None [].

Definition instanceOf (d : ClassDetails) : ClassType :=
  mkClassType d false [] None None None None false None false.

Definition withLiteral (c : ClassType) (v : LiteralValue) : ClassType :=
  ClassType_.cloneWithLiteral c (Some v).

Definition withTypeArguments (c : ClassType) (args : list Ty) : ClassType :=
  ClassType_.cloneForSpecialization c args.

Definition objectDetails : ClassDetails :=
  plainDetails "object" "builtins.object" 1 true [].
Definition intDetails : ClassDetails :=
  plainDetails "int" "builtins.int" 2 true ["builtins.object"].
Definition strDetails : ClassDetails :=
  plainDetails "str" "builtins.str" 3 true ["builtins.object"].
Definition bytesDetails : ClassDetails :=
  plainDetails "bytes" "builtins.bytes" 4 true ["builtins.object"].
Definition boolDetails : ClassDetails :=
  plainDetails "bool" "builtins.bool" 5 true
    ["builtins.int"; "builtins.object"].
Definition sequenceDetails : ClassDetails :=
  plainDetails "Sequence" "typing.Sequence" 6 false ["builtins.object"].

Definition objectClass : ClassType := instanceOf objectDetails.
Definition intClass : ClassType := instanceOf intDetails.
Definition strClass : ClassType := instanceOf strDetails.
Definition bytesClass : ClassType := instanceOf bytesDetails.
Definition boolClass : ClassType := instanceOf boolDetails.

Definition objectType : Ty := Class objectClass.
Definition intType : Ty := Class intClass.
Definition strType : Ty := Class strClass.
Definition bytesType : Ty := Class bytesClass.
Definition boolType : Ty := Class boolClass.
Definition noneType : Ty := NoneType.createInstance.

(** [Sequence[int]] *)
Definition sequenceOfInt : Ty :=
  Class (withTypeArguments (instanceOf sequenceDetails) [intType]).

(** The user classes [C0], [C1], ... that derive from [Sequence[int]]. *)
Definition userSequence (index : nat) : Ty :=
  Class (instanceOf
           (plainDetails (indexedName "C" index)
              (indexedName "app.C" index) (100 + index) false
              ["typing.Sequence"; "builtins.object"])).

(** A union of [n] such classes. *)
Definition userSequences (n : nat) : Ty := Union (map userSequence (seq 0 n)).

(** *** Structural equality of types *)

Definition condition_eqb (a b : option (list TypeCondition)) : bool :=
  match a, b with
  | None, None => true
  | Some x, Some y =>
      Nat.eqb (List.length x) (List.length y)
      && forallb
           (fun p : TypeCondition * TypeCondition =>
              String.eqb (typeVarName (fst p)) (typeVarName (snd p))
              && Nat.eqb (constraintIndex (fst p)) (constraintIndex (snd p)))
           (combine x y)
  | _, _ => false
  end.

Definition literal_eqb (a b : option LiteralValue) : bool :=
  match a, b with
  | None, None => true
  | Some x, Some y => ClassType_.literalValue_eqb x y
  | _, _ => false
  end.

Definition scope_eqb (a b : option string) : bool :=
  match a, b with
  | None, None => true
  | Some x, Some y => String.eqb x y
  | _, _ => false
  end.

Fixpoint tyEqb (a b : Ty) {struct a} : bool :=
  let listEqb :=
    fix listEqb (xs ys : list Ty) {struct xs} : bool :=
      match xs, ys with
      | [], [] => true
      | x :: xs, y :: ys => tyEqb x y && listEqb xs ys
      | _, _ => false
      end in
  match a, b with
  | Unbound, Unbound | Unknown, Unknown | Any, Any | Never, Never
  | Module, Module => true
  | NoneT i c, NoneT j d => Bool.eqb i j && condition_eqb c d
  | Function f, Function g => String.eqb (fnFullName f) (fnFullName g)
  | Class c, Class d =>
      ClassType_.isSameGenericClass c d
      && Bool.eqb (classInstantiable c) (classInstantiable d)
      && literal_eqb (literalValue c) (literalValue d)
      && condition_eqb (classCondition c) (classCondition d)
      && match typeArguments c, typeArguments d with
         | None, None => true
         | Some xs, Some ys => listEqb xs ys
         | _, _ => false
         end
  | TypeVar v, TypeVar w =>
      String.eqb (tvName v) (tvName w)
      && scope_eqb (scopeId v) (scopeId w)
      && Bool.eqb (tvInstantiable v) (tvInstantiable w)
  | Union xs, Union ys => listEqb xs ys
  | _, _ => false
  end.

(** *** A nominal assignability judgment *)

Definition derivesFrom (src dest : ClassType) : bool :=
  existsb
    (fun base =>
       match base with
       | Some n => String.eqb n (fullName (details dest))
       | None => false
       end)
    (mro (details src)).

(** A type argument of the destination against the matching one of the
    source, as the judgment settles it for the same generic class.  A type
    variable goes to the solver: one the context solves for is bound there
    (see [bindTypeArguments]); one the context does not solve for, or any
    one when no context is handed over, accepts only [Any], [Unknown] and
    a class that derives from one of them, unless the scope is to be
    ignored.  Another argument must be the type the source has there,
    [Any] and [Unknown] apart: the generic classes of this universe are
    matched invariantly. *)
Definition typeArgumentAccepted (ctx : option TypeVarContext) (flags : Z)
  (destArg srcArg : Ty) : bool :=
  match destArg with
  | TypeVar v =>
      match ctx with
      | Some ctx => TypeVarContext_.hasSolveForScope ctx (scopeId v)
      | None => false
      end
      || isAnyOrUnknown srcArg
      || match srcArg with
         | Class c => ClassType_.derivesFromAnyOrUnknown c
         | _ => false
         end
      || AssignTypeFlags.has flags AssignTypeFlags.IgnoreTypeVarScope
  | _ => isAnyOrUnknown destArg || isAnyOrUnknown srcArg || tyEqb destArg srcArg
  end.

(** One source that is not a union against one destination that is not a
    union. *)
Definition assignAtom (ctx : option TypeVarContext) (flags : Z)
  (dest src : Ty) : bool :=
  match src with
  | Any | Unknown | Never => true
  | _ =>
      match dest with
      | Any | Unknown => true
      | NoneT i _ =>
          match src with NoneT j _ => Bool.eqb i j | _ => false end
      | Class d =>
          match src with
          | Class c =>
              Bool.eqb (classInstantiable d) (classInstantiable c)
              && derivesFrom c d
              && match literalValue d with
                 | None => true
                 | Some _ => literal_eqb (literalValue d) (literalValue c)
                 end
              && match typeArguments d, typeArguments c with
                 | Some destArgs, Some srcArgs =>
                     if ClassType_.isSameGenericClass d c then
                       forallb
                         (fun p : Ty * Ty =>
                            typeArgumentAccepted ctx flags (fst p) (snd p))
                         (combine destArgs srcArgs)
                     else true
                 | _, _ => true
                 end
          | NoneT false _ =>
              negb (classInstantiable d) && ClassType_.isBuiltIn d "object"
          | _ => false
          end
      | TypeVar v =>
          match src with
          | TypeVar w =>
              String.eqb (tvName v) (tvName w)
              && scope_eqb (scopeId v) (scopeId w)
          | _ => false
          end
      | _ => false
      end
  end.

Definition assignToDest (ctx : option TypeVarContext) (flags : Z)
  (dest src : Ty) : bool :=
  match dest with
  | Union ds => existsb (fun d => assignAtom ctx flags d src) ds
  | _ => assignAtom ctx flags dest src
  end.

(** Every member of the source must be accepted by a member of the
    destination. *)
Definition nominalAssign (ctx : option TypeVarContext) (flags : Z)
  (dest src : Ty) : bool :=
  match src with
  | Union ss => forallb (assignToDest ctx flags dest) ss
  | _ => assignToDest ctx flags dest src
  end.

(** The bindings the judgment records in the context it is handed: a type
    argument of the destination that is a type variable the context solves
    for is bound, as the solver binds a type variable that has no entry
    yet, to the matching type argument of the source. *)
Definition bindTypeArguments (dest src : Ty) (ctx : option TypeVarContext)
  : list ContextWrite :=
  match ctx, dest, src with
  | Some ctx, Class d, Class c =>
      match typeArguments d, typeArguments c with
      | Some ds, Some cs =>
          flat_map
            (fun p : Ty * Ty =>
               match fst p with
               | TypeVar v =>
                   if TypeVarContext_.hasSolveForScope ctx (scopeId v)
                   then [CtxSetTypeVarType v (Some (snd p)) None
                           (Some false)]
                   else []
               | _ => []
               end)
            (combine ds cs)
      | _, _ => []
      end
  | _, _, _ => []
  end.

Definition nominalAssignType (dest src : Ty) (ctx : option TypeVarContext)
  (flags : Z) (recursionCount : nat) : bool * list ContextWrite :=
  let ok := nominalAssign ctx flags dest src in
  (ok, if ok then bindTypeArguments dest src ctx else []).

Definition concretise (t : Ty) : Ty :=
  match t with
  | TypeVar v =>
      match boundType v, constraints v with
      | Some b, _ => b
      | None, [] => objectType
      | None, [c] => c
      | None, cs => Union cs
      end
  | _ => t
  end.

(** *** An enumeration, typed dictionaries and tuples *)

Definition colorDetails : ClassDetails :=
  mkClassDetails "Color" "app.Color" 50 false true false false false
    [Some "app.Color"; Some "enum.Enum"; Some "builtins.object"] None
    [("RED", mkSymbol 1 false); ("GREEN", mkSymbol 2 false);
     ("describe", mkSymbol 3 false); ("_order_", mkSymbol 4 true)].

Definition colorClass : ClassType := instanceOf colorDetails.
Definition colorRed : ClassType :=
  withLiteral colorClass (LitEnum "Color" "RED").
Definition colorGreen : ClassType :=
  withLiteral colorClass (LitEnum "Color" "GREEN").

(** The method [Color.describe]. *)
Definition describeMethod : Ty :=
  Function (mkFunctionType "app.Color.describe" None [] 0 None None None
              (Some strType) None).

Definition effectiveTypeOfSymbol (symbol : Symbol) : Ty :=
  match symbolId symbol with
  | 1 => Class colorRed
  | 2 => Class colorGreen
  | 3 => describeMethod
  | 4 => strType
  | _ => Unknown
  end.

Definition typedDictDetails (name fullName : string) (id : nat)
  : ClassDetails :=
  mkClassDetails name fullName id false false true false false
    [Some fullName; Some "builtins.object"] None [].

Definition movieType : Ty :=
  Class (instanceOf (typedDictDetails "Movie" "app.Movie" 60)).
Definition bookType : Ty :=
  Class (instanceOf (typedDictDetails "Book" "app.Book" 61)).
(** A TypedDict whose [kind] entry is a plain [str]. *)
Definition looseType : Ty :=
  Class (instanceOf (typedDictDetails "Loose" "app.Loose" 62)).

Definition strLiteral (v : string) : ClassType := withLiteral strClass (LitStr v).
Definition intLiteral (v : Z) : ClassType := withLiteral intClass (LitInt v).

Definition typedDictMembers (c : ClassType) (allowNarrowed : bool)
  : list (string * TypedDictEntry) :=
  let n := fullName (details c) in
  if String.eqb n "app.Movie" then
    [("kind", mkTypedDictEntry (Class (strLiteral "movie")) true false);
     ("director", mkTypedDictEntry strType true false)]
  else if String.eqb n "app.Book" then
    [("kind", mkTypedDictEntry (Class (strLiteral "book")) true false)]
  else if String.eqb n "app.Loose" then
    [("kind", mkTypedDictEntry strType true false)]
  else [].

Definition tupleDetails : ClassDetails :=
  mkClassDetails "tuple" "builtins.tuple" 7 true false false true false
    [Some "builtins.tuple"; Some "builtins.object"] None [].

Definition tupleOf (entries : list Ty) : Ty :=
  Class (mkClassType tupleDetails false [] (Some entries)
           (Some (map (fun t => mkTupleTypeArgument t false) entries))
           None None false None false).

(** *** Declarations of local names: two aliases that name each other *)

Definition declarationsOf (name : Expr) : option (list Declaration) :=
  match name with
  | Name _ "a" =>
      Some [mkDeclaration DeclVariable 20 0 (Some (Name 11 "b")) true]
  | Name _ "b" =>
      Some [mkDeclaration DeclVariable 21 0 (Some (Name 10 "a")) true]
  | Name _ "x" => Some [mkDeclaration DeclParameter 22 0 None false]
  | _ => None
  end.

(** *** The helpers and the evaluator *)

Definition stripLiteral (t : Ty) : Ty :=
  let strip s :=
    match s with
    | Class c => Class (ClassType_.cloneWithLiteral c None)
    | _ => s
    end in
  match t with
  | Union l => Union (map strip l)
  | _ => strip t
  end.

Definition hasLiteral (t : Ty) : bool :=
  match t with
  | Class c => isSome (literalValue c)
  | Union l =>
      existsb (fun s => match s with
                        | Class c => isSome (literalValue c)
                        | _ => false
                        end) l
  | _ => false
  end.

Definition toInstance (t : Ty) (includeSubclasses : bool) : Ty :=
  match t with
  | Class c =>
      Class (mkClassType (details c) false (typeParameters c)
               (typeArguments c) (tupleTypeArguments c) (literalValue c)
               (classCondition c) (isUnpackedClass c) (typeGuardType c)
               (isStrictTypeGuard c))
  | NoneT _ c => NoneT false c
  | _ => t
  end.

Definition toInstantiable (t : Ty) : Ty :=
  match t with
  | Class c => Class (ClassType_.cloneAsInstantiable c)
  | NoneT _ c => NoneT true c
  | _ => t
  end.

Definition paramSpecValueToType (value : ParamSpecValue) (omitParamSpec : bool)
  : Ty :=
  Function (mkFunctionType "" None
              (map (fun e => mkFunctionParameter (pseCategory e) (pseName e)
                               (pseIsNameSynthesized e) (pseHasDefault e)
                               (pseType e))
                   (psParameters value))
              (psFlags value) (psTypeVarScopeId value) (psDocString value)
              (if omitParamSpec then None else psParamSpec value)
              None None).

Definition scopeIdOfType (t : Ty) : option string :=
  match t with
  | Class c => typeVarScopeId (details c)
  | Function f => fnTypeVarScopeId f
  | _ => None
  end.

#[export] Instance utils : TypeUtils := {|
  isTypeSame := tyEqb;
  combineConditions := fun a b => List.app a b;
  stripLiteralValue := stripLiteral;
  containsLiteralType := hasLiteral;
  isEffectivelyInstantiable :=
    fun t => TypeBase.isInstantiable t || isAnyOrUnknown t;
  isPartlyUnknown :=
    fun t => match t with
             | Unknown => true
             | Union l => existsb isUnknown l
             | _ => false
             end;
  convertToInstance := toInstance;
  convertToInstantiable := toInstantiable;
  transformPossibleRecursiveTypeAlias := fun t => t;
  transformExpectedTypeForConstructor := fun t _ _ => Some t;
  convertParamSpecValueToType := paramSpecValueToType;
  getEffectiveParameterType :=
    fun f index =>
      match nth_error (parameters f) index with
      | Some p => paramType p
      | None => Unknown
      end;
  specializeUnpackedTuple :=
    fun tupleClass src =>
      match tupleClass with
      | Class c =>
          Class (mkClassType (details c) false (typeParameters c)
                   (Some [src])
                   (Some [mkTupleTypeArgument src false])
                   None None true None false)
      | _ => Unknown
      end;
  getTypeVarScopeId := scopeIdOfType;
  getTypedDictMembersForClass := typedDictMembers;
  getScopeTypeForNode := fun _ => Some ScopeModule;
  lookUpSymbolDeclarations := declarationsOf;
  isNodeContainedWithin := fun _ _ => false;
  maxTypeRecursionCount := 20
|}.

Definition typeOfLiteralExpression (e : Expr) (flags : Z) : Ty :=
  match e with
  | Constant _ KwNone => noneType
  | Constant _ KwTrue => Class (withLiteral boolClass (LitBool true))
  | Constant _ KwFalse => Class (withLiteral boolClass (LitBool false))
  | Number _ (JsNumber z) true false => Class (intLiteral z)
  | StringList _ [StringNode v] => Class (strLiteral v)
  | _ => Unknown
  end.

Definition evaluator : TypeEvaluator := {|
  assignType := nominalAssignType;
  makeTopLevelTypeVarsConcrete := concretise;
  getTypeOfExpression := typeOfLiteralExpression;
  getObjectType := Some objectType;
  getTupleClassType := Some (Class (ClassType_.cloneAsInstantiable
                                      (instanceOf tupleDetails)));
  getEffectiveTypeOfSymbol := effectiveTypeOfSymbol;
  isNodeReachable := fun _ _ => true
|}.

(** Narrowing functions outside the scope of the properties: they leave
    the type as it is. *)
Definition narrowingOps : NarrowingOps := {|
  narrowTupleTypeForIsNone := fun _ t _ _ => t;
  narrowTypeForTypeIs := fun t _ _ => t;
  narrowTypeForTupleLength := fun _ t _ _ => t;
  narrowTypeForDiscriminatedLiteralFieldComparison := fun _ t _ _ _ => t;
  narrowTypeForDiscriminatedFieldNoneComparison := fun _ t _ _ => t;
  narrowTypeForContainerType := fun _ t _ => t;
  narrowTypeForTypedDictKey := fun _ t _ _ => t;
  getIsInstanceClassTypes := fun _ => None;
  narrowTypeForIsInstance := fun _ t _ _ _ _ _ => t;
  narrowTypeForCallable := fun _ t _ _ _ => t;
  narrowTypeForTruthiness := fun _ t _ => t;
  narrowTypeForUserDefinedTypeGuard := fun _ t _ _ _ => t
|}.

(** *** Type variables and contexts for the solver *)

Definition typeVariable (name scope : string) (bound : option Ty)
  (constraints : list Ty) (variance : Variance) : TypeVarType :=
  mkTypeVarType name (Some scope) bound constraints variance false false
    false false false None false false None.

Definition solvingFor (scope : string) : TypeVarContext :=
  TypeVarContext_.create (Some scope).

(** [T] bound by [Sequence[int]], and by [object]. *)
Definition boundedBySequence : TypeVarType :=
  typeVariable "T" "f" (Some sequenceOfInt) [] Invariant.
Definition boundedByObject : TypeVarType :=
  typeVariable "T" "f" (Some objectType) [] Invariant.

(** A context in which the narrow bound of the type variable is already a
    union of 65 classes. *)
Definition pathologicalContext (t : TypeVarType) : TypeVarContext :=
  TypeVarContext_.setTypeVarType (solvingFor "f") t
    (Some (userSequences 65)) None (Some false).


(** The generic class [Box], the type variable [V] of a function [fn],
    and the synthesized [Self] of [Box[V]]. *)
Definition boxDetails : ClassDetails :=
  mkClassDetails "Box" "app.Box" 70 false false false false false
    [Some "app.Box"; Some "builtins.object"] (Some "Box") [].
Definition boxOf (argument : Ty) : Ty :=
  Class (withTypeArguments (instanceOf boxDetails) [argument]).
Definition valueVariable : TypeVarType :=
  typeVariable "V" "fn" None [] Invariant.
Definition selfOfBox : TypeVarType :=
  mkTypeVarType "__type_of_self__" (Some "Box")
    (Some (boxOf (TypeVar valueVariable))) [] Invariant false false false
    true true None false false None.

(** The generic class [Triple[A_co, B_contra, C]] with one parameter of
    each variance. *)
Definition covariantParameter : TypeVarType :=
  typeVariable "A_co" "Triple" None [] Covariant.
Definition contravariantParameter : TypeVarType :=
  typeVariable "B_contra" "Triple" None [] Contravariant.
Definition invariantParameter : TypeVarType :=
  typeVariable "C" "Triple" None [] Invariant.
Definition tripleDetails : ClassDetails :=
  mkClassDetails "Triple" "app.Triple" 71 false false false false false
    [Some "app.Triple"; Some "builtins.object"] (Some "Triple") [].
Definition tripleClass : ClassType :=
  mkClassType tripleDetails false
    [covariantParameter; contravariantParameter; invariantParameter]
    None None None None false None false.
(** [Triple[int, str, bytes]] *)
Definition tripleOfIntStrBytes : Ty :=
  Class (withTypeArguments tripleClass [intType; strType; bytesType]).

End Fixture.

(** ** The vocabulary of the properties *)

Unset Implicit Arguments.
#[global] Existing Instance Fixture.utils.

(** [(t := (t := ... value))]: [count] assignment expressions, one in the
    other. *)
Fixpoint nestedAssignments (count : nat) (value : Expr) : Expr :=
  match count with
  | 0 => value
  | S count =>
      AssignmentExpression 0 (Name 0 "t") (nestedAssignments count value)
  end.

(** The statement of the specification: a TypedDict instance whose declared
    entry for the key has a literal or literal-union value type. *)
Definition isDiscriminatingTypedDict {U : TypeUtils} (key : string) (t : Ty)
  : bool :=
  match t with
  | Class c =>
      negb (classInstantiable c)
      && ClassType_.isTypedDictClass c
      && match mapGet key (getTypedDictMembersForClass c false) with
         | Some entry => isLiteralTypeOrUnion (valueType entry)
         | None => false
         end
  | _ => false
  end.

(** The statement of the specification: a fixed-length tuple with a
    literal-typed element at the index. *)
Definition isDiscriminatingTuple (index : Z) (t : Ty) : bool :=
  match t with
  | Class c =>
      negb (classInstantiable c)
      && ClassType_.isTupleClass c
      && negb (isUnboundedTupleClass c)
      && match tupleTypeArguments c with
         | Some args =>
             (0 <=? index)%Z
             && (index <? Z.of_nat (List.length args))%Z
             && match nth_error args (Z.to_nat index) with
                | Some entry => isLiteralTypeOrUnion (tupleArgType entry)
                | None => false
                end
         | None => false
         end
  | _ => false
  end.

(** An instance of the built-in [object]. *)
Definition isObjectInstance (t : Ty) : bool :=
  match t with
  | Class c => negb (classInstantiable c) && ClassType_.isBuiltIn c "object"
  | _ => false
  end.

(** The polarity of a comparison: [is] and [==] keep it, [is not] and [!=]
    invert it. *)
Definition adjustedPolarity (operator : OperatorType) (isPositiveTest : bool)
  : bool :=
  match operator with
  | OpIs | OpEquals => isPositiveTest
  | _ => negb isPositiveTest
  end.



(** A step that keeps the lock and touches the entry of one key at most. *)
Definition touchesOnly (X : Type)
  (step : TypeVarContext -> X -> TypeVarContext) (key : X -> string) : Prop :=
  forall ctx x,
    locked (step ctx x) = locked ctx
    /\ forall k, k <> key x ->
                 mapGet k (typeVarMap (step ctx x)) = mapGet k (typeVarMap ctx).

(** Every entry of the context sits under the key of its type variable,
    and no key occurs twice. *)
Definition coherent (ctx : TypeVarContext) : Prop :=
  NoDup (map fst (typeVarMap ctx))
  /\ forall k e, In (k, e) (typeVarMap ctx) ->
                 k = TypeVarContext_.getKey (typeVar e).

(** * The rest of the sources *)

(** ** [workspaceMap.ts]: the workspaces of a language server *)

(** [Map.prototype.delete] on a map kept as an association list. *)
Definition mapDelete {V : Set} (k : string) (m : list (string * V))
  : list (string * V) :=
  filter (fun kv => negb (String.eqb (fst kv) k)) m.

Module WorkspaceMap.

(** The analyzer service of a workspace, as far as the map looks into it:
    [backgroundAnalysisProgram.backgroundAnalysis] is present or not. *)
Record AnalyzerService : Set := mkAnalyzerService {
  serviceId : nat;
  hasBackgroundAnalysis : bool
}.

(** [WorkspaceServiceInstance]; [isInitialized] is a deferred that is
    pending ([None]) or resolved. *)
Record WorkspaceServiceInstance : Set := mkWorkspaceServiceInstance {
  workspaceName : string;
  rootPath : string;
  rootUri : string;
  serviceInstance : AnalyzerService;
  kind : string;
  disableLanguageServices : bool;
  disableOrganizeImports : bool;
  disableWorkspaceSymbol : bool;
  isInitialized : option bool;
  searchPathsToWatch : list string
}.

(** The methods of [LanguageServerBase] the map calls. *)
Record LanguageServerBase : Set := mkLanguageServerBase {
  createAnalyzerService : string -> AnalyzerService
}.

(** What the map does to the world outside it. *)
Inductive Effect : Set :=
| Shutdown (service : AnalyzerService)
| CreatedAnalyzerService (name : string)
| UpdatedSettingsForWorkspace (workspace : WorkspaceServiceInstance).

(** The map itself: a JavaScript [Map], in insertion order. *)
Definition t : Set := list (string * WorkspaceServiceInstance).

Definition _defaultWorkspacePath : string := "<default>".

Definition size (this : t) : nat := List.length this.

Definition delete (this : t) (key : string) : bool * t * list Effect :=
  match mapGet key this with
  | None => (false, this, [])
  | Some workspace =>
      (* Make sure we shutdown BG for the workspace. *)
      (true, mapDelete key this,
       if hasBackgroundAnalysis (serviceInstance workspace)
       then [Shutdown (serviceInstance workspace)] else [])
  end.

(** [!kind]: an absent or empty string. *)
Definition kindIsFalsy (kind : option string) : bool :=
  match kind with
  | None => true
  | Some k => String.eqb k ""
  end.

Definition kindOf (workspace : WorkspaceServiceInstance) : string :=
  kind workspace.

(** [!kind || workspace.kind === kind] *)
Definition kindMatches (kind : option string)
  (workspace : WorkspaceServiceInstance) : bool :=
  kindIsFalsy kind
  || match kind with
     | Some k => String.eqb (kindOf workspace) k
     | None => false
     end.

(** [kind && workspace.kind !== kind] *)
Definition kindDiffers (kind : option string)
  (workspace : WorkspaceServiceInstance) : bool :=
  negb (kindIsFalsy kind)
  && match kind with
     | Some k => negb (String.eqb (kindOf workspace) k)
     | None => false
     end.

(** The [for] loop of [hasMultipleWorkspaces], which returns as soon as
    it has counted two. *)
Fixpoint countsMoreThanOne (kind : option string) (count : nat)
  (entries : list (string * WorkspaceServiceInstance)) : bool :=
  match entries with
  | [] => false
  | kv :: rest =>
      let count := if kindMatches kind (snd kv) then S count else count in
      if Nat.ltb 1 count then true else countsMoreThanOne kind count rest
  end.

Definition hasMultipleWorkspaces (this : t) (kind : option string) : bool :=
  if Nat.eqb (size this) 0 || Nat.eqb (size this) 1 then false
  else countsMoreThanOne kind 0 this.

Definition getNonDefaultWorkspaces (this : t) (kind : option string)
  : list WorkspaceServiceInstance :=
  filter
    (fun workspace =>
       if String.eqb (rootPath workspace) "" then false
       else if kindDiffers kind workspace then false
       else true)
    (map snd this).

(** One turn of the [forEach] of [getWorkspaceForFile] over the pair
    [bestRootPath], [bestInstance]. *)
Definition considerWorkspace (filePath : string)
  (best : option string * option WorkspaceServiceInstance)
  (workspace : WorkspaceServiceInstance)
  : option string * option WorkspaceServiceInstance :=
  let '(bestRootPath, bestInstance) := best in
  if negb (String.eqb (rootPath workspace) "") then
    (* Is the file is under this workspace folder? *)
    if String.prefix (rootPath workspace) filePath then
      (* Is this the first candidate? If not, is this workspace folder
         contained within the previous candidate folder? *)
      if match bestRootPath with
         | None => true
         | Some b => String.prefix b (rootPath workspace)
         end
      then (Some (rootPath workspace), Some workspace)
      else best
    else best
  else best.

Section GetWorkspaceForFile.
(** [WellKnownWorkspaceKinds.Default] ([languageServerBase.ts] is not
    among the sources). *)
Variable defaultKind : string.

Definition getWorkspaceForFile (ls : LanguageServerBase) (this : t)
  (filePath : string) : WorkspaceServiceInstance * t * list Effect :=
  let '(_, bestInstance) :=
    fold_left (considerWorkspace filePath) (map snd this) (None, None) in
  match bestInstance with
  | Some bestInstance => (bestInstance, this, [])
  | None =>
      (* If there were multiple workspaces or we couldn't find any, create
         a default one to use for this file. *)
      match mapGet _defaultWorkspacePath this with
      | Some defaultWorkspace => (defaultWorkspace, this, [])
      | None =>
          match this with
          | [(_, onlyWorkspace)] =>
              (* If there is only one workspace, use that one. *)
              (onlyWorkspace, this, [])
          | _ =>
              (* Create a default workspace for files that are outside of
                 all workspaces. *)
              let defaultWorkspace :=
                mkWorkspaceServiceInstance "" "" ""
                  (createAnalyzerService ls _defaultWorkspacePath)
                  defaultKind false false false None [] in
              (defaultWorkspace,
               mapSet _defaultWorkspacePath defaultWorkspace this,
               [CreatedAnalyzerService _defaultWorkspacePath;
                UpdatedSettingsForWorkspace defaultWorkspace])
          end
      end
  end.

End GetWorkspaceForFile.

End WorkspaceMap.

(** A workspace folder that holds the file: its root path is not empty and
    the path of the file starts with it. *)
Definition containsFile (filePath : string)
  (workspace : WorkspaceMap.WorkspaceServiceInstance) : bool :=
  negb (String.eqb (WorkspaceMap.rootPath workspace) "")
  && String.prefix (WorkspaceMap.rootPath workspace) filePath.

(** Two nested workspace folders and a language server, to run the map
    on. *)
Module WorkspaceFixture.
Import WorkspaceMap.

Definition server : LanguageServerBase :=
  mkLanguageServerBase (fun _ => mkAnalyzerService 0 false).

Definition workspaceAt (name root : string) (service : nat)
  (background : bool) : WorkspaceServiceInstance :=
  mkWorkspaceServiceInstance name root ("file://" ++ root)
    (mkAnalyzerService service background) "regular" false false false
    (Some true) [].

Definition outer : WorkspaceServiceInstance :=
  workspaceAt "proj" "/proj" 1 true.
Definition inner : WorkspaceServiceInstance :=
  workspaceAt "pkg" "/proj/pkg" 2 false.

Definition workspaces : t := [("pkg", inner); ("proj", outer)].

End WorkspaceFixture.

(** ** [parseTreeUtils.ts]: partial matches and dotted names *)

Module ReferenceExpressions.
Import ParseTreeUtils.

Fixpoint isPartialMatchingExpression (reference expression : Expr) : bool :=
  match reference with
  | MemberAccess _ leftExpression _ =>
      isMatchingExpression leftExpression expression
      || isPartialMatchingExpression leftExpression expression
  | Index _ baseExpression _ _ _ =>
      isMatchingExpression baseExpression expression
      || isPartialMatchingExpression baseExpression expression
  | _ => false
  end.

(** The inner function of [getDottedName].  The name nodes are given by
    their values; [names.push] appends.  The argument is typed
    [MemberAccessNode | NameNode]: another node is not a dotted name. *)
Fixpoint _getDottedName (node : Expr) (names : list string)
  : bool * list string :=
  match node with
  | Name _ value => (true, List.app names [value])
  | MemberAccess _ leftExpression memberName =>
      let names := List.app names [memberName] in
      match leftExpression with
      | Name _ _ | MemberAccess _ _ _ => _getDottedName leftExpression names
      | _ => (false, names)
      end
  | _ => (false, names)
  end.

Definition getDottedName (node : Expr) : option (list string) :=
  match node with
  | Name _ value =>
      (* simple case, [a] *)
      Some [value]
  | _ =>
      (* dotted name case. *)
      let '(ok, names) := _getDottedName node [] in
      if ok then Some (rev names) else None
  end.

Fixpoint getFirstNameOfDottedName (node : Expr) : option string :=
  match node with
  | Name _ value => Some value
  | MemberAccess _ leftExpression _ =>
      match leftExpression with
      | Name _ _ | MemberAccess _ _ _ =>
          getFirstNameOfDottedName leftExpression
      | _ => None
      end
  | _ => None
  end.

End ReferenceExpressions.

(** The expressions a reference is built on: its receiver or base, the
    receiver or base of that one, and so on. *)
Fixpoint properBases (reference : Expr) : list Expr :=
  match reference with
  | MemberAccess _ leftExpression _ =>
      leftExpression :: properBases leftExpression
  | Index _ baseExpression _ _ _ =>
      baseExpression :: properBases baseExpression
  | _ => []
  end.

(** A name or a member access: the nodes [getDottedName] is typed
    for. *)
Definition isNameOrMemberAccess (node : Expr) : bool :=
  match node with
  | Name _ _ | MemberAccess _ _ _ => true
  | _ => false
  end.

(** The subscript of a reference key, as the comparison reads it. *)
Inductive SubscriptKey : Set :=
| IntegerKey (value : NumberValue)
| NegatedIntegerKey (value : NumberValue)
| StringKey (value : string).

Definition subscriptKey (e : Expr) : option SubscriptKey :=
  match e with
  | Number _ value true false => Some (IntegerKey value)
  | UnaryOperation _ OpSubtract (Number _ value true false) =>
      Some (NegatedIntegerKey value)
  | StringList _ [StringNode value] => Some (StringKey value)
  | _ => None
  end.

(** The key of a reference: its names, members and subscripts, from the
    innermost name outwards; node ids play no part in it. *)
Inductive KeyPart : Set :=
| NamePart (value : string)
| MemberPart (memberName : string)
| SubscriptPart (key : SubscriptKey).

Fixpoint referenceKey (reference : Expr) : option (list KeyPart) :=
  match reference with
  | Name _ value => Some [NamePart value]
  | MemberAccess _ leftExpression memberName =>
      option_map (fun key => MemberPart memberName :: key)
        (referenceKey leftExpression)
  | Index _ baseExpression item0 moreItems trailingComma =>
      match referenceKey baseExpression,
            MatchingSpec.scalarItem item0 moreItems trailingComma with
      | Some key, Some subscript =>
          option_map (fun k => SubscriptPart k :: key)
            (subscriptKey subscript)
      | _, _ => None
      end
  | _ => None
  end.

(** The names a dotted name spells, the first one first: a name spells
    itself, and a member access of a dotted name spells the names of its
    receiver and then its member. *)
Fixpoint dottedNames (node : Expr) : option (list string) :=
  match node with
  | Name _ value => Some [value]
  | MemberAccess _ leftExpression memberName =>
      if isNameOrMemberAccess leftExpression then
        option_map (fun names => List.app names [memberName])
          (dottedNames leftExpression)
      else None
  | _ => None
  end.

(** Expressions to run the predicates on: [a.b[0]] twice, with different
    node ids, [a.b], [a] and [a.b.c]. *)
Module ExpressionFixture.

Definition indexed (base : nat) : Expr :=
  Index base
    (MemberAccess (base + 1) (Name (base + 2) "a") "b")
    (mkArgument Simple None (Number (base + 3) (JsNumber 0) true false))
    [] false.

Definition member (base : nat) : Expr :=
  MemberAccess base (Name (base + 1) "a") "b".

Definition longer (base : nat) : Expr :=
  MemberAccess base (member (base + 1)) "c".

(** [a[i]]: the subscript is a name. *)
Definition indexedByName : Expr :=
  Index 1 (Name 2 "a") (mkArgument Simple None (Name 3 "i")) [] false.

End ExpressionFixture.

(** ** [parseTreeUtils.ts]: walking up the parse tree *)

Module ParseTree.

(** The node types the walks look for; [NodeOther] stands for the
    rest. *)
Inductive ParseNodeType : Set :=
| NodeError | NodeClass | NodeDecorator | NodeEllipsis | NodeFor
| NodeFunction | NodeLambda | NodeModule | NodeName | NodeParameter
| NodePass | NodeStatementList | NodeStringList | NodeSuite
| NodeTypeAlias | NodeWhile
| NodeOther (code : nat).

Definition ParseNodeType_eq_dec :
  forall a b : ParseNodeType, {a = b} + {a <> b}.
Proof. decide equality. apply Nat.eq_dec. Defined.

Definition nodeTypeIs (a b : ParseNodeType) : bool :=
  if ParseNodeType_eq_dec a b then true else false.

(** A node with its parent pointer.  [id] stands for the identity of the
    node object ([===]); [name] is [node.name.value] of a class or a
    function, and [decorators] holds the ids of the decorator nodes of a
    class or a function. *)
Inductive ParseNode : Set :=
| mkParseNode (nodeType : ParseNodeType) (id : nat) (name : string)
              (decorators : list nat) (parent : option ParseNode).

Definition nodeType (node : ParseNode) : ParseNodeType :=
  let 'mkParseNode t _ _ _ _ := node in t.
Definition id (node : ParseNode) : nat :=
  let 'mkParseNode _ i _ _ _ := node in i.
Definition name (node : ParseNode) : string :=
  let 'mkParseNode _ _ n _ _ := node in n.
Definition decorators (node : ParseNode) : list nat :=
  let 'mkParseNode _ _ _ d _ := node in d.
Definition parent (node : ParseNode) : option ParseNode :=
  let 'mkParseNode _ _ _ _ p := node in p.

(** [a === b] for an optional node [a]. *)
Definition sameNode (a : option ParseNode) (b : nat) : bool :=
  match a with
  | Some a => Nat.eqb (id a) b
  | None => false
  end.

(** Returns the depth of the node as measured from the root of the parse
    tree. *)
Fixpoint getNodeDepth (node : ParseNode) : nat :=
  match parent node with
  | Some curNode => S (getNodeDepth curNode)
  | None => 1
  end.

(** Each walk below is the [while (curNode)] loop of its function, taken
    at [curNode]. *)
Fixpoint enclosingSuiteAt (curNode : ParseNode) : option ParseNode :=
  if nodeTypeIs (nodeType curNode) NodeSuite then Some curNode
  else match parent curNode with
       | Some p => enclosingSuiteAt p
       | None => None
       end.

Definition getEnclosingSuite (node : ParseNode) : option ParseNode :=
  match parent node with
  | Some curNode => enclosingSuiteAt curNode
  | None => None
  end.

Fixpoint enclosingClassAt (stopAtFunction : bool) (curNode : ParseNode)
  : option ParseNode :=
  if nodeTypeIs (nodeType curNode) NodeClass then Some curNode
  else if nodeTypeIs (nodeType curNode) NodeModule then None
  else if nodeTypeIs (nodeType curNode) NodeFunction && stopAtFunction
  then None
  else match parent curNode with
       | Some p => enclosingClassAt stopAtFunction p
       | None => None
       end.

Definition getEnclosingClass (node : ParseNode) (stopAtFunction : bool)
  : option ParseNode :=
  match parent node with
  | Some curNode => enclosingClassAt stopAtFunction curNode
  | None => None
  end.

Fixpoint enclosingModuleAt (curNode : ParseNode) : option ParseNode :=
  if nodeTypeIs (nodeType curNode) NodeModule then Some curNode
  else match parent curNode with
       | Some p => enclosingModuleAt p
       | None => None
       end.

(** [None] stands for the failure [fail('Module node not found')]. *)
Definition getEnclosingModule (node : ParseNode) : option ParseNode :=
  match parent node with
  | Some curNode => enclosingModuleAt curNode
  | None => None
  end.

Fixpoint enclosingClassOrModuleAt (stopAtFunction : bool)
  (curNode : ParseNode) : option ParseNode :=
  if nodeTypeIs (nodeType curNode) NodeClass then Some curNode
  else if nodeTypeIs (nodeType curNode) NodeModule then Some curNode
  else if nodeTypeIs (nodeType curNode) NodeFunction && stopAtFunction
  then None
  else match parent curNode with
       | Some p => enclosingClassOrModuleAt stopAtFunction p
       | None => None
       end.

Definition getEnclosingClassOrModule (node : ParseNode)
  (stopAtFunction : bool) : option ParseNode :=
  match parent node with
  | Some curNode => enclosingClassOrModuleAt stopAtFunction curNode
  | None => None
  end.

Fixpoint enclosingFunctionAt (prevNode : option ParseNode)
  (curNode : ParseNode) : option ParseNode :=
  if nodeTypeIs (nodeType curNode) NodeFunction
     (* Don't treat a decorator as being "enclosed" in the function. *)
     && negb (existsb (sameNode prevNode) (decorators curNode))
  then Some curNode
  else if nodeTypeIs (nodeType curNode) NodeClass then None
  else match parent curNode with
       | Some p => enclosingFunctionAt (Some curNode) p
       | None => None
       end.

Definition getEnclosingFunction (node : ParseNode) : option ParseNode :=
  match parent node with
  | Some curNode => enclosingFunctionAt None curNode
  | None => None
  end.

Fixpoint enclosingLambdaAt (curNode : ParseNode) : option ParseNode :=
  if nodeTypeIs (nodeType curNode) NodeLambda then Some curNode
  else if nodeTypeIs (nodeType curNode) NodeSuite then None
  else match parent curNode with
       | Some p => enclosingLambdaAt p
       | None => None
       end.

Definition getEnclosingLambda (node : ParseNode) : option ParseNode :=
  match parent node with
  | Some curNode => enclosingLambdaAt curNode
  | None => None
  end.

Fixpoint enclosingClassOrFunctionAt (curNode : ParseNode)
  : option ParseNode :=
  if nodeTypeIs (nodeType curNode) NodeFunction then Some curNode
  else if nodeTypeIs (nodeType curNode) NodeClass then Some curNode
  else match parent curNode with
       | Some p => enclosingClassOrFunctionAt p
       | None => None
       end.

Definition getEnclosingClassOrFunction (node : ParseNode)
  : option ParseNode :=
  match parent node with
  | Some curNode => enclosingClassOrFunctionAt curNode
  | None => None
  end.

Fixpoint enclosingSuiteOrModuleAt (stopAtFunction stopAtLambda : bool)
  (curNode : ParseNode) : option ParseNode :=
  if nodeTypeIs (nodeType curNode) NodeSuite then Some curNode
  else if nodeTypeIs (nodeType curNode) NodeModule then Some curNode
  else if nodeTypeIs (nodeType curNode) NodeLambda && stopAtLambda
  then None
  else if nodeTypeIs (nodeType curNode) NodeFunction && stopAtFunction
  then None
  else match parent curNode with
       | Some p => enclosingSuiteOrModuleAt stopAtFunction stopAtLambda p
       | None => None
       end.

Definition getEnclosingSuiteOrModule (node : ParseNode)
  (stopAtFunction stopAtLambda : bool) : option ParseNode :=
  match parent node with
  | Some curNode =>
      enclosingSuiteOrModuleAt stopAtFunction stopAtLambda curNode
  | None => None
  end.

(** Returns the parse node corresponding to the function, class, or type
    alias that contains the specified typeVar reference; [None] is the
    [undefined] the function returns at the root. *)
Fixpoint typeVarScopeNodeAt (prevNode : option ParseNode)
  (curNode : ParseNode) : option ParseNode :=
  if (nodeTypeIs (nodeType curNode) NodeFunction
      || nodeTypeIs (nodeType curNode) NodeClass)
     && negb (existsb (sameNode prevNode) (decorators curNode))
  then Some curNode
  else if nodeTypeIs (nodeType curNode) NodeTypeAlias then Some curNode
  else match parent curNode with
       | Some p => typeVarScopeNodeAt (Some curNode) p
       | None => None
       end.

Definition getTypeVarScopeNode (node : ParseNode) : option ParseNode :=
  typeVarScopeNodeAt None node.

Fixpoint isNodeContainedWithin (node potentialContainer : ParseNode)
  : bool :=
  if Nat.eqb (id node) (id potentialContainer) then true
  else match parent node with
       | Some p => isNodeContainedWithin p potentialContainer
       | None => false
       end.

Fixpoint getParentNodeOfType (node : ParseNode)
  (containerType : ParseNodeType) : option ParseNode :=
  if nodeTypeIs (nodeType node) containerType then Some node
  else match parent node with
       | Some p => getParentNodeOfType p containerType
       | None => None
       end.

Definition isNodeContainedWithinNodeType (node : ParseNode)
  (containerType : ParseNodeType) : bool :=
  isSome (getParentNodeOfType node containerType).

Fixpoint getEnclosingParameter (node : ParseNode) : option ParseNode :=
  if nodeTypeIs (nodeType node) NodeParameter then Some node
  else match parent node with
       | Some p => getEnclosingParameter p
       | None => None
       end.

Fixpoint isWithinLoop (node : ParseNode) : bool :=
  match nodeType node with
  | NodeFor | NodeWhile => true
  | _ =>
      (* the [break] of the [Module] case leaves the [switch] only *)
      match parent node with
      | Some p => isWithinLoop p
      | None => false
      end
  end.

Fixpoint getModuleNode (node : ParseNode) : option ParseNode :=
  if negb (nodeTypeIs (nodeType node) NodeModule) then
    match parent node with
    | Some p => getModuleNode p
    | None => None
    end
  else Some node.

(** [getFirstAncestorOrSelf]: the first of the nodes that
    [_getAncestorsIncludingSelf] yields on which the predicate holds. *)
Fixpoint getFirstAncestorOrSelf (node : ParseNode)
  (predicate : ParseNode -> bool) : option ParseNode :=
  if predicate node then Some node
  else match parent node with
       | Some p => getFirstAncestorOrSelf p predicate
       | None => None
       end.

Definition getFirstAncestorOrSelfOfKind (node : ParseNode)
  (type : ParseNodeType) : option ParseNode :=
  getFirstAncestorOrSelf node (fun n => nodeTypeIs (nodeType n) type).

(** The loop of [getClassFullName]: it looks up the enclosing class of
    the class found last until there is none; each step moves up the
    tree, so that the depth of the class node bounds the number of
    steps. *)
Fixpoint enclosingClassNames (steps : nat) (curNode : ParseNode)
  (nameParts : list string) : list string :=
  match steps with
  | O => nameParts
  | S steps =>
      match getEnclosingClass curNode false with
      | Some classNode =>
          enclosingClassNames steps classNode
            (List.app nameParts [name classNode])
      | None => nameParts
      end
  end.

Definition getClassFullName (classNode : ParseNode)
  (moduleName className : string) : string :=
  let nameParts := [className] in
  (* Walk the parse tree looking for classes. *)
  let nameParts :=
    enclosingClassNames (getNodeDepth classNode) classNode nameParts in
  let nameParts := List.app nameParts [moduleName] in
  String.concat "." (rev nameParts).

End ParseTree.

(** The node itself and its ancestors, the nearest first. *)
Fixpoint ancestorsOrSelf (node : ParseTree.ParseNode)
  : list ParseTree.ParseNode :=
  node :: match ParseTree.parent node with
          | Some p => ancestorsOrSelf p
          | None => []
          end.

(** The names of the classes around a node, the nearest first: the class
    nodes among its ancestors below the nearest module node. *)
Fixpoint classesAround (ancestors : list ParseTree.ParseNode)
  : list string :=
  match ancestors with
  | [] => []
  | a :: rest =>
      if ParseTree.nodeTypeIs (ParseTree.nodeType a) ParseTree.NodeClass
      then ParseTree.name a :: classesAround rest
      else if ParseTree.nodeTypeIs (ParseTree.nodeType a)
                ParseTree.NodeModule
      then []
      else classesAround rest
  end.

(** The ancestors of a node, the nearest first. *)
Definition properAncestors (node : ParseTree.ParseNode)
  : list ParseTree.ParseNode :=
  match ParseTree.parent node with
  | Some p => ancestorsOrSelf p
  | None => []
  end.

(** A small module to walk in:
    [module > class Outer > def method > class Inner], and a decorator of
    [method] with the name it applies. *)
Module TreeFixture.
Import ParseTree.

Definition moduleNode : ParseNode := mkParseNode NodeModule 1 "" [] None.
Definition outerClass : ParseNode :=
  mkParseNode NodeClass 2 "Outer" [] (Some moduleNode).
Definition outerSuite : ParseNode :=
  mkParseNode NodeSuite 3 "" [] (Some outerClass).
Definition method : ParseNode :=
  mkParseNode NodeFunction 4 "method" [5] (Some outerSuite).
Definition decorator : ParseNode :=
  mkParseNode NodeDecorator 5 "" [] (Some method).
Definition decoratorName : ParseNode :=
  mkParseNode NodeName 6 "" [] (Some decorator).
Definition methodSuite : ParseNode :=
  mkParseNode NodeSuite 7 "" [] (Some method).
Definition innerClass : ParseNode :=
  mkParseNode NodeClass 8 "Inner" [] (Some methodSuite).
Definition innerName : ParseNode :=
  mkParseNode NodeName 9 "" [] (Some innerClass).

End TreeFixture.

(** A function defined in the body of a [while] loop of a module. *)
Module LoopFixture.
Import ParseTree.

Definition moduleNode : ParseNode := mkParseNode NodeModule 1 "" [] None.
Definition whileNode : ParseNode :=
  mkParseNode NodeWhile 2 "" [] (Some moduleNode).
Definition functionNode : ParseNode :=
  mkParseNode NodeFunction 3 "callback" [] (Some whileNode).
Definition bodyName : ParseNode :=
  mkParseNode NodeName 4 "" [] (Some functionNode).

End LoopFixture.


(** ** [parseTreeUtils.ts]: suites, doc strings and parameter annotations *)

Module ParseStatements.
Import ParseNodes.

(** A string of a string list, with the flags of its token. *)
Record StringNode : Set := mkStringNode {
  value : string;
  tokenFlags : Z
}.

(** The statements of a statement list, as far as the functions below
    tell them apart. *)
Inductive SubStatement : Set :=
| EllipsisNode
| StringListNode (strings : list StringNode)
| PassNode
| OtherSubStatement (code : nat).

Inductive StatementNode : Set :=
| StatementListNode (statements : list SubStatement)
| ErrorNode
| OtherStatement (code : nat).

Record SuiteNode : Set := mkSuiteNode {
  statements : list StatementNode
}.

Record ParameterNode : Set := mkParameterNode {
  typeAnnotation : option Expr;
  typeAnnotationComment : option Expr
}.

Record FunctionAnnotationNode : Set := mkFunctionAnnotationNode {
  isParamListEllipsis : bool;
  paramTypeAnnotations : list Expr
}.

Record FunctionNode : Set := mkFunctionNode {
  parameters : list ParameterNode;
  returnTypeAnnotation : option Expr;
  functionAnnotationComment : option FunctionAnnotationNode;
  suite : SuiteNode
}.

(** The inner loop of [isSuiteEmpty]: [None] is its [return false]. *)
Fixpoint suiteSubstatements (sawEllipsis : bool)
  (substatements : list SubStatement) : option bool :=
  match substatements with
  | [] => Some sawEllipsis
  | EllipsisNode :: rest =>
      (* Allow an ellipsis *)
      suiteSubstatements true rest
  | StringListNode _ :: rest =>
      (* Allow doc strings *)
      suiteSubstatements sawEllipsis rest
  | _ :: _ => None
  end.

Fixpoint suiteStatements (sawEllipsis : bool)
  (statements : list StatementNode) : bool :=
  match statements with
  | [] => sawEllipsis
  | StatementListNode substatements :: rest =>
      match suiteSubstatements sawEllipsis substatements with
      | Some sawEllipsis => suiteStatements sawEllipsis rest
      | None => false
      end
  | _ :: _ => false
  end.

Definition isSuiteEmpty (node : SuiteNode) : bool :=
  suiteStatements false (statements node).

(** One turn of the inner [forEach] of [isFunctionSuiteEmpty] on
    [isEmpty]. *)
Definition functionSubstatement (isEmpty : bool) (subStatement : SubStatement)
  : bool :=
  match subStatement with
  (* Allow docstrings, ellipsis, and pass statements. *)
  | EllipsisNode | StringListNode _ | PassNode => isEmpty
  | OtherSubStatement _ => false
  end.

Definition functionStatement (isEmpty : bool) (statement : StatementNode)
  : bool :=
  match statement with
  | ErrorNode => isEmpty
  | StatementListNode substatements =>
      fold_left functionSubstatement substatements isEmpty
  | OtherStatement _ => false
  end.

Definition isFunctionSuiteEmpty (node : FunctionNode) : bool :=
  fold_left functionStatement (statements (suite node)) true.

Section DocStrings.
(** [StringTokenFlags.Format] ([tokenizerTypes.ts] is not among the
    sources). *)
Variable Format : Z.

Definition isDocString (statementList : list SubStatement) : bool :=
  (* If the first statement in the suite isn't a StringNode, assume there
     is no docString. *)
  match statementList with
  | StringListNode strings :: _ =>
      (* A docstring can consist of multiple joined strings in a single
         expression. *)
      if Nat.eqb (List.length strings) 0 then false
      (* Any f-strings invalidate the entire docstring. *)
      else if existsb
                (fun n => negb (Z.eqb (Z.land (tokenFlags n) Format) 0))
                strings
      then false
      else true
  | _ => false
  end.

Definition getDocString (statements : list StatementNode) : option string :=
  (* See if the first statement in the suite is a triple-quote string. *)
  match statements with
  | [] => None
  | StatementListNode statementList :: _ =>
      if negb (isDocString statementList) then None
      else
        match statementList with
        | StringListNode strings :: _ =>
            match strings with
            | [s] => (* Common case. *) Some (value s)
            | _ => Some (String.concat "" (map value strings))
            end
        | _ => None
        end
  | _ :: _ => None
  end.

End DocStrings.

Definition getTypeAnnotationForParameter (node : FunctionNode)
  (paramIndex : nat) : option Expr :=
  match nth_error (parameters node) paramIndex with
  | None => None
  | Some param =>
      match typeAnnotation param with
      | Some annotation => Some annotation
      | None =>
          match typeAnnotationComment param with
          | Some annotation => Some annotation
          | None =>
              match functionAnnotationComment node with
              | None => None
              | Some comment =>
                  if isParamListEllipsis comment then None
                  else
                    let paramAnnotations := paramTypeAnnotations comment in
                    let firstCommentAnnotationIndex :=
                      if Nat.ltb (List.length paramAnnotations)
                           (List.length (parameters node))
                      then 1%Z else 0%Z in
                    let adjIndex :=
                      (Z.of_nat paramIndex - firstCommentAnnotationIndex)%Z in
                    if Z.ltb adjIndex 0
                       || Z.leb (Z.of_nat (List.length paramAnnotations))
                            adjIndex
                    then None
                    else nth_error paramAnnotations (Z.to_nat adjIndex)
              end
          end
      end
  end.

Definition isUnannotatedFunction (node : FunctionNode) : bool :=
  negb (isSome (returnTypeAnnotation node))
  && forallb
       (fun param =>
          negb (isSome (typeAnnotation param))
          && negb (isSome (typeAnnotationComment param)))
       (parameters node).

End ParseStatements.

(** The statements of the statement lists of a suite. *)
Definition substatementsOf
  (statements : list ParseStatements.StatementNode)
  : list ParseStatements.SubStatement :=
  flat_map
    (fun statement =>
       match statement with
       | ParseStatements.StatementListNode substatements => substatements
       | _ => []
       end)
    statements.

Definition isEllipsis (s : ParseStatements.SubStatement) : bool :=
  match s with ParseStatements.EllipsisNode => true | _ => false end.

(** A method [def f(self, a, b)] with the type comment
    [# type: (int, str) -> None], which leaves [self] out. *)
Module StatementFixture.
Import ParseNodes ParseStatements.

Definition plainParameter : ParameterNode := mkParameterNode None None.

Definition commented : FunctionNode :=
  mkFunctionNode [plainParameter; plainParameter; plainParameter] None
    (Some (mkFunctionAnnotationNode false [Name 1 "int"; Name 2 "str"]))
    (mkSuiteNode [StatementListNode [EllipsisNode]]).

End StatementFixture.


(** ** [typeGuards.ts]: more of the narrowing functions *)

(** Modelled from the spec: [isNoneTypeClass] ([types.ts] is not among
    the sources): the [None] variant with its instantiable bit set. *)
Definition isNoneTypeClass (t : Ty) : bool :=
  match t with NoneT i _ => i | _ => false end.

(** Modelled from the spec: [for_each_subtype] ([typeUtils.ts] is not
    among the sources): the callback is applied to every subtype of a
    union, in order, and to a type that is not a union itself; its
    closure state is threaded through. *)
Definition doForEachSubtype {S : Type} (type : Ty) (callback : S -> Ty -> S)
  (s : S) : S :=
  fold_left callback (expandUnion type) s.

Module Narrowing.
Section Narrowers.
Context {U : TypeUtils}.
Variable evaluator : TypeEvaluator.
(** [isSameWithoutLiteralValue] of [typeUtils.ts], which is not among the
    sources. *)
Variable isSameWithoutLiteralValue : Ty -> Ty -> bool.

Definition narrowSubtypeForUserDefinedTypeGuard (typeGuardType : Ty)
  (isPositiveTest : bool) (subtype typeGuardSubtype : Ty) : option Ty :=
  let isSubType := assignTypeDefault evaluator typeGuardType subtype in
  let isSuperType := assignTypeDefault evaluator subtype typeGuardSubtype in
  if isPositiveTest then
    if isSubType then Some subtype
    else if isSuperType then Some typeGuardSubtype
    else None
  else
    if negb isSubType && negb isSubType then Some subtype
    else None.

Definition narrowTypeForUserDefinedTypeGuard (type typeGuardType : Ty)
  (isPositiveTest isStrictTypeGuard : bool) : Ty :=
  (* For non-strict type guards, always narrow to the typeGuardType in the
     positive case and don't narrow in the negative case. *)
  if negb isStrictTypeGuard then
    if isPositiveTest then typeGuardType else type
  else
    (* For strict type guards, narrow the current type. *)
    mapSubtypes type
      (fun subtype =>
         Some (mapSubtypes typeGuardType
                 (narrowSubtypeForUserDefinedTypeGuard typeGuardType
                    isPositiveTest subtype))).

(** The test of [addClassTypesToList] that lets a type into the list. *)
Definition isClassTypeForList (subtype : Ty) : bool :=
  if isInstantiableClass subtype
     || (isTypeVar subtype && TypeBase.isInstantiable subtype)
  then true
  else if isNoneTypeClass subtype then true
  else match subtype with
       | Function f =>
           match parameters f with
           | [p0; p1] =>
               match category p0, category p1 with
               | VarArgList, VarArgDictionary => true
               | _, _ => false
               end
           | _ => false
           end
       | _ => false
       end.

(** [addClassTypesToList] on the pair [foundNonClassType],
    [classTypeList]. *)
Definition addClassTypesToList (types : list Ty) (state : bool * list Ty)
  : bool * list Ty :=
  fold_left
    (fun '(foundNonClassType, classTypeList) subtype =>
       if isClassTypeForList subtype
       then (foundNonClassType, List.app classTypeList [subtype])
       else (true, classTypeList))
    types state.

Fixpoint addClassTypesRecursive (subtype : Ty) (recursionCount : nat)
  (state : bool * list Ty) {struct subtype} : bool * list Ty :=
  if Nat.ltb maxTypeRecursionCount recursionCount then state
  else
    match subtype with
    | Class c =>
        if negb (classInstantiable c) && isTupleClass c then
          match tupleTypeArguments c with
          | Some entries =>
              (fix forEach (entries : list TupleTypeArgument)
                   (state : bool * list Ty) : bool * list Ty :=
                 match entries with
                 | [] => state
                 | tupleEntry :: rest =>
                     forEach rest
                       (addClassTypesRecursive (tupleArgType tupleEntry)
                          (S recursionCount) state)
                 end) entries state
          | None => state
          end
        else addClassTypesToList [subtype] state
    | _ => addClassTypesToList [subtype] state
    end.

(** The "isinstance" and "issubclass" calls support two forms - a simple
    form that accepts a single class, and a more complex form that
    accepts a tuple of classes (including arbitrarily-nested tuples).
    This method determines which form and returns a list of classes or
    undefined. *)
Definition getIsInstanceClassTypes (argType : Ty) : option (list Ty) :=
  let '(foundNonClassType, classTypeList) :=
    doForEachSubtype argType
      (fun state subtype => addClassTypesRecursive subtype 0 state)
      (false, []) in
  if foundNonClassType then None else Some classTypeList.

(** [tupleTypeArguments.length === lengthValue]: a number is compared by
    its value, whichever way it is written; a [bigint] is never [===] to
    a number. *)
Definition lengthIs (length : nat) (lengthValue : NumberValue) : bool :=
  match lengthValue with
  | JsNumber z => Z.eqb (Z.of_nat length) z
  | JsFraction numerator denominator =>
      Z.eqb (Z.of_nat length * Z.pos denominator) numerator
  | JsBigInt _ => false
  end.

Definition narrowSubtypeForTupleLength (lengthValue : NumberValue)
  (isPositiveTest : bool) (subtype : Ty) : option Ty :=
  let concreteSubtype := makeTopLevelTypeVarsConcrete evaluator subtype in
  (* If it's not a tuple, we can't narrow it. *)
  match concreteSubtype with
  | Class c =>
      if negb (isClassInstance concreteSubtype)
         || negb (isTupleClass c)
         || isUnboundedTupleClass c
      then Some subtype
      else
        match tupleTypeArguments c with
        | None => Some subtype
        | Some tupleTypeArguments =>
            let tupleLengthMatches :=
              lengthIs (List.length tupleTypeArguments) lengthValue in
            if Bool.eqb tupleLengthMatches isPositiveTest
            then Some subtype else None
        end
  | _ => Some subtype
  end.

(** Attempts to narrow a union of tuples based on their known length. *)
Definition narrowTypeForTupleLength (referenceType : Ty)
  (lengthValue : NumberValue) (isPositiveTest : bool) : Ty :=
  mapSubtypes referenceType
    (narrowSubtypeForTupleLength lengthValue isPositiveTest).

Definition supportedContainers : list string :=
  ["list"; "set"; "frozenset"; "deque"; "tuple"; "dict"; "defaultdict";
   "OrderedDict"].

Definition getElementTypeForContainerNarrowing (containerType : Ty)
  : option Ty :=
  (* We support contains narrowing only for certain built-in types that
     have been specialized. *)
  match containerType with
  | Class c =>
      if negb (isClassInstance containerType)
         || negb (ClassType_.isBuiltInAny c supportedContainers)
      then None
      else
        match typeArguments c with
        | None | Some [] => None
        | Some (elementType :: _) =>
            match (if isTupleClass c then tupleTypeArguments c else None)
            with
            | Some entries =>
                Some (combineTypes (map (@tupleArgType Ty) entries))
            | None => Some elementType
            end
        end
  | _ => None
  end.

(** The callback of the first [mapSubtypes] of
    [narrowTypeForContainerElementType]; the state is the closure
    variable [canNarrow]. *)
Definition narrowReferenceSubtype
  (elementType elementTypeWithoutLiteral : Ty) (canNarrow : bool)
  (referenceSubtype : Ty) : bool * option Ty :=
  let concreteReferenceType :=
    makeTopLevelTypeVarsConcrete evaluator referenceSubtype in
  if isAnyOrUnknown concreteReferenceType then
    (false, Some referenceSubtype)
  (* Handle "type" specially. *)
  else if isClassInstance concreteReferenceType
          && match concreteReferenceType with
             | Class c => ClassType_.isBuiltIn c "type"
             | _ => false
             end
  then (false, Some referenceSubtype)
  else if assignTypeDefault evaluator elementType concreteReferenceType
  then (canNarrow, Some referenceSubtype)
  else if assignTypeDefault evaluator elementTypeWithoutLiteral
            concreteReferenceType
  then
    (canNarrow,
     Some (mapSubtypes elementType
             (fun elementSubtype =>
                if isClassInstance elementSubtype
                   && isSameWithoutLiteralValue referenceSubtype
                        elementSubtype
                then Some elementSubtype else None)))
  else (canNarrow, None).

(** The callback of the second [mapSubtypes]. *)
Definition narrowElementSubtype (referenceType : Ty) (canNarrow : bool)
  (elementSubtype : Ty) : bool * option Ty :=
  let concreteElementType :=
    makeTopLevelTypeVarsConcrete evaluator elementSubtype in
  if isAnyOrUnknown concreteElementType then (false, Some referenceType)
  else if assignTypeDefault evaluator referenceType concreteElementType
  then (canNarrow, Some concreteElementType)
  else (canNarrow, None).

Definition narrowTypeForContainerElementType (referenceType elementType : Ty)
  : Ty :=
  let canNarrow := true in
  let elementTypeWithoutLiteral := stripLiteralValue elementType in
  (* Look for cases where one or more of the reference subtypes are
     supertypes of the element types. *)
  let '(canNarrow, narrowedSupertypes) :=
    mapSubtypesSt referenceType
      (narrowReferenceSubtype elementType elementTypeWithoutLiteral)
      canNarrow in
  (* Look for cases where one or more of the reference subtypes are
     subtypes of the element types. *)
  let '(canNarrow, narrowedSubtypes) :=
    mapSubtypesSt elementType (narrowElementSubtype referenceType)
      canNarrow in
  if canNarrow then combineTypes [narrowedSupertypes; narrowedSubtypes]
  else referenceType.

(** Attempts to narrow a type (make it more constrained) based on an "in"
    binary operator. *)
Definition narrowTypeForContainerType (referenceType containerType : Ty)
  : Ty :=
  match getElementTypeForContainerNarrowing containerType with
  | None => referenceType
  | Some elementType =>
      narrowTypeForContainerElementType referenceType elementType
  end.

End Narrowers.
End Narrowing.

(** The length of a tuple of known length, after its type variables are
    made concrete. *)
Definition knownTupleLength (evaluator : TypeEvaluator) (subtype : Ty)
  : option nat :=
  match makeTopLevelTypeVarsConcrete evaluator subtype with
  | Class c =>
      if negb (classInstantiable c) && isTupleClass c
         && negb (isUnboundedTupleClass c)
      then option_map (@List.length _) (tupleTypeArguments c)
      else None
  | _ => None
  end.

(** A type wrapped in [depth] tuples of one entry. *)
Fixpoint nestedTuple (tupleClass : ClassType) (depth : nat) (t : Ty) : Ty :=
  match depth with
  | 0 => t
  | S depth =>
      Class (mkClassType (details tupleClass) false
               (typeParameters tupleClass)
               (Some [nestedTuple tupleClass depth t])
               (Some [mkTupleTypeArgument
                        (nestedTuple tupleClass depth t) false])
               None None false None false)
  end.

(** A type that is a class instance of the built-in [type]. *)
Definition isTypeInstance (t : Ty) : bool :=
  match t with
  | Class c => negb (classInstantiable c) && ClassType_.isBuiltIn c "type"
  | _ => false
  end.


(** ** The narrowing engine on nested tests *)

(** [not] applied [count] times to an expression. *)
Fixpoint negations (count : nat) (expression : Expr) : Expr :=
  match count with
  | 0 => expression
  | S count => UnaryOperation 0 OpNot (negations count expression)
  end.

(** The polarity of a test under [count] negations. *)
Definition flipped (count : nat) (isPositiveTest : bool) : bool :=
  if Nat.even count then isPositiveTest else negb isPositiveTest.


(** ** Parameter specifications for the solver *)

Module SolverFixture.

(** The parameter specification [name] of the scope [scope]. *)
Definition paramSpec (name scope : string) : TypeVarType :=
  mkTypeVarType name (Some scope) None [] Invariant true false false false
    false None false false None.

End SolverFixture.

(** * Properties *)

(** ** Matching expressions *)

Section MatchingExpression.
Import ParseTreeUtils MatchingSpec.

Lemma scalarItem_inv : forall item0 moreItems trailingComma e,
  scalarItem item0 moreItems trailingComma = Some e ->
  moreItems = [] /\ trailingComma = false /\ item0 = mkArgument Simple None e.
Proof.
  intros [c n v] more tc e H. unfold scalarItem in H.
  destruct more; [| discriminate].
  destruct tc; [discriminate |].
  destruct c; try discriminate.
  destruct n; try discriminate.
  inversion H; subst. auto.
Qed.

Lemma candidate_shape : forall item0 moreItems trailingComma,
  negb (Nat.eqb (List.length (item0 :: moreItems)) 1)
  || trailingComma
  || isSome (argName item0)
  || negb (isSimple (argumentCategory item0)) = false ->
  scalarItem item0 moreItems trailingComma = Some (valueExpression item0).
Proof.
  intros [c n v] more tc H.
  destruct more; simpl in H; [| rewrite ?orb_true_r in H; discriminate].
  destruct tc; simpl in H; [discriminate |].
  destruct n; simpl in H; [discriminate |].
  destruct c; simpl in H; try discriminate. reflexivity.
Qed.

Lemma candidate_misshape : forall item0 moreItems trailingComma,
  negb (Nat.eqb (List.length (item0 :: moreItems)) 1)
  || trailingComma
  || isSome (argName item0)
  || negb (isSimple (argumentCategory item0)) = true ->
  scalarItem item0 moreItems trailingComma = None.
Proof.
  intros [c n v] more tc H.
  destruct more as [| a more]; [| reflexivity].
  destruct tc; [reflexivity |].
  destruct n; [destruct c; reflexivity |].
  destruct c; simpl in H; try discriminate; reflexivity.
Qed.

(** The comparison of the two subscripts, once the reference is known to
    be a reference key. *)
Lemma subscript_comparison : forall e b,
  match e with
  | Number _ _ isInteger isImaginary => isInteger && negb isImaginary
  | UnaryOperation _ OpSubtract (Number _ _ isInteger isImaginary) =>
      isInteger && negb isImaginary
  | StringList _ [StringNode _] => true
  | _ => false
  end = true ->
  match e with
  | Number _ value _ _ =>
      match b with
      | Number _ subscriptValue isInteger isImaginary =>
          if isImaginary || negb isInteger then false
          else numberValue_eqb value subscriptValue
      | _ => false
      end
  | UnaryOperation _ OpSubtract (Number _ value _ _) =>
      match b with
      | UnaryOperation _ OpSubtract
          (Number _ subscriptValue isInteger isImaginary) =>
          if isImaginary || negb isInteger then false
          else numberValue_eqb value subscriptValue
      | _ => false
      end
  | StringList _ [StringNode value] =>
      match b with
      | StringList _ [StringNode subscriptValue] =>
          String.eqb value subscriptValue
      | _ => false
      end
  | _ => false
  end = scalarEqual e b.
Proof.
  intros e b H.
  destruct e as [| | | | | i op e' | i v isInt isImag | i strs | |  |];
    try discriminate.
  - (* negated number *)
    destruct op; try discriminate.
    destruct e' as [| | | | | | i' v isInt isImag | | | |]; try discriminate.
    apply andb_true_iff in H as [H1 H2]. apply negb_true_iff in H2. subst.
    destruct b as [| | | | | j op b' | | | | |]; try reflexivity.
    destruct op; try reflexivity.
    destruct b' as [| | | | | | j' w bInt bImag | | | |]; try reflexivity.
    destruct bInt, bImag; reflexivity.
  - (* number *)
    apply andb_true_iff in H as [H1 H2]. apply negb_true_iff in H2. subst.
    destruct b as [| | | | | | j w bInt bImag | | | |]; try reflexivity.
    destruct bInt, bImag; reflexivity.
  - (* string *)
    destruct strs as [| [x | x] [| y strs]]; try discriminate.
    destruct b as [| | | | | | | j bs | | |]; try reflexivity.
Qed.

(** C9, as amended.  For a reference that is a reference key,
    [isMatchingExpression] is structural equality of the two chains of
    names, member accesses and indexes by one scalar (an integer literal, a
    negated integer literal or a single string literal, with equal
    values), where a name of the reference also matches an assignment
    expression that assigns to that name; any other shape of the
    candidate's index gives false. *)
Theorem isMatchingExpression_chainEqual : forall reference candidate,
  supportedReference reference = true ->
  isMatchingExpression reference candidate
  = chainEqual true reference candidate.
Proof.
  induction reference as
    [i v | i r IHr m | i r IHr item0 more tc | | | | | | | |];
    intros candidate H; try discriminate.
  - destruct candidate; reflexivity.
  - destruct candidate; try reflexivity.
    simpl in *. rewrite (IHr _ H). reflexivity.
  - destruct candidate as [| | j c citem0 cmore ctc | | | | | | | |];
      try reflexivity.
    simpl in H. apply andb_true_iff in H as [Hr Hs].
    cbn [isMatchingExpression chainEqual].
    rewrite (IHr _ Hr).
    destruct (chainEqual true r c); [| reflexivity].
    cbn [negb andb].
    destruct (scalarItem item0 more tc) as [e |] eqn:He; [| discriminate].
    apply scalarItem_inv in He as (-> & -> & ->).
    destruct (negb (Nat.eqb (List.length (citem0 :: cmore)) 1)
              || ctc || isSome (argName citem0)
              || negb (isSimple (argumentCategory citem0))) eqn:Hc.
    + rewrite (candidate_misshape _ _ _ Hc). reflexivity.
    + rewrite (candidate_shape _ _ _ Hc).
      cbn [valueExpression].
      apply subscript_comparison. exact Hs.
Qed.

(** A reference [x[0]] against the candidate [x[0]]. *)
Lemma isMatchingExpression_chainEqual_witness :
  supportedReference
    (Index 2 (Name 1 "x")
       (mkArgument Simple None (Number 3 (JsNumber 0) true false)) [] false)
  = true
  /\ isMatchingExpression
       (Index 2 (Name 1 "x")
          (mkArgument Simple None (Number 3 (JsNumber 0) true false)) []
          false)
       (Index 12 (Name 11 "x")
          (mkArgument Simple None (Number 13 (JsNumber 0) true false)) []
          false)
     = chainEqual true
         (Index 2 (Name 1 "x")
            (mkArgument Simple None (Number 3 (JsNumber 0) true false)) []
            false)
         (Index 12 (Name 11 "x")
            (mkArgument Simple None (Number 13 (JsNumber 0) true false)) []
            false).
Proof.
  split; [reflexivity |].
  apply (isMatchingExpression_chainEqual
           (Index 2 (Name 1 "x")
              (mkArgument Simple None (Number 3 (JsNumber 0) true false)) []
              false)).
  reflexivity.
Defined.

(** C9, as stated, fails: the name [x] matches the assignment expression
    [(x := 1)], which is no chain of names, member accesses and indexes
    and is not structurally equal to [x]. *)
Lemma isMatchingExpression_walrus_counterexample :
  isMatchingExpression (Name 1 "x")
    (AssignmentExpression 2 (Name 3 "x") (Number 4 (JsNumber 1) true false))
  = true
  /\ chainEqual false (Name 1 "x")
       (AssignmentExpression 2 (Name 3 "x")
          (Number 4 (JsNumber 1) true false))
     = false.
Proof. split; reflexivity. Qed.

End MatchingExpression.

(** ** Narrowing on discriminating entries *)

Section Discriminators.
Context {U : TypeUtils}.
Variable evaluator : TypeEvaluator.

(** A callback that never sets its flag again once it is cleared leaves it
    cleared at the end of the loop. *)
Lemma mapSubtypesLoop_flag_stays_false :
  forall (callback : bool -> Ty -> bool * option Ty),
    (forall t, fst (callback false t) = false) ->
    forall subtypes, fst (mapSubtypesLoop callback false subtypes) = false.
Proof.
  intros callback Hcb. induction subtypes as [| t r IH]; [reflexivity |].
  simpl. specialize (Hcb t).
  destruct (callback false t) as [s1 x]. simpl in Hcb. subst s1.
  destruct (mapSubtypesLoop callback false r) as [s2 xs]. exact IH.
Qed.

(** One subtype on which the callback clears its flag is enough. *)
Lemma mapSubtypesLoop_flag_cleared :
  forall (callback : bool -> Ty -> bool * option Ty) (bad : Ty -> bool),
    (forall t, fst (callback false t) = false) ->
    (forall flag t, bad t = true -> fst (callback flag t) = false) ->
    forall subtypes flag,
      existsb bad subtypes = true ->
      fst (mapSubtypesLoop callback flag subtypes) = false.
Proof.
  intros callback bad Hmono Hbad.
  induction subtypes as [| t r IH]; intros flag Hex; [discriminate |].
  simpl in *. apply orb_true_iff in Hex.
  destruct (bad t) eqn:Ht.
  - specialize (Hbad flag t Ht).
    destruct (callback flag t) as [s1 x]. simpl in Hbad. subst s1.
    pose proof (mapSubtypesLoop_flag_stays_false callback Hmono r) as Hr.
    destruct (mapSubtypesLoop callback false r) as [s2 xs]. exact Hr.
  - destruct Hex as [Hex | Hex]; [discriminate |].
    destruct (callback flag t) as [s1 x].
    specialize (IH s1 Hex).
    destruct (mapSubtypesLoop callback s1 r) as [s2 xs]. exact IH.
Qed.

Lemma mapSubtypesSt_flag_cleared :
  forall (callback : bool -> Ty -> bool * option Ty) (bad : Ty -> bool),
    (forall t, fst (callback false t) = false) ->
    (forall flag t, bad t = true -> fst (callback flag t) = false) ->
    forall type flag,
      existsb bad (expandUnion type) = true ->
      fst (mapSubtypesSt type callback flag) = false.
Proof.
  intros callback bad Hmono Hbad type flag Hex.
  assert (Hsingle : forall t, existsb bad [t] = true ->
                              fst (callback flag t) = false).
  { intros t H. simpl in H. rewrite orb_false_r in H. now apply Hbad. }
  unfold mapSubtypesSt.
  destruct type; simpl in Hex;
    try (match goal with
         | |- context [callback flag ?t] =>
             specialize (Hsingle t Hex);
             destruct (callback flag t) as [s x]; exact Hsingle
         end).
  pose proof (mapSubtypesLoop_flag_cleared callback bad Hmono Hbad
                subtypes flag Hex) as H.
  destruct (mapSubtypesLoop callback flag subtypes) as [s xs]. exact H.
Qed.

Lemma dictEntry_callback_keeps_false :
  forall indexLiteralType literalType isPositiveTest t,
    fst (narrowSubtypeForDiscriminatedDictEntry evaluator indexLiteralType
           literalType isPositiveTest false t) = false.
Proof.
  intros. unfold narrowSubtypeForDiscriminatedDictEntry.
  repeat match goal with
         | |- context [match ?x with _ => _ end] => destruct x
         end; reflexivity.
Qed.

Lemma dictEntry_callback_gives_up :
  forall indexLiteralType literalType isPositiveTest key flag t,
    literalValue indexLiteralType = Some (LitStr key) ->
    negb (isDiscriminatingTypedDict key t) = true ->
    fst (narrowSubtypeForDiscriminatedDictEntry evaluator indexLiteralType
           literalType isPositiveTest flag t) = false.
Proof.
  intros idx lit pos key flag t Hkey Hbad.
  apply negb_true_iff in Hbad.
  unfold narrowSubtypeForDiscriminatedDictEntry, isDiscriminatingTypedDict
    in *.
  rewrite Hkey.
  destruct t; try reflexivity.
  destruct (negb (classInstantiable c) && ClassType_.isTypedDictClass c);
    [| reflexivity].
  simpl in Hbad.
  destruct (mapGet key (getTypedDictMembersForClass c false));
    [| reflexivity].
  rewrite Hbad. reflexivity.
Qed.

Lemma tuple_callback_keeps_false :
  forall indexLiteralType literalType isPositiveTest t,
    fst (narrowSubtypeForDiscriminatedTuple evaluator indexLiteralType
           literalType isPositiveTest false t) = false.
Proof.
  intros. unfold narrowSubtypeForDiscriminatedTuple.
  repeat match goal with
         | |- context [match ?x with _ => _ end] => destruct x
         end; reflexivity.
Qed.

Lemma tuple_callback_gives_up :
  forall indexLiteralType literalType isPositiveTest index flag t,
    literalValue indexLiteralType = Some (LitInt index) ->
    negb (isDiscriminatingTuple index t) = true ->
    fst (narrowSubtypeForDiscriminatedTuple evaluator indexLiteralType
           literalType isPositiveTest flag t) = false.
Proof.
  intros idx lit pos index flag t Hidx Hbad.
  apply negb_true_iff in Hbad.
  unfold narrowSubtypeForDiscriminatedTuple, isDiscriminatingTuple in *.
  rewrite Hidx.
  destruct t; try reflexivity.
  destruct (negb (classInstantiable c) && ClassType_.isTupleClass c
            && negb (isUnboundedTupleClass c)); [| reflexivity].
  simpl in Hbad.
  destruct (tupleTypeArguments c) as [args |]; [| reflexivity].
  destruct ((0 <=? index)%Z && (index <? Z.of_nat (List.length args))%Z);
    [| reflexivity].
  simpl in Hbad.
  destruct (nth_error args (Z.to_nat index)); [| reflexivity].
  rewrite Hbad. reflexivity.
Qed.

(** C10.  The discriminator narrowing for [x[k] == L] is all-or-nothing:
    when some subtype of the input is not a TypedDict instance whose
    declared entry for the key [k] has a literal or literal-union value
    type, the input type is returned unchanged; the tuple discriminator
    for [x[i] == L] does the same when some subtype is not a fixed-length
    tuple with a literal-typed element at index [i]. *)
Theorem discriminated_comparison_all_or_nothing :
  (forall referenceType indexLiteralType literalType isPositiveTest key,
      literalValue indexLiteralType = Some (LitStr key) ->
      existsb (fun t => negb (isDiscriminatingTypedDict key t))
        (expandUnion referenceType) = true ->
      narrowTypeForDiscriminatedDictEntryComparison evaluator referenceType
        indexLiteralType literalType isPositiveTest = referenceType)
  /\ (forall referenceType indexLiteralType literalType isPositiveTest index,
         literalValue indexLiteralType = Some (LitInt index) ->
         existsb (fun t => negb (isDiscriminatingTuple index t))
           (expandUnion referenceType) = true ->
         narrowTypeForDiscriminatedTupleComparison evaluator referenceType
           indexLiteralType literalType isPositiveTest = referenceType).
Proof.
  split.
  - intros t idx lit pos key Hkey Hex.
    unfold narrowTypeForDiscriminatedDictEntryComparison.
    pose proof
      (mapSubtypesSt_flag_cleared
         (narrowSubtypeForDiscriminatedDictEntry evaluator idx lit pos)
         (fun t => negb (isDiscriminatingTypedDict key t))
         (dictEntry_callback_keeps_false idx lit pos)
         (fun flag s Hs =>
            dictEntry_callback_gives_up idx lit pos key flag s Hkey Hs)
         t true Hex) as H.
    destruct (mapSubtypesSt t
                (narrowSubtypeForDiscriminatedDictEntry evaluator idx lit
                   pos) true) as [canNarrow narrowed].
    simpl in H. subst canNarrow. reflexivity.
  - intros t idx lit pos index Hidx Hex.
    unfold narrowTypeForDiscriminatedTupleComparison.
    pose proof
      (mapSubtypesSt_flag_cleared
         (narrowSubtypeForDiscriminatedTuple evaluator idx lit pos)
         (fun t => negb (isDiscriminatingTuple index t))
         (tuple_callback_keeps_false idx lit pos)
         (fun flag s Hs =>
            tuple_callback_gives_up idx lit pos index flag s Hidx Hs)
         t true Hex) as H.
    destruct (mapSubtypesSt t
                (narrowSubtypeForDiscriminatedTuple evaluator idx lit pos)
                true) as [canNarrow narrowed].
    simpl in H. subst canNarrow. reflexivity.
Qed.

End Discriminators.

(** [Movie | Loose] compared on [kind], and a tuple beside an [int]: the
    input comes back as it is. *)
Lemma discriminated_comparison_all_or_nothing_witness :
  narrowTypeForDiscriminatedDictEntryComparison Fixture.evaluator
    (Union [Fixture.movieType; Fixture.looseType])
    (Fixture.strLiteral "kind") (Fixture.strLiteral "movie") true
  = Union [Fixture.movieType; Fixture.looseType]
  /\ narrowTypeForDiscriminatedTupleComparison Fixture.evaluator
       (Union [Fixture.tupleOf [Class (Fixture.intLiteral 1); Fixture.strType];
               Fixture.intType])
       (Fixture.intLiteral 0) (Fixture.intLiteral 1) false
     = Union [Fixture.tupleOf [Class (Fixture.intLiteral 1); Fixture.strType];
              Fixture.intType].
Proof.
  split.
  - apply (proj1 (discriminated_comparison_all_or_nothing Fixture.evaluator))
      with (key := "kind"); reflexivity.
  - apply (proj2 (discriminated_comparison_all_or_nothing Fixture.evaluator))
      with (index := 0%Z); reflexivity.
Defined.

(** When every subtype discriminates, the comparison narrows:
    [Movie | Book] with [x["kind"] == "movie"]. *)
Example discriminated_dict_entry_narrows :
  narrowTypeForDiscriminatedDictEntryComparison Fixture.evaluator
    (Union [Fixture.movieType; Fixture.bookType])
    (Fixture.strLiteral "kind") (Fixture.strLiteral "movie") true
  = Fixture.movieType
  /\ narrowTypeForDiscriminatedDictEntryComparison Fixture.evaluator
       (Union [Fixture.movieType; Fixture.bookType])
       (Fixture.strLiteral "kind") (Fixture.strLiteral "movie") false
     = Fixture.bookType.
Proof. split; reflexivity. Qed.

(** ** Narrowing on [None] *)

Section IsNone.
Context {U : TypeUtils}.
Variable N : NarrowingOps.
Variable evaluator : TypeEvaluator.

Lemma isNone_any : forall isPositiveTest subtype unexpanded,
  isAnyOrUnknown subtype = true ->
  narrowSubtypeForIsNone isPositiveTest subtype unexpanded = Some subtype.
Proof.
  intros pos s u H. unfold narrowSubtypeForIsNone. rewrite H. reflexivity.
Qed.

Lemma isNone_object_positive : forall subtype unexpanded,
  isObjectInstance subtype = true ->
  narrowSubtypeForIsNone true subtype unexpanded
  = Some (addConditionToType NoneType.createInstance
            (getTypeCondition subtype)).
Proof.
  intros s u H. unfold narrowSubtypeForIsNone.
  destruct s; try discriminate. simpl in *. rewrite H. reflexivity.
Qed.

Lemma isNone_other : forall isPositiveTest subtype unexpanded,
  isAnyOrUnknown subtype = false ->
  isObjectInstance subtype = false ->
  narrowSubtypeForIsNone isPositiveTest subtype unexpanded
  = if Bool.eqb (isNoneInstance subtype) isPositiveTest
    then Some subtype else None.
Proof.
  intros pos s u Hany Hobj. unfold narrowSubtypeForIsNone. rewrite Hany.
  destruct s; try reflexivity. simpl in Hobj. rewrite Hobj. reflexivity.
Qed.

Lemma none_is_plain : forall subtype,
  isNoneInstance subtype = true ->
  isAnyOrUnknown subtype = false /\ isObjectInstance subtype = false.
Proof. intros s H. destruct s; try discriminate. split; reflexivity. Qed.

Lemma comparison_with_None :
  forall reference leftExpression operator rightId isPositiveTest,
    isOrIsNotOperator operator || equalsOrNotEqualsOperator operator = true ->
    ParseTreeUtils.isMatchingExpression reference
      (match leftExpression with
       | AssignmentExpression _ name _ => name
       | _ => leftExpression
       end) = true ->
    exists callback,
      comparisonCallback N evaluator reference leftExpression operator
        (Constant rightId KwNone) isPositiveTest = Some callback
      /\ forall type,
          callback type
          = narrowTypeForIsNone evaluator type
              (adjustedPolarity operator isPositiveTest).
Proof.
  intros reference l op rid pos Hop Hmatch.
  unfold comparisonCallback. cbn [isNoneConstant].
  rewrite Hmatch. cbn [orElse].
  eexists. split; [reflexivity |]. intros type. reflexivity.
Qed.

(** C7.  The callback built from [x is None] (and from [==], [!=] and
    [is not], with the polarity adjusted) narrows every expanded subtype
    as follows.  An Any or Unknown subtype is kept in both branches.  In
    the positive branch an [object] subtype becomes [None] with that
    subtype's conditions, a None subtype is kept and any other subtype is
    dropped.  In the negative branch a None subtype is removed and any
    other subtype that is not [object] is kept. *)
Theorem narrowTypeForIsNone_by_subtype :
  (* the dispatch *)
  (forall reference id leftExpression operator rightId isPositiveTest
          recursionCount,
      isOrIsNotOperator operator || equalsOrNotEqualsOperator operator
      = true ->
      ParseTreeUtils.isMatchingExpression reference
        (match leftExpression with
         | AssignmentExpression _ name _ => name
         | _ => leftExpression
         end) = true ->
      recursionCount <= maxTypeRecursionCount ->
      exists callback,
        getTypeNarrowingCallback N evaluator reference
          (BinaryOperation id leftExpression operator
             (Constant rightId KwNone))
          isPositiveTest recursionCount = Finished (Some callback)
        /\ forall type,
            callback type
            = narrowTypeForIsNone evaluator type
                (adjustedPolarity operator isPositiveTest))
  (* the function is the map of the callback over the expanded subtypes *)
  /\ (forall type isPositiveTest,
         narrowTypeForIsNone evaluator type isPositiveTest
         = mapSubtypesExpandTypeVars evaluator
             (mapSubtypes type
                (fun subtype =>
                   Some (transformPossibleRecursiveTypeAlias subtype)))
             (narrowSubtypeForIsNone isPositiveTest))
  (* Any and Unknown, both branches *)
  /\ (forall isPositiveTest subtype unexpanded,
         isAnyOrUnknown subtype = true ->
         narrowSubtypeForIsNone isPositiveTest subtype unexpanded
         = Some subtype)
  (* object, positive branch *)
  /\ (forall subtype unexpanded,
         isObjectInstance subtype = true ->
         narrowSubtypeForIsNone true subtype unexpanded
         = Some (NoneT false (getTypeCondition subtype)))
  (* None and the others, positive branch *)
  /\ (forall subtype unexpanded,
         isAnyOrUnknown subtype = false ->
         isObjectInstance subtype = false ->
         narrowSubtypeForIsNone true subtype unexpanded
         = if isNoneInstance subtype then Some subtype else None)
  (* None, negative branch *)
  /\ (forall subtype unexpanded,
         isNoneInstance subtype = true ->
         narrowSubtypeForIsNone false subtype unexpanded = None)
  (* the others, negative branch *)
  /\ (forall subtype unexpanded,
         isAnyOrUnknown subtype = false ->
         isObjectInstance subtype = false ->
         isNoneInstance subtype = false ->
         narrowSubtypeForIsNone false subtype unexpanded = Some subtype).
Proof.
  repeat split.
  - intros reference id l op rid pos rc Hop Hmatch Hrc.
    destruct (comparison_with_None reference l op rid pos Hop Hmatch)
      as (callback & Hcb & Hfun).
    exists callback. split; [| exact Hfun].
    unfold getTypeNarrowingCallback.
    destruct (S maxTypeRecursionCount - rc) as [| fuel] eqn:Hfuel; [lia |].
    cbn [getTypeNarrowingCallbackFuel].
    destruct (Nat.ltb maxTypeRecursionCount rc) eqn:Hlt;
      [apply Nat.ltb_lt in Hlt; lia |].
    unfold narrowingCallbackBody, directCallback.
    rewrite Hop, Hcb. reflexivity.
  - intros. apply isNone_any. assumption.
  - intros s u H. rewrite (isNone_object_positive s u H).
    destruct s; try discriminate. cbn [getTypeCondition].
    destruct (classCondition c); reflexivity.
  - intros s u Hany Hobj. rewrite (isNone_other true s u Hany Hobj).
    destruct (isNoneInstance s); reflexivity.
  - intros s u H. destruct (none_is_plain s H) as [Hany Hobj].
    rewrite (isNone_other false s u Hany Hobj), H. reflexivity.
  - intros s u Hany Hobj Hnone.
    rewrite (isNone_other false s u Hany Hobj), Hnone. reflexivity.
Qed.

End IsNone.

(** [x : int | None] under [x is None]: the positive branch yields [None]
    and the negative branch yields [int]; [x is not None] swaps them. *)
Lemma narrowTypeForIsNone_by_subtype_witness :
  (exists callback,
      getTypeNarrowingCallback Fixture.narrowingOps Fixture.evaluator
        (Name 1 "x")
        (BinaryOperation 2 (Name 3 "x") OpIsNot (Constant 4 KwNone)) true 0
      = Finished (Some callback)
      /\ forall type,
          callback type = narrowTypeForIsNone Fixture.evaluator type false)
  /\ narrowTypeForIsNone Fixture.evaluator
       (Union [Fixture.intType; Fixture.noneType]) true
     = Fixture.noneType
  /\ narrowTypeForIsNone Fixture.evaluator
       (Union [Fixture.intType; Fixture.noneType]) false
     = Fixture.intType
  /\ narrowSubtypeForIsNone true Any Any = Some Any
  /\ narrowSubtypeForIsNone true Fixture.objectType Fixture.objectType
     = Some (NoneT false None)
  /\ narrowSubtypeForIsNone true Fixture.intType Fixture.intType = None
  /\ narrowSubtypeForIsNone false Fixture.noneType Fixture.noneType = None
  /\ narrowSubtypeForIsNone false Fixture.intType Fixture.intType
     = Some Fixture.intType.
Proof.
  pose proof (narrowTypeForIsNone_by_subtype Fixture.narrowingOps
                Fixture.evaluator)
    as (Hdispatch & Hmap & Hany & Hobject & Hpos & Hnone & Hneg).
  split.
  { apply (Hdispatch (Name 1 "x") 2 (Name 3 "x") OpIsNot 4 true 0);
      [reflexivity | reflexivity | simpl; lia]. }
  split. { rewrite Hmap. reflexivity. }
  split. { rewrite Hmap. reflexivity. }
  split. { apply Hany. reflexivity. }
  split. { apply (Hobject Fixture.objectType). reflexivity. }
  split. { apply (Hpos Fixture.intType); reflexivity. }
  split. { apply Hnone. reflexivity. }
  apply Hneg; reflexivity.
Defined.

(** ** Narrowing on a comparison with a literal *)

Section LiteralComparison.
Context {U : TypeUtils}.
Variable evaluator : TypeEvaluator.




End LiteralComparison.



(** ** The recursion bound of the narrowing engine *)

Section RecursionBound.
Context {U : TypeUtils}.
Variable N : NarrowingOps.
Variable evaluator : TypeEvaluator.

Let Recurse : Type :=
  Expr -> Expr -> bool -> nat -> Fuelled (option TypeNarrowingCallback).

Lemma body_finishes : forall (recurse : Recurse) recursionCount,
  (forall reference testExpression isPositiveTest,
      exists answer,
        recurse reference testExpression isPositiveTest recursionCount
        = Finished answer) ->
  forall reference testExpression isPositiveTest,
  exists answer,
    narrowingCallbackBody N evaluator recurse reference testExpression
      isPositiveTest recursionCount = Finished answer.
Proof.
  intros recurse rc Hrec reference test pos.
  assert (Hfallback :
            forall test',
            exists answer,
              match directCallback N evaluator reference test' pos with
              | Some callback => Finished (Some callback)
              | None =>
                  match getTypeNarrowingCallbackForAliasedCondition
                          evaluator recurse reference test' pos rc with
                  | Finished None =>
                      match reference, test' with
                      | Name _ _, UnaryOperation _ OpNot expression =>
                          recurse reference expression (negb pos) rc
                      | _, _ => Finished None
                      end
                  | answer => answer
                  end
              end = Finished answer).
  { intros test'.
    destruct (directCallback N evaluator reference test' pos);
      [eexists; reflexivity |].
    unfold getTypeNarrowingCallbackForAliasedCondition.
    destruct (aliasedConditionSource evaluator reference test')
      as [initNode |].
    - destruct (Hrec reference initNode pos) as [[cb |] H]; rewrite H;
        [eexists; reflexivity |].
      destruct reference; try (eexists; reflexivity).
      destruct test'; try (eexists; reflexivity).
      destruct operator; try (eexists; reflexivity).
      apply Hrec.
    - destruct reference; try (eexists; reflexivity).
      destruct test'; try (eexists; reflexivity).
      destruct operator; try (eexists; reflexivity).
      apply Hrec. }
  unfold narrowingCallbackBody.
  destruct test as [| | | | | | | | | i target source |];
    try (match goal with
         | |- context [directCallback _ _ _ ?t _] => exact (Hfallback t)
         end).
  unfold getTypeNarrowingCallbackForAssignmentExpression.
  destruct (Hrec reference source pos) as [[cb |] H]; rewrite H;
    [eexists; reflexivity | apply Hrec].
Qed.

(** A call nested under at most [S maxTypeRecursionCount - recursionCount]
    activations that pass the guard always answers. *)
Lemma narrowing_callback_finishes : forall fuel recursionCount,
  S maxTypeRecursionCount - recursionCount <= fuel ->
  forall reference testExpression isPositiveTest,
  exists answer,
    getTypeNarrowingCallbackFuel N evaluator fuel reference testExpression
      isPositiveTest recursionCount = Finished answer.
Proof.
  induction fuel as [| fuel IH]; intros rc Hfuel reference test pos;
    cbn [getTypeNarrowingCallbackFuel];
    destruct (Nat.ltb maxTypeRecursionCount rc) eqn:Hlt;
    try (eexists; reflexivity).
  - apply Nat.ltb_ge in Hlt. lia.
  - apply Nat.ltb_ge in Hlt.
    apply body_finishes. intros. apply IH. lia.
Qed.

Lemma body_monotone : forall (r1 r2 : Recurse) recursionCount,
  (forall reference testExpression isPositiveTest answer,
      r1 reference testExpression isPositiveTest recursionCount
      = Finished answer ->
      r2 reference testExpression isPositiveTest recursionCount
      = Finished answer) ->
  forall reference testExpression isPositiveTest answer,
    narrowingCallbackBody N evaluator r1 reference testExpression
      isPositiveTest recursionCount = Finished answer ->
    narrowingCallbackBody N evaluator r2 reference testExpression
      isPositiveTest recursionCount = Finished answer.
Proof.
  intros r1 r2 rc H12 reference test pos answer.
  assert (Hfallback :
            forall test',
              match directCallback N evaluator reference test' pos with
              | Some callback => Finished (Some callback)
              | None =>
                  match getTypeNarrowingCallbackForAliasedCondition
                          evaluator r1 reference test' pos rc with
                  | Finished None =>
                      match reference, test' with
                      | Name _ _, UnaryOperation _ OpNot expression =>
                          r1 reference expression (negb pos) rc
                      | _, _ => Finished None
                      end
                  | answer => answer
                  end
              end = Finished answer ->
              match directCallback N evaluator reference test' pos with
              | Some callback => Finished (Some callback)
              | None =>
                  match getTypeNarrowingCallbackForAliasedCondition
                          evaluator r2 reference test' pos rc with
                  | Finished None =>
                      match reference, test' with
                      | Name _ _, UnaryOperation _ OpNot expression =>
                          r2 reference expression (negb pos) rc
                      | _, _ => Finished None
                      end
                  | answer => answer
                  end
              end = Finished answer).
  { intros test'.
    destruct (directCallback N evaluator reference test' pos);
      [trivial |].
    unfold getTypeNarrowingCallbackForAliasedCondition.
    destruct (aliasedConditionSource evaluator reference test')
      as [initNode |].
    - destruct (r1 reference initNode pos rc) as [[cb |] |] eqn:H1;
        try discriminate.
      + rewrite (H12 _ _ _ _ H1). trivial.
      + rewrite (H12 _ _ _ _ H1).
        destruct reference; trivial.
        destruct test'; trivial.
        destruct operator; trivial.
        apply H12.
    - destruct reference; trivial.
      destruct test'; trivial.
      destruct operator; trivial.
      apply H12. }
  unfold narrowingCallbackBody.
  destruct test as [| | | | | | | | | i target source |];
    try (match goal with
         | |- context [directCallback _ _ _ ?t _] => exact (Hfallback t)
         end).
  unfold getTypeNarrowingCallbackForAssignmentExpression.
  destruct (r1 reference source pos rc) as [[cb |] |] eqn:H1;
    try discriminate.
  - rewrite (H12 _ _ _ _ H1). trivial.
  - rewrite (H12 _ _ _ _ H1). apply H12.
Qed.

Lemma narrowing_callback_unfold :
  forall fuel reference testExpression isPositiveTest recursionCount,
    getTypeNarrowingCallbackFuel N evaluator (S fuel) reference
      testExpression isPositiveTest recursionCount
    = if Nat.ltb maxTypeRecursionCount recursionCount then Finished None
      else narrowingCallbackBody N evaluator
             (getTypeNarrowingCallbackFuel N evaluator fuel) reference
             testExpression isPositiveTest (S recursionCount).
Proof. reflexivity. Qed.

(** The answer does not depend on the fuel, once there is enough of it. *)
Lemma narrowing_callback_more_fuel :
  forall fuel reference testExpression isPositiveTest recursionCount answer,
    getTypeNarrowingCallbackFuel N evaluator fuel reference testExpression
      isPositiveTest recursionCount = Finished answer ->
    getTypeNarrowingCallbackFuel N evaluator (S fuel) reference
      testExpression isPositiveTest recursionCount = Finished answer.
Proof.
  induction fuel as [| fuel IH]; intros reference test pos rc answer H.
  - cbn [getTypeNarrowingCallbackFuel] in *.
    destruct (Nat.ltb maxTypeRecursionCount rc); [exact H | discriminate].
  - rewrite narrowing_callback_unfold in H.
    rewrite narrowing_callback_unfold.
    destruct (Nat.ltb maxTypeRecursionCount rc); [exact H |].
    revert H. apply body_monotone.
    intros. apply IH. assumption.
Qed.

(** The counted engine gives the answers of the engine. *)
Lemma countedCall_forget :
  forall (counted : Expr -> Expr -> bool -> nat -> Fuelled Counted)
         (recurse : Recurse) recursionCount,
    (forall reference testExpression isPositiveTest,
        forgetCalls (counted reference testExpression isPositiveTest
                       recursionCount)
        = recurse reference testExpression isPositiveTest recursionCount) ->
    forall reference testExpression isPositiveTest,
      forgetCalls (countedCall counted reference testExpression
                     isPositiveTest recursionCount)
      = recurse reference testExpression isPositiveTest recursionCount.
Proof.
  intros counted recurse rc H reference test pos.
  rewrite <- H. unfold countedCall.
  destruct (counted reference test pos rc) as [[answer calls] |];
    reflexivity.
Qed.

Lemma orElseCounted_forget : forall first next,
  forgetCalls (orElseCounted first next)
  = match forgetCalls first with
    | Finished None => forgetCalls (next tt)
    | answer => answer
    end.
Proof.
  intros [[[callback |] calls] |] next; try reflexivity.
  simpl. destruct (next tt) as [[answer more] |]; reflexivity.
Qed.

Lemma body_counted_forget :
  forall (counted : Expr -> Expr -> bool -> nat -> Fuelled Counted)
         (recurse : Recurse) recursionCount,
    (forall reference testExpression isPositiveTest,
        forgetCalls (counted reference testExpression isPositiveTest
                       recursionCount)
        = recurse reference testExpression isPositiveTest recursionCount) ->
    forall reference testExpression isPositiveTest,
      forgetCalls (narrowingCallbackBodyCounted N evaluator counted
                     reference testExpression isPositiveTest recursionCount)
      = narrowingCallbackBody N evaluator recurse reference testExpression
          isPositiveTest recursionCount.
Proof.
  intros counted recurse rc H reference test pos.
  pose proof (countedCall_forget counted recurse rc H reference) as Hcall.
  assert (Hfallback :
            forall test',
              forgetCalls
                (match directCallback N evaluator reference test' pos with
                 | Some callback => Finished (Some callback, 0)
                 | None =>
                     orElseCounted
                       (match aliasedConditionSource evaluator reference
                                test' with
                        | Some initNode =>
                            countedCall counted reference initNode pos rc
                        | None => Finished (None, 0)
                        end)
                       (fun _ =>
                          match reference, test' with
                          | Name _ _, UnaryOperation _ OpNot expression =>
                              countedCall counted reference expression
                                (negb pos) rc
                          | _, _ => Finished (None, 0)
                          end)
                 end)
              = match directCallback N evaluator reference test' pos with
                | Some callback => Finished (Some callback)
                | None =>
                    match getTypeNarrowingCallbackForAliasedCondition
                            evaluator recurse reference test' pos rc with
                    | Finished None =>
                        match reference, test' with
                        | Name _ _, UnaryOperation _ OpNot expression =>
                            recurse reference expression (negb pos) rc
                        | _, _ => Finished None
                        end
                    | answer => answer
                    end
                end).
  { intros test'.
    destruct (directCallback N evaluator reference test' pos);
      [reflexivity |].
    rewrite orElseCounted_forget.
    unfold getTypeNarrowingCallbackForAliasedCondition.
    assert (Hfirst :
              forgetCalls
                (match aliasedConditionSource evaluator reference test' with
                 | Some initNode =>
                     countedCall counted reference initNode pos rc
                 | None => Finished (None, 0)
                 end)
              = match aliasedConditionSource evaluator reference test' with
                | Some initNode => recurse reference initNode pos rc
                | None => Finished None
                end).
    { destruct (aliasedConditionSource evaluator reference test');
        [apply Hcall | reflexivity]. }
    rewrite Hfirst.
    destruct (match aliasedConditionSource evaluator reference test' with
              | Some initNode => recurse reference initNode pos rc
              | None => Finished None
              end) as [[callback |] |]; try reflexivity.
    destruct reference; try reflexivity.
    destruct test'; try reflexivity.
    destruct operator; try reflexivity.
    apply Hcall. }
  unfold narrowingCallbackBodyCounted, narrowingCallbackBody.
  destruct test as [| | | | | | | | | i target source |];
    try (match goal with
         | |- context [directCallback _ _ _ ?t _] => exact (Hfallback t)
         end).
  unfold getTypeNarrowingCallbackForAssignmentExpression.
  rewrite orElseCounted_forget, !Hcall. reflexivity.
Qed.

Lemma counted_forget :
  forall fuel reference testExpression isPositiveTest recursionCount,
    forgetCalls (getTypeNarrowingCallbackCountedFuel N evaluator fuel
                   reference testExpression isPositiveTest recursionCount)
    = getTypeNarrowingCallbackFuel N evaluator fuel reference
        testExpression isPositiveTest recursionCount.
Proof.
  induction fuel as [| fuel IH]; intros reference test pos rc;
    cbn [getTypeNarrowingCallbackCountedFuel getTypeNarrowingCallbackFuel];
    destruct (Nat.ltb maxTypeRecursionCount rc); try reflexivity.
  apply body_counted_forget. intros. apply IH.
Qed.

(** An activation makes at most two calls. *)
Lemma orElseCounted_bound : forall first next bound answer calls,
  (forall a c, first = Finished (a, c) -> c + 1 <= bound) ->
  (forall a c, next tt = Finished (a, c) -> c + 1 <= bound) ->
  orElseCounted first next = Finished (answer, calls) ->
  calls + 2 <= 2 * bound.
Proof.
  intros first next bound answer calls Hfirst Hnext H.
  unfold orElseCounted in H.
  destruct first as [[[callback |] c1] |]; try discriminate.
  - inversion H. subst. pose proof (Hfirst _ _ eq_refl). lia.
  - pose proof (Hfirst _ _ eq_refl).
    destruct (next tt) as [[a c2] |]; [| discriminate].
    inversion H. subst. pose proof (Hnext _ _ eq_refl). lia.
Qed.

Lemma body_counted_bound :
  forall (counted : Expr -> Expr -> bool -> nat -> Fuelled Counted)
         recursionCount bound,
    1 <= bound ->
    (forall reference testExpression isPositiveTest answer calls,
        counted reference testExpression isPositiveTest recursionCount
        = Finished (answer, calls) ->
        calls + 2 <= bound) ->
    forall reference testExpression isPositiveTest answer calls,
      narrowingCallbackBodyCounted N evaluator counted reference
        testExpression isPositiveTest recursionCount
      = Finished (answer, calls) ->
      calls + 2 <= 2 * bound.
Proof.
  intros counted rc bound Hone Hcounted reference test pos answer calls.
  assert (Hcall : forall t p a c,
             countedCall counted reference t p rc = Finished (a, c) ->
             c + 1 <= bound).
  { intros t p a c H. unfold countedCall in H.
    destruct (counted reference t p rc) as [[a' c'] |] eqn:Hc;
      [| discriminate].
    inversion H. subst. pose proof (Hcounted _ _ _ _ _ Hc). lia. }
  assert (Hnone : forall a c,
             @Finished Counted (None, 0) = Finished (a, c) ->
             c + 1 <= bound).
  { intros a c H. inversion H. lia. }
  assert (Hfallback :
            forall test',
              match directCallback N evaluator reference test' pos with
              | Some callback => Finished (Some callback, 0)
              | None =>
                  orElseCounted
                    (match aliasedConditionSource evaluator reference test'
                     with
                     | Some initNode =>
                         countedCall counted reference initNode pos rc
                     | None => Finished (None, 0)
                     end)
                    (fun _ =>
                       match reference, test' with
                       | Name _ _, UnaryOperation _ OpNot expression =>
                           countedCall counted reference expression
                             (negb pos) rc
                       | _, _ => Finished (None, 0)
                       end)
              end = Finished (answer, calls) ->
              calls + 2 <= 2 * bound).
  { intros test'.
    destruct (directCallback N evaluator reference test' pos).
    - intros H. inversion H. lia.
    - apply orElseCounted_bound.
      + destruct (aliasedConditionSource evaluator reference test');
          [apply Hcall | exact Hnone].
      + destruct reference; try exact Hnone.
        destruct test'; try exact Hnone.
        destruct operator; try exact Hnone.
        apply Hcall. }
  unfold narrowingCallbackBodyCounted.
  destruct test as [| | | | | | | | | i target source |];
    try (match goal with
         | |- context [directCallback _ _ _ ?t _] => exact (Hfallback t)
         end).
  apply orElseCounted_bound; apply Hcall.
Qed.

Lemma counted_bound :
  forall fuel reference testExpression isPositiveTest recursionCount
         answer calls,
    getTypeNarrowingCallbackCountedFuel N evaluator fuel reference
      testExpression isPositiveTest recursionCount
    = Finished (answer, calls) ->
    calls + 2 <= 2 ^ S (S maxTypeRecursionCount - recursionCount).
Proof.
  induction fuel as [| fuel IH]; intros reference test pos rc answer calls;
    cbn [getTypeNarrowingCallbackCountedFuel];
    destruct (Nat.ltb maxTypeRecursionCount rc) eqn:Hlt;
    intros H; try discriminate.
  - inversion H. subst. rewrite Nat.pow_succ_r'.
    pose proof (Nat.pow_nonzero 2 (S maxTypeRecursionCount - rc)). lia.
  - inversion H. subst. rewrite Nat.pow_succ_r'.
    pose proof (Nat.pow_nonzero 2 (S maxTypeRecursionCount - rc)). lia.
  - apply Nat.ltb_ge in Hlt.
    replace (S maxTypeRecursionCount - rc)
      with (S (S maxTypeRecursionCount - S rc)) by lia.
    rewrite Nat.pow_succ_r'.
    revert H. apply body_counted_bound.
    + pose proof (Nat.pow_nonzero 2 (S (S maxTypeRecursionCount - S rc))).
      lia.
    + intros r t p a c Hc. exact (IH r t p (S rc) a c Hc).
Qed.

(** C4, as amended.  A call of [getTypeNarrowingCallback] whose
    recursion counter exceeds [maxTypeRecursionCount] answers at once
    with no callback, under which the type of the reference passes
    through unchanged; so every call answers, its recursive calls nested
    at most [S maxTypeRecursionCount - recursionCount] deep (from a
    counter of 0, the entry call and at most [maxTypeRecursionCount]
    recursive calls under one another that pass the guard).  An
    activation makes at most two recursive calls, so that the recursive
    calls of a query number at most
    [2 ^ S (S maxTypeRecursionCount - recursionCount) - 2]; nothing bounds
    their number by [maxTypeRecursionCount]. *)
Theorem narrowing_recursion_bounded :
  (forall reference testExpression isPositiveTest recursionCount,
      maxTypeRecursionCount < recursionCount ->
      getTypeNarrowingCallback N evaluator reference testExpression
        isPositiveTest recursionCount = Finished None
      /\ forall type, applyNarrowing None type = type)
  /\ (forall reference testExpression isPositiveTest recursionCount,
         exists answer,
           getTypeNarrowingCallback N evaluator reference testExpression
             isPositiveTest recursionCount = Finished answer)
  /\ (forall fuel reference testExpression isPositiveTest recursionCount,
         S maxTypeRecursionCount - recursionCount <= fuel ->
         getTypeNarrowingCallbackFuel N evaluator fuel reference
           testExpression isPositiveTest recursionCount
         = getTypeNarrowingCallback N evaluator reference testExpression
             isPositiveTest recursionCount)
  /\ (forall reference testExpression isPositiveTest recursionCount,
         exists answer calls,
           getTypeNarrowingCallbackCounted N evaluator reference
             testExpression isPositiveTest recursionCount
           = Finished (answer, calls)
           /\ getTypeNarrowingCallback N evaluator reference testExpression
                isPositiveTest recursionCount = Finished answer
           /\ calls + 2
              <= 2 ^ S (S maxTypeRecursionCount - recursionCount)).
Proof.
  split; [| split; [| split]].
  - intros reference test pos rc Hrc. split; [| reflexivity].
    unfold getTypeNarrowingCallback.
    destruct (S maxTypeRecursionCount - rc);
      cbn [getTypeNarrowingCallbackFuel];
      apply Nat.ltb_lt in Hrc; rewrite Hrc; reflexivity.
  - intros. unfold getTypeNarrowingCallback.
    apply narrowing_callback_finishes. lia.
  - intros fuel reference test pos rc Hfuel.
    unfold getTypeNarrowingCallback.
    destruct (narrowing_callback_finishes
                (S maxTypeRecursionCount - rc) rc (le_n _) reference test
                pos) as [answer Hanswer].
    rewrite Hanswer.
    induction Hfuel as [| fuel Hle IH]; [exact Hanswer |].
    apply narrowing_callback_more_fuel. exact IH.
  - intros reference test pos rc.
    unfold getTypeNarrowingCallbackCounted, getTypeNarrowingCallback.
    pose proof (counted_forget (S maxTypeRecursionCount - rc) reference
                  test pos rc) as Hforget.
    destruct (narrowing_callback_finishes
                (S maxTypeRecursionCount - rc) rc (le_n _) reference test
                pos) as [answer Hanswer].
    rewrite Hanswer in Hforget.
    destruct (getTypeNarrowingCallbackCountedFuel N evaluator
                (S maxTypeRecursionCount - rc) reference test pos rc)
      as [[answer' calls] |] eqn:Hcounted; [| discriminate].
    simpl in Hforget. inversion Hforget. subst answer'.
    exists answer, calls. split; [reflexivity |].
    split; [exact Hanswer |].
    exact (counted_bound _ _ _ _ _ _ _ Hcounted).
Qed.

End RecursionBound.

(** With [maxTypeRecursionCount = 20]: a call at depth 21 answers with no
    callback, and the two aliases [a = b] and [b = a], which name each
    other, are followed until the guard stops the recursion. *)
Lemma narrowing_recursion_bounded_witness :
  getTypeNarrowingCallback Fixture.narrowingOps Fixture.evaluator
    (Name 1 "x") (Name 3 "x") true 21 = Finished None
  /\ getTypeNarrowingCallback Fixture.narrowingOps Fixture.evaluator
       (Name 1 "x") (Name 10 "a") true 0 = Finished None
  /\ getTypeNarrowingCallbackFuel Fixture.narrowingOps Fixture.evaluator 30
       (Name 1 "x") (Name 10 "a") true 0
     = getTypeNarrowingCallback Fixture.narrowingOps Fixture.evaluator
         (Name 1 "x") (Name 10 "a") true 0.
Proof.
  pose proof (narrowing_recursion_bounded Fixture.narrowingOps
                Fixture.evaluator) as (Hguard & Htotal & Hfuel & Hcalls).
  split.
  { apply (Hguard (Name 1 "x") (Name 3 "x") true 21). simpl. lia. }
  split.
  { reflexivity. }
  apply Hfuel. simpl. lia.
Defined.

(** C4, as stated, fails: with [maxTypeRecursionCount = 20], the query
    on the alias [a] of the cycle [a = b], [b = a] makes 21 recursive
    calls before the guard stops it, and the query on eleven assignment
    expressions, one in the other, makes 22 without ever reaching the
    guard (each assignment expression calls for its value and then for
    its name): more recursive steps than [maxTypeRecursionCount]. *)
Lemma narrowing_recursion_counterexample :
  @maxTypeRecursionCount Fixture.utils = 20
  /\ getTypeNarrowingCallbackCounted Fixture.narrowingOps Fixture.evaluator
       (Name 1 "x") (Name 10 "a") true 0 = Finished (None, 21)
  /\ getTypeNarrowingCallbackCounted Fixture.narrowingOps Fixture.evaluator
       (Name 1 "x")
       (nestedAssignments 11 (Number 4 (JsNumber 0) true false)) true 0
     = Finished (None, 22)
  /\ ~ (forall reference testExpression isPositiveTest answer calls,
           getTypeNarrowingCallbackCounted Fixture.narrowingOps
             Fixture.evaluator reference testExpression isPositiveTest 0
           = Finished (answer, calls) ->
           calls <= @maxTypeRecursionCount Fixture.utils).
Proof.
  assert (Hcycle :
            getTypeNarrowingCallbackCounted Fixture.narrowingOps
              Fixture.evaluator (Name 1 "x") (Name 10 "a") true 0
            = Finished (None, 21)) by reflexivity.
  split; [reflexivity |]. split; [exact Hcycle |].
  split; [reflexivity |].
  intros Hbound. specialize (Hbound _ _ _ _ _ Hcycle).
  simpl in Hbound. lia.
Qed.

(** ** Frame properties of the solver *)

Section SolverFrames.
Context {U : TypeUtils}.
Variable evaluator : TypeEvaluator.



(** The parameter-specification path records nothing in a locked context
    nor for a scope the context does not solve for. *)
Lemma assignTypeToParamSpec_frame :
  forall destType srcType ctx recursionCount,
    TypeVarContext_.isLocked ctx = true
    \/ TypeVarContext_.hasSolveForScope ctx (scopeId destType) = false ->
    snd (assignTypeToParamSpec evaluator destType srcType ctx recursionCount)
    = ctx.
Proof.
  intros dest src ctx rc H.
  assert (Hcan : negb (TypeVarContext_.isLocked ctx)
                 && TypeVarContext_.hasSolveForScope ctx (scopeId dest)
                 = false).
  { destruct H as [H | H]; rewrite H; [reflexivity | apply andb_false_r]. }
  unfold assignTypeToParamSpec. rewrite Hcan.
  destruct src; try reflexivity.
  - destruct (TypeVarContext_.getParamSpec ctx dest); [| reflexivity].
    destruct (sameTypeVarObject _ _); reflexivity.
  - destruct (isParamSpec t); [| reflexivity].
    destruct (TypeVarContext_.getParamSpec ctx dest) as [existing |];
      [| reflexivity].
    destruct (psParamSpec existing); reflexivity.
Qed.

(** The constrained path records nothing in a locked context nor for a
    type variable that is out of scope. *)
Lemma assignConstrained_frame :
  forall destType srcType ctx isContravariant isTypeVarInScope curNarrow
         recursionCount,
    TypeVarContext_.isLocked ctx = true \/ isTypeVarInScope = false ->
    snd (assignConstrained evaluator destType srcType ctx isContravariant
           isTypeVarInScope curNarrow recursionCount) = ctx.
Proof.
  intros dest src ctx contra inScope cur rc H.
  assert (Hcan : negb (TypeVarContext_.isLocked ctx) && inScope = false).
  { destruct H as [H | H]; rewrite H; [reflexivity | apply andb_false_r]. }
  unfold assignConstrained. rewrite Hcan.
  destruct (findConstrainedType evaluator dest src contra rc);
    [| reflexivity].
  destruct cur as [cur |]; [| reflexivity].
  destruct (negb (isAnyOrUnknown cur)); [| reflexivity].
  destruct (negb (assigns evaluator cur t None AssignTypeFlags.Default rc));
    [| reflexivity].
  destruct (assigns evaluator t cur None AssignTypeFlags.Default rc);
    reflexivity.
Qed.


(** The unconstrained path records nothing for a type variable that is
    out of scope, unless it is a synthesized [Self] with a bound: there the
    judgment is handed the context itself. *)
Lemma assignUnconstrained_out_of_scope :
  forall destType srcType ctx flags curNarrow curWide recursionCount,
    isSynthesizedSelf destType && isSome (boundType destType) = false ->
    snd (assignUnconstrained evaluator destType srcType ctx flags false
           curNarrow curWide recursionCount) = ctx.
Proof.
  intros dest src ctx flags curN curW rc Hself.
  unfold assignUnconstrained.
  destruct (tvInstantiable dest
            && negb (isEffectivelyInstantiable
                       (if retainLiteralsFor dest ctx flags then src
                        else stripLiteralValue src))); [reflexivity |].
  match goal with
  | |- snd (match ?b with _ => _ end) = _ => destruct b as [[[n w] u] |]
  end; [| reflexivity].
  rewrite andb_false_r.
  destruct (boundType dest) as [bound |].
  - destruct (tvInstantiable dest && negb (TypeBase.isInstantiable src));
      [reflexivity |].
    destruct (isSynthesizedSelf dest); [discriminate |].
    destruct (assigns evaluator bound _ _ _ _); reflexivity.
  - reflexivity.
Qed.

(** In the remaining case the context after the call is the one the
    judgment on the bound of [Self] returned: the solver adds nothing to
    it. *)
Lemma assignUnconstrained_out_of_scope_self :
  forall destType srcType ctx flags curNarrow curWide recursionCount,
    snd (assignUnconstrained evaluator destType srcType ctx flags false
           curNarrow curWide recursionCount) = ctx
    \/ exists bound updatedType,
         isSynthesizedSelf destType = true
         /\ boundType destType = Some bound
         /\ snd (assignUnconstrained evaluator destType srcType ctx flags
                   false curNarrow curWide recursionCount)
            = snd (assignTypeIn evaluator bound
                     (makeTopLevelTypeVarsConcrete evaluator updatedType)
                     ctx (scopeFlagOnly flags) recursionCount).
Proof.
  intros dest src ctx flags curN curW rc.
  unfold assignUnconstrained.
  destruct (tvInstantiable dest
            && negb (isEffectivelyInstantiable
                       (if retainLiteralsFor dest ctx flags then src
                        else stripLiteralValue src))); [left; reflexivity |].
  match goal with
  | |- snd (match ?b with _ => _ end) = _ \/ _ => destruct b as [[[n w] u] |]
  end; [| left; reflexivity].
  rewrite andb_false_r.
  destruct (boundType dest) as [bound |]; [| left; reflexivity].
  destruct (tvInstantiable dest && negb (TypeBase.isInstantiable src));
    [left; reflexivity |].
  destruct (isSynthesizedSelf dest).
  - right. exists bound, u. split; [reflexivity |]. split; [reflexivity |].
    destruct (assignTypeIn evaluator bound
                (makeTopLevelTypeVarsConcrete evaluator u) ctx
                (scopeFlagOnly flags) rc) as [ok ctx'].
    rewrite andb_false_r. destruct ok; reflexivity.
  - left. destruct (assigns evaluator bound _ _ _ _); reflexivity.
Qed.

Lemma checkTypeVarScope_out_of_scope :
  forall destType srcType ctx flags recursionCount inScope,
    TypeVarContext_.hasSolveForScope ctx (scopeId destType) = false ->
    checkTypeVarScope evaluator destType srcType ctx flags recursionCount
    = ScopeContinue inScope ->
    inScope = false.
Proof.
  intros dest src ctx flags rc inScope Hscope H.
  unfold checkTypeVarScope in H. rewrite Hscope in H. cbn [negb] in H.
  repeat match type of H with
         | (if ?b then _ else _) = _ => destruct b
         end; try discriminate.
  inversion H. reflexivity.
Qed.

(** C5, as amended.  A call of [assignTypeToTypeVar] on a type variable
    whose scope the context does not solve for leaves the context as it
    is, whatever it returns, unless the type variable is a synthesized
    [Self] with a declared bound.  For such a [Self] the solver records
    nothing either: the context after the call is the one the judgment of
    the evaluator, handed the context for the check against the bound,
    left. *)
Theorem scope_isolation :
  forall destType srcType ctx flags recursionCount,
    TypeVarContext_.hasSolveForScope ctx (scopeId destType) = false ->
    (isSynthesizedSelf destType && isSome (boundType destType) = false ->
     snd (assignTypeToTypeVar evaluator destType srcType ctx flags
            recursionCount) = ctx)
    /\ (snd (assignTypeToTypeVar evaluator destType srcType ctx flags
               recursionCount) = ctx
        \/ exists bound updatedType,
             isSynthesizedSelf destType = true
             /\ boundType destType = Some bound
             /\ snd (assignTypeToTypeVar evaluator destType srcType ctx flags
                       recursionCount)
                = snd (assignTypeIn evaluator bound
                         (makeTopLevelTypeVarsConcrete evaluator updatedType)
                         ctx (scopeFlagOnly flags) recursionCount)).
Proof.
  intros dest src ctx flags rc Hscope.
  unfold assignTypeToTypeVar.
  destruct (scopeIdIsFalsy (scopeId dest));
    [split; [intros _ | left]; reflexivity |].
  destruct (checkTypeVarScope evaluator dest src ctx flags rc)
    as [result | inScope] eqn:Hcheck;
    [split; [intros _ | left]; reflexivity |].
  apply (checkTypeVarScope_out_of_scope _ _ _ _ _ _ Hscope) in Hcheck.
  subst inScope.
  destruct (AssignTypeFlags.has flags AssignTypeFlags.SkipSolveTypeVars);
    [split; [intros _ | left]; reflexivity |].
  destruct (isParamSpec dest).
  - assert (H : snd (assignTypeToParamSpec evaluator dest src ctx rc) = ctx)
      by (apply assignTypeToParamSpec_frame; right; exact Hscope).
    split; [intros _ | left]; exact H.
  - destruct (Nat.ltb 0 (List.length (constraints dest))).
    + split; [intros _ | left]; apply assignConstrained_frame; right;
        reflexivity.
    + split.
      * apply assignUnconstrained_out_of_scope.
      * apply assignUnconstrained_out_of_scope_self.
Qed.

End SolverFrames.

(** Out of scope and not a synthesized [Self]: [T] of scope [f] against a
    context that solves for [g]. *)
Lemma scope_isolation_witness :
  fst (assignTypeToTypeVar Fixture.evaluator Fixture.boundedBySequence
         Fixture.intType (Fixture.solvingFor "g") 0 0) = false
  /\ snd (assignTypeToTypeVar Fixture.evaluator Fixture.boundedBySequence
            Fixture.intType (Fixture.solvingFor "g") 0 0)
     = Fixture.solvingFor "g"
  /\ fst (assignTypeToTypeVar Fixture.evaluator Fixture.boundedBySequence
            Any (Fixture.solvingFor "g") 0 0) = true
  /\ snd (assignTypeToTypeVar Fixture.evaluator Fixture.boundedBySequence
            Any (Fixture.solvingFor "g") 0 0)
     = Fixture.solvingFor "g".
Proof.
  split; [reflexivity |].
  split; [apply scope_isolation; reflexivity |].
  split; [reflexivity |].
  apply scope_isolation; reflexivity.
Defined.

(** The source [Box[int]] is refused for the synthesized [Self] of
    [Box[V]]: its check against the wide bound [Box[V]] runs on a fresh
    context that does not solve for [V], which accepts no [int] for [V];
    the context of the caller is as before. *)
Lemma self_of_box_refuses_int :
  assignTypeToTypeVar Fixture.evaluator Fixture.selfOfBox
    (Fixture.boxOf Fixture.intType) (Fixture.solvingFor "fn") 0 0
  = (false, Fixture.solvingFor "fn").
Proof. reflexivity. Qed.

(** C5, as stated, fails: the synthesized [Self] of [Box[V]] has scope
    [Box], which the context (solving for the function [fn]) does not solve
    for.  The source [Box[Any]] passes the check against the wide bound
    [Box[V]] ([Any] is accepted for a type variable out of scope); its
    check against the declared bound [Box[V]] is then made on the context
    itself, which solves for [V], and the judgment binds [V] to [Any]
    there. *)
Lemma scope_isolation_counterexample :
  TypeVarContext_.hasSolveForScope (Fixture.solvingFor "fn")
    (scopeId Fixture.selfOfBox) = false
  /\ fst (assignTypeToTypeVar Fixture.evaluator Fixture.selfOfBox
            (Fixture.boxOf Any) (Fixture.solvingFor "fn") 0 0)
     = true
  /\ TypeVarContext_.getTypeVarType (Fixture.solvingFor "fn")
       Fixture.valueVariable = None
  /\ TypeVarContext_.getTypeVarType
       (snd (assignTypeToTypeVar Fixture.evaluator Fixture.selfOfBox
               (Fixture.boxOf Any) (Fixture.solvingFor "fn") 0 0))
       Fixture.valueVariable = Some Any
  /\ snd (assignTypeToTypeVar Fixture.evaluator Fixture.selfOfBox
            (Fixture.boxOf Any) (Fixture.solvingFor "fn") 0 0)
     <> Fixture.solvingFor "fn".
Proof.
  repeat split; try reflexivity.
  intros H.
  assert (Hget :
            TypeVarContext_.getTypeVarType
              (snd (assignTypeToTypeVar Fixture.evaluator Fixture.selfOfBox
                      (Fixture.boxOf Any) (Fixture.solvingFor "fn") 0 0))
              Fixture.valueVariable = Some Any)
    by reflexivity.
  rewrite H in Hget. discriminate.
Qed.

(** ** The locked context *)

Section LockedContext.
Context {U : TypeUtils}.
Variable evaluator : TypeEvaluator.




End LockedContext.


(** ** Constrained type variables *)

Section ConstrainedTypeVars.
Context {U : TypeUtils}.
Variable evaluator : TypeEvaluator.
Variable destType : TypeVarType.
Variable isContravariant : bool.
Variable recursionCount : nat.

Let callback :=
  constrainSubtype evaluator destType isContravariant recursionCount.









End ConstrainedTypeVars.

Section ConstrainedAssignment.
Context {U : TypeUtils}.
Variable evaluator : TypeEvaluator.


End ConstrainedAssignment.



(** ** The guard against a pathological union *)

Section PathologicalUnion.
Context {U : TypeUtils}.
Variable evaluator : TypeEvaluator.

Lemma adjustSourceType_plain : forall destType srcType,
  isVariadic destType = false ->
  tvInstantiable destType = false ->
  adjustSourceType evaluator destType srcType = srcType.
Proof.
  intros dest src Hvar Hinst. unfold adjustSourceType.
  rewrite Hvar, Hinst. destruct src; reflexivity.
Qed.

(** Past the threshold, and with a declared bound, the widened bound is
    the current union joined with [object]; the source is left out. *)
Lemma widenNarrowBound_pathological :
  forall destType subtypes adjSrcType flags recursionCount objectType bound,
    assigns evaluator adjSrcType (Union subtypes) (freshContext destType)
      (scopeFlagOnly flags) recursionCount = false ->
    maxSubtypesForInferredType < List.length subtypes ->
    boundType destType = Some bound ->
    getObjectType evaluator = Some objectType ->
    isClassInstance objectType = true ->
    widenNarrowBound evaluator destType (Union subtypes) adjSrcType flags
      recursionCount
    = combineTypes [Union subtypes; objectType].
Proof.
  intros dest subtypes adj flags rc obj bound Hassign Hlen Hbound Hobj Hinst.
  unfold widenNarrowBound. rewrite Hassign, Hobj, Hbound, Hinst.
  apply Nat.ltb_lt in Hlen. rewrite Hlen. reflexivity.
Qed.

(** What the guard does, for a plain type variable (not variadic, not
    instantiable, not a synthesized [Self]) in the default mode: when its
    narrow bound is a union of more than [maxSubtypesForInferredType]
    subtypes and it declares a bound, a source that forces a widening
    (the current bound neither equals nor accepts it, and it does not
    accept the current bound) is left out of the new narrow bound, which
    is the combination of the current union with [object], not [object]
    alone.  That bound is recorded, and the call returns true, when it
    passes the check against the wide bound and the check against the
    declared bound; otherwise the call returns false and the context is
    left as it was. *)
Lemma pathological_union_widens_with_object :
  forall destType srcType ctx recursionCount entry subtypes objectType bound,
    scopeIdIsFalsy (scopeId destType) = false ->
    TypeVarContext_.hasSolveForScope ctx (scopeId destType) = true ->
    TypeVarContext_.isLocked ctx = false ->
    isParamSpec destType = false ->
    isVariadic destType = false ->
    tvInstantiable destType = false ->
    isSynthesizedSelf destType = false ->
    constraints destType = [] ->
    boundType destType = Some bound ->
    TypeVarContext_.getTypeVar ctx destType = Some entry ->
    narrowBound entry = Some (Union subtypes) ->
    maxSubtypesForInferredType < List.length subtypes ->
    getObjectType evaluator = Some objectType ->
    isClassInstance objectType = true ->
    let retainLiterals :=
      retainLiteralsFor destType ctx AssignTypeFlags.Default in
    let adjSrcType :=
      if retainLiterals then srcType else stripLiteralValue srcType in
    (* widening is needed *)
    isTypeSame (Union subtypes) adjSrcType = false ->
    assigns evaluator (Union subtypes) adjSrcType (freshContext destType)
      AssignTypeFlags.Default recursionCount = false ->
    assigns evaluator adjSrcType (Union subtypes) (freshContext destType)
      AssignTypeFlags.Default recursionCount = false ->
    let widened := combineTypes [Union subtypes; objectType] in
    let curWide :=
      match wideBound entry with Some w => Some w | None => Some bound end in
    assignTypeToTypeVar evaluator destType srcType ctx
      AssignTypeFlags.Default recursionCount
    = if withinWideBound evaluator destType curWide widened
           AssignTypeFlags.Default recursionCount
         && assigns evaluator bound
              (makeTopLevelTypeVarsConcrete evaluator widened)
              (freshContext destType) AssignTypeFlags.Default recursionCount
      then (true,
            TypeVarContext_.setTypeVarType ctx destType (Some widened)
              curWide (Some retainLiterals))
      else (false, ctx).
Proof.
  intros dest src ctx rc entry subtypes obj bound Hscope Hsolve Hlocked Hps
         Hvar Hinst Hself Hcons Hbound Hentry Hnarrow Hlen Hobj Hobjinst
         retain adj Hsame Hcur Hadj widened curWide.
  unfold assignTypeToTypeVar.
  rewrite Hscope.
  unfold checkTypeVarScope. rewrite Hsolve. cbn [negb].
  change (AssignTypeFlags.has AssignTypeFlags.Default
            AssignTypeFlags.SkipSolveTypeVars) with false.
  cbv iota. rewrite Hps, Hcons. cbn [List.length Nat.ltb Nat.leb].
  rewrite (adjustSourceType_plain dest src Hvar Hinst).
  rewrite Hentry, Hnarrow.
  unfold assignUnconstrained.
  change (AssignTypeFlags.has AssignTypeFlags.Default
            AssignTypeFlags.ReverseTypeVarMatching) with false.
  change (AssignTypeFlags.has AssignTypeFlags.Default
            AssignTypeFlags.AllowTypeVarNarrowing) with false.
  rewrite Hinst. cbn [andb orb]. fold retain. fold adj.
  unfold updateNarrowBound.
  rewrite Hsame, Hcur, Hlocked. cbn [negb].
  unfold isVariadicTypeVar. rewrite Hvar.
  change (scopeFlagOnly AssignTypeFlags.Default)
    with AssignTypeFlags.Default in *.
  rewrite (widenNarrowBound_pathological dest subtypes adj
             AssignTypeFlags.Default rc obj bound Hadj Hlen Hbound Hobj
             Hobjinst).
  fold widened. rewrite Hbound.
  change (match
            match wideBound entry with
            | Some w => Some w
            | None => Some bound
            end
          with
          | Some w => Some w
          | None => Some bound
          end) with curWide.
  assert (Hwide :
            match wideBound entry with
            | Some w => Some w
            | None => Some bound
            end = curWide) by reflexivity.
  rewrite Hwide.
  destruct (withinWideBound evaluator dest curWide widened
              AssignTypeFlags.Default rc); [| reflexivity].
  cbn [andb]. rewrite Hself. reflexivity.
Qed.

End PathologicalUnion.

(** [T] bound by [object], its narrow bound a union of 65 classes, and one
    more class as the source: the new narrow bound is that union joined with
    [object]. *)
Lemma pathological_union_widens_with_object_witness :
  assignTypeToTypeVar Fixture.evaluator Fixture.boundedByObject
    (Fixture.userSequence 65)
    (Fixture.pathologicalContext Fixture.boundedByObject)
    AssignTypeFlags.Default 0
  = (true,
     TypeVarContext_.setTypeVarType
       (Fixture.pathologicalContext Fixture.boundedByObject)
       Fixture.boundedByObject
       (Some (combineTypes [Fixture.userSequences 65; Fixture.objectType]))
       (Some Fixture.objectType) (Some false)).
Proof.
  rewrite (pathological_union_widens_with_object Fixture.evaluator
             Fixture.boundedByObject (Fixture.userSequence 65)
             (Fixture.pathologicalContext Fixture.boundedByObject) 0
             (mkTypeVarMapEntry Fixture.boundedByObject
                (Some (Fixture.userSequences 65)) None (Some false))
             (map Fixture.userSequence (seq 0 65))
             Fixture.objectType Fixture.objectType);
    try (vm_compute; reflexivity).
Defined.


(** ** The expected type of the same generic class *)

Section StringMapFacts.
Variable V : Set.

Lemma mapGet_mapSet_same : forall k (v : V) m,
  mapGet k (mapSet k v m) = Some v.
Proof.
  intros k v. induction m as [| [k' v'] r IH]; simpl.
  - rewrite String.eqb_refl. reflexivity.
  - destruct (String.eqb k' k) eqn:H; simpl.
    + rewrite String.eqb_refl. reflexivity.
    + rewrite H. exact IH.
Qed.

Lemma mapGet_mapSet_other : forall k k' (v : V) m,
  k' <> k -> mapGet k' (mapSet k v m) = mapGet k' m.
Proof.
  intros k k' v m Hneq. induction m as [| [k0 v0] r IH]; simpl.
  - destruct (String.eqb k k') eqn:H; [| reflexivity].
    apply String.eqb_eq in H. congruence.
  - destruct (String.eqb k0 k) eqn:H0; simpl.
    + apply String.eqb_eq in H0. subst k0.
      destruct (String.eqb k k') eqn:H; [| reflexivity].
      apply String.eqb_eq in H. congruence.
    + rewrite IH. reflexivity.
Qed.

Lemma mapSet_In : forall k (v : V) m x,
  In x (mapSet k v m) -> x = (k, v) \/ In x m.
Proof.
  intros k v. induction m as [| [k' v'] r IH]; intros x H; simpl in *.
  - destruct H as [H | []]. left. symmetry. exact H.
  - destruct (String.eqb k' k).
    + destruct H as [H | H]; [left; symmetry; exact H | right; right; exact H].
    + destruct H as [H | H]; [right; left; exact H |].
      destruct (IH x H) as [H' | H']; [left; exact H' | right; right; exact H'].
Qed.

Lemma mapSet_keys : forall k (v : V) m,
  NoDup (map fst m) -> NoDup (map fst (mapSet k v m)).
Proof.
  intros k v. induction m as [| [k' v'] r IH]; intros H; simpl.
  - constructor; [intros [] | constructor].
  - inversion H as [| ? ? Hnotin Hr]; subst.
    destruct (String.eqb k' k) eqn:Hk; simpl.
    + apply String.eqb_eq in Hk. subst k'. constructor; assumption.
    + constructor; [| apply IH; exact Hr].
      intros Hin. apply in_map_iff in Hin as ([k0 v0] & Hfst & Hin).
      simpl in Hfst. subst k0.
      destruct (mapSet_In _ _ _ _ Hin) as [Heq | Hin'].
      * inversion Heq. subst. rewrite String.eqb_refl in Hk. discriminate.
      * apply Hnotin. apply in_map_iff. exists (k', v0). split; auto.
Qed.

Lemma mapGet_In : forall k (v : V) m,
  mapGet k m = Some v -> In (k, v) m.
Proof.
  intros k v. induction m as [| [k' v'] r IH]; intros H; simpl in *;
    [discriminate |].
  destruct (String.eqb k' k) eqn:Hk.
  - apply String.eqb_eq in Hk. inversion H. subst. left. reflexivity.
  - right. apply IH. exact H.
Qed.

End StringMapFacts.

Section ExpectedType.
Context {U : TypeUtils}.
Variable evaluator : TypeEvaluator.

Lemma fold_invariant :
  forall (X : Type) (step : TypeVarContext -> X -> TypeVarContext)
         (P : TypeVarContext -> Prop),
    (forall ctx x, P ctx -> P (step ctx x)) ->
    forall l ctx, P ctx -> P (fold_left step l ctx).
Proof.
  intros X step P Hstep. induction l as [| x r IH]; intros ctx H;
    [exact H |]. simpl. apply IH. apply Hstep. exact H.
Qed.

Lemma fold_keeps_other_keys :
  forall (X : Type) (step : TypeVarContext -> X -> TypeVarContext) key,
    touchesOnly X step key ->
    forall l ctx k,
      ~ In k (map key l) ->
      mapGet k (typeVarMap (fold_left step l ctx)) = mapGet k (typeVarMap ctx).
Proof.
  intros X step key Htouch. induction l as [| x r IH]; intros ctx k Hnotin;
    [reflexivity |].
  simpl in *. rewrite IH by tauto.
  apply (proj2 (Htouch ctx x)). intros Heq. apply Hnotin. left.
  symmetry. exact Heq.
Qed.

(** Over steps that touch distinct keys, the entry of a key at the end is
    the one its own step wrote. *)
Lemma fold_lookup_own_step :
  forall (X : Type) (step : TypeVarContext -> X -> TypeVarContext) key,
    touchesOnly X step key ->
    forall l ctx x0 v,
      NoDup (map key l) ->
      In x0 l ->
      (forall c, locked c = false ->
                 mapGet (key x0) (typeVarMap (step c x0)) = Some v) ->
      locked ctx = false ->
      mapGet (key x0) (typeVarMap (fold_left step l ctx)) = Some v.
Proof.
  intros X step key Htouch. induction l as [| x r IH];
    intros ctx x0 v Hnodup Hin Hown Hlocked; [contradiction |].
  simpl in *. inversion Hnodup as [| ? ? Hnotin Hr]; subst.
  destruct Hin as [-> | Hin].
  - rewrite (fold_keeps_other_keys X step key Htouch r _ _ Hnotin).
    apply Hown. exact Hlocked.
  - apply IH; try assumption.
    rewrite (proj1 (Htouch ctx x)). exact Hlocked.
Qed.

Lemma setTypeVarType_touches : forall ctx reference narrow wide retain,
  locked (TypeVarContext_.setTypeVarType ctx reference narrow wide retain)
  = locked ctx
  /\ forall k, k <> TypeVarContext_.getKey reference ->
               mapGet k (typeVarMap
                           (TypeVarContext_.setTypeVarType ctx reference
                              narrow wide retain))
               = mapGet k (typeVarMap ctx).
Proof.
  intros ctx r n w rt. unfold TypeVarContext_.setTypeVarType.
  destruct (locked ctx) eqn:H; simpl; [split; [exact H | reflexivity] |].
  split; [reflexivity |]. intros k Hk. apply mapGet_mapSet_other. exact Hk.
Qed.

Lemma setTypeVarType_lookup : forall ctx reference narrow wide retain,
  locked ctx = false ->
  mapGet (TypeVarContext_.getKey reference)
    (typeVarMap
       (TypeVarContext_.setTypeVarType ctx reference narrow wide retain))
  = Some (mkTypeVarMapEntry reference narrow wide retain).
Proof.
  intros ctx r n w rt H. unfold TypeVarContext_.setTypeVarType.
  rewrite H. simpl. apply mapGet_mapSet_same.
Qed.

Lemma setTypeVarType_coherent : forall ctx reference narrow wide retain,
  coherent ctx ->
  coherent (TypeVarContext_.setTypeVarType ctx reference narrow wide retain).
Proof.
  intros ctx r n w rt [Hnodup Hkeys]. unfold TypeVarContext_.setTypeVarType.
  destruct (locked ctx); [split; assumption |].
  split; simpl.
  - apply mapSet_keys. exact Hnodup.
  - intros k e Hin. destruct (mapSet_In _ _ _ _ _ Hin) as [Heq | Hin'].
    + inversion Heq. reflexivity.
    + apply Hkeys. exact Hin'.
Qed.

Let buildStep (typeArgs : list Ty) (ctx : TypeVarContext)
  (ip : nat * TypeVarType) : TypeVarContext :=
  let '(index, typeParam) := ip in
  if isParamSpec typeParam then ctx
  else TypeVarContext_.setTypeVarType ctx typeParam
         (Some (nth index typeArgs Any)) None (Some true).

Lemma buildStep_touches : forall typeArgs,
  touchesOnly _ (buildStep typeArgs)
    (fun ip => TypeVarContext_.getKey (snd ip)).
Proof.
  intros typeArgs ctx [index p]. unfold buildStep. simpl.
  destruct (isParamSpec p); [split; reflexivity |].
  apply setTypeVarType_touches.
Qed.

Lemma indexed_In : forall (A : Type) (l : list A) start i x,
  nth_error l i = Some x ->
  In (start + i, x) (combine (seq start (List.length l)) l).
Proof.
  intros A. induction l as [| a r IH]; intros start i x H.
  - destruct i; discriminate.
  - destruct i as [| i]; simpl in *.
    + inversion H. subst. left. rewrite Nat.add_0_r. reflexivity.
    + right. replace (start + S i) with (S start + i) by lia.
      apply IH. exact H.
Qed.

Lemma indexed_snd : forall (A : Type) (l : list A) start,
  map snd (combine (seq start (List.length l)) l) = l.
Proof.
  intros A. induction l as [| a r IH]; intros start; [reflexivity |].
  simpl. rewrite IH. reflexivity.
Qed.

(** What [buildTypeVarContextFromSpecializedClass] holds for a type
    parameter. *)
Lemma build_lookup : forall classType typeArgs i p,
  typeArguments classType = Some typeArgs ->
  NoDup (map TypeVarContext_.getKey (typeParameters classType)) ->
  nth_error (typeParameters classType) i = Some p ->
  isParamSpec p = false ->
  TypeVarContext_.getTypeVar
    (buildTypeVarContextFromSpecializedClass classType) p
  = Some (mkTypeVarMapEntry p (Some (nth i typeArgs Any)) None (Some true)).
Proof.
  intros c args i p Hargs Hnodup Hnth Hps.
  unfold buildTypeVarContextFromSpecializedClass, TypeVarContext_.getTypeVar.
  rewrite Hargs.
  apply (fold_lookup_own_step _ (buildStep args)
           (fun ip => TypeVarContext_.getKey (snd ip))
           (buildStep_touches args) _ _ (i, p)).
  - rewrite <- (map_map snd TypeVarContext_.getKey).
    rewrite indexed_snd. exact Hnodup.
  - apply (indexed_In _ (typeParameters c) 0 i p Hnth).
  - intros ctx Hlocked. unfold buildStep. simpl. rewrite Hps.
    apply setTypeVarType_lookup. exact Hlocked.
  - reflexivity.
Qed.

Lemma build_coherent : forall classType,
  coherent (buildTypeVarContextFromSpecializedClass classType).
Proof.
  intros c. unfold buildTypeVarContextFromSpecializedClass.
  assert (Hempty : forall scope, coherent (TypeVarContext_.create scope)).
  { intros scope. split; simpl; [constructor | intros k e []]. }
  destruct (typeArguments c) as [args |]; [| apply Hempty].
  apply fold_invariant; [| apply Hempty].
  intros ctx [index p] H.
  destruct (isParamSpec p); [exact H |].
  apply setTypeVarType_coherent. exact H.
Qed.

Lemma copySpecializedEntry_touches : forall type sameClassTypeVarContext,
  touchesOnly _ (copySpecializedEntry type sameClassTypeVarContext)
    (fun entry => TypeVarContext_.getKey (typeVar entry)).
Proof.
  intros type same ctx entry. unfold copySpecializedEntry.
  destruct (TypeVarContext_.getTypeVarType same (typeVar entry));
    [| split; reflexivity].
  destruct (negb (isTypeVarOfScope _ _)); [| split; reflexivity].
  apply setTypeVarType_touches.
Qed.

(** C2, as amended.  When the expected type is the same generic class as
    the target, specialised, the type argument of each type parameter
    (other than a type variable of the target's own scope) is copied into
    an unlocked context according to the declared variance of the
    parameter: a covariant parameter gets only its wide bound set to the
    argument, a contravariant parameter gets only its narrow bound set,
    and an invariant parameter gets both. *)
Theorem populate_same_class_by_variance :
  forall type expectedClass typeArgs ctx liveTypeVarScopes i p,
    ClassType_.isSameGenericClass expectedClass type = true ->
    typeArguments expectedClass = Some typeArgs ->
    TypeVarContext_.isLocked ctx = false ->
    NoDup (map TypeVarContext_.getKey (typeParameters expectedClass)) ->
    nth_error (typeParameters expectedClass) i = Some p ->
    isParamSpec p = false ->
    isTypeVarOfScope (typeVarScopeId (details type)) (nth i typeArgs Any)
    = false ->
    exists ctx',
      populateTypeVarContextBasedOnExpectedType evaluator type
        (Class expectedClass) ctx liveTypeVarScopes = Some (true, ctx')
      /\ TypeVarContext_.getTypeVar ctx' p
         = Some (mkTypeVarMapEntry p
                   (match TypeVarType_.getVariance p with
                    | Covariant => None
                    | _ => Some (nth i typeArgs Any)
                    end)
                   (match TypeVarType_.getVariance p with
                    | Contravariant => None
                    | _ => Some (nth i typeArgs Any)
                    end)
                   (Some true)).
Proof.
  intros type expected args ctx live i p Hsame Hargs Hlocked Hnodup Hnth Hps
         Hscope.
  unfold populateTypeVarContextBasedOnExpectedType.
  rewrite Hargs, Hsame.
  eexists. split; [reflexivity |].
  set (same := buildTypeVarContextFromSpecializedClass expected).
  pose proof (build_lookup expected args i p Hargs Hnodup Hnth Hps)
    as Hlookup.
  fold same in Hlookup.
  destruct (build_coherent expected) as [Hkeys Hcoherent].
  fold same in Hkeys, Hcoherent.
  set (entry := mkTypeVarMapEntry p (Some (nth i args Any)) None (Some true))
    in *.
  unfold TypeVarContext_.getTypeVar in *.
  change (TypeVarContext_.getKey p)
    with ((fun e => TypeVarContext_.getKey (typeVar e)) entry).
  apply (fold_lookup_own_step _ (copySpecializedEntry type same)
           (fun e => TypeVarContext_.getKey (typeVar e))
           (copySpecializedEntry_touches type same)).
  - unfold TypeVarContext_.getTypeVars. rewrite map_map.
    rewrite (map_ext_in _ fst); [exact Hkeys |].
    intros [k e] Hin. simpl. symmetry. apply Hcoherent. exact Hin.
  - unfold TypeVarContext_.getTypeVars. apply in_map_iff.
    exists (TypeVarContext_.getKey p, entry). split; [reflexivity |].
    apply mapGet_In. exact Hlookup.
  - intros c Hc. unfold copySpecializedEntry.
    unfold TypeVarContext_.getTypeVarType, TypeVarContext_.getTypeVar.
    change (typeVar entry) with p. rewrite Hlookup.
    change (narrowBound entry) with (Some (nth i args Any)).
    cbv iota. rewrite Hscope. cbn [negb].
    rewrite setTypeVarType_lookup by exact Hc.
    change (retainLiteral entry) with (Some true).
    destruct (TypeVarType_.getVariance p); reflexivity.
  - exact Hlocked.
Qed.

End ExpectedType.

(** [Triple[int, str, bytes]] expected of [Triple]: the covariant
    parameter gets [int] as its wide bound only. *)
Lemma populate_same_class_by_variance_witness :
  exists ctx',
    populateTypeVarContextBasedOnExpectedType Fixture.evaluator
      Fixture.tripleClass Fixture.tripleOfIntStrBytes
      (Fixture.solvingFor "Triple") None = Some (true, ctx')
    /\ TypeVarContext_.getTypeVar ctx' Fixture.covariantParameter
       = Some (mkTypeVarMapEntry Fixture.covariantParameter None
                 (Some Fixture.intType) (Some true)).
Proof.
  apply (populate_same_class_by_variance Fixture.evaluator Fixture.tripleClass
           (Fixture.withTypeArguments Fixture.tripleClass
              [Fixture.intType; Fixture.strType; Fixture.bytesType])
           [Fixture.intType; Fixture.strType; Fixture.bytesType]
           (Fixture.solvingFor "Triple") None 0 Fixture.covariantParameter);
    try reflexivity.
  repeat constructor; simpl; intuition discriminate.
Defined.

(** C2, as stated, fails: for [Triple[int, str, bytes]] expected of
    [Triple], the covariant parameter ends with no narrow bound and [int]
    as its wide bound, and the contravariant parameter with [str] as its
    narrow bound and no wide bound; the invariant parameter has both. *)
Lemma populate_same_class_counterexample :
  exists ctx',
    populateTypeVarContextBasedOnExpectedType Fixture.evaluator
      Fixture.tripleClass Fixture.tripleOfIntStrBytes
      (Fixture.solvingFor "Triple") None = Some (true, ctx')
    /\ TypeVarType_.getVariance Fixture.covariantParameter = Covariant
    /\ option_map narrowBound
         (TypeVarContext_.getTypeVar ctx' Fixture.covariantParameter)
       = Some None
    /\ option_map wideBound
         (TypeVarContext_.getTypeVar ctx' Fixture.covariantParameter)
       = Some (Some Fixture.intType)
    /\ TypeVarType_.getVariance Fixture.contravariantParameter = Contravariant
    /\ option_map narrowBound
         (TypeVarContext_.getTypeVar ctx' Fixture.contravariantParameter)
       = Some (Some Fixture.strType)
    /\ option_map wideBound
         (TypeVarContext_.getTypeVar ctx' Fixture.contravariantParameter)
       = Some None
    /\ option_map narrowBound
         (TypeVarContext_.getTypeVar ctx' Fixture.invariantParameter)
       = Some (Some Fixture.bytesType)
    /\ option_map wideBound
         (TypeVarContext_.getTypeVar ctx' Fixture.invariantParameter)
       = Some (Some Fixture.bytesType).
Proof.
  eexists. split; [reflexivity |]. repeat split.
Qed.



(** * Properties of the rest of the sources *)

(** ** Workspaces *)

Section StringPrefixFacts.

Lemma prefix_cons : forall a s1 b s2,
  String.prefix (String a s1) (String b s2) = true
  <-> a = b /\ String.prefix s1 s2 = true.
Proof.
  intros a s1 b s2. simpl. destruct (Ascii.ascii_dec a b) as [-> | Hneq].
  - tauto.
  - split; [discriminate | intros [H _]; contradiction].
Qed.

Lemma prefix_nil : forall s, String.prefix "" s = true.
Proof. destruct s; reflexivity. Qed.

Lemma prefix_refl : forall s, String.prefix s s = true.
Proof.
  induction s as [| a s IH]; [reflexivity |].
  apply prefix_cons. split; [reflexivity | exact IH].
Qed.

Lemma prefix_of_nil : forall s, String.prefix s "" = true -> s = "".
Proof. destruct s; [reflexivity | discriminate]. Qed.

Lemma prefix_trans : forall c a b,
  String.prefix a b = true -> String.prefix b c = true ->
  String.prefix a c = true.
Proof.
  induction c as [| x c IH]; intros a b Hab Hbc.
  - apply prefix_of_nil in Hbc. subst b. apply prefix_of_nil in Hab.
    subst a. reflexivity.
  - destruct a as [| y a]; [reflexivity |].
    destruct b as [| z b]; [discriminate |].
    apply prefix_cons in Hab as [-> Hab].
    apply prefix_cons in Hbc as [-> Hbc].
    apply prefix_cons. split; [reflexivity |]. exact (IH a b Hab Hbc).
Qed.

(** Two prefixes of one string: one of them is a prefix of the other. *)
Lemma prefix_comparable : forall s a b,
  String.prefix a s = true -> String.prefix b s = true ->
  String.prefix a b = true \/ String.prefix b a = true.
Proof.
  induction s as [| x s IH]; intros a b Ha Hb.
  - apply prefix_of_nil in Ha. subst a. left. apply prefix_nil.
  - destruct a as [| y a]; [left; apply prefix_nil |].
    destruct b as [| z b]; [right; apply prefix_nil |].
    apply prefix_cons in Ha as [-> Ha].
    apply prefix_cons in Hb as [-> Hb].
    destruct (IH a b Ha Hb) as [H | H]; [left | right];
      apply prefix_cons; split; auto.
Qed.

End StringPrefixFacts.

Section StringMapDeletion.
Variable V : Set.

Lemma mapSet_absent : forall k (v : V) m,
  mapGet k m = None -> mapSet k v m = List.app m [(k, v)].
Proof.
  intros k v. induction m as [| [k' v'] r IH]; intros H; simpl in *;
    [reflexivity |].
  destruct (String.eqb k' k); [discriminate |].
  rewrite (IH H). reflexivity.
Qed.

Lemma mapGet_mapDelete_same : forall k (m : list (string * V)),
  mapGet k (mapDelete k m) = None.
Proof.
  intros k. induction m as [| [k' v'] r IH]; [reflexivity |].
  unfold mapDelete in *. simpl.
  destruct (String.eqb k' k) eqn:H; simpl; [exact IH |].
  rewrite H. exact IH.
Qed.

Lemma mapGet_mapDelete_other : forall k k' (m : list (string * V)),
  k' <> k -> mapGet k' (mapDelete k m) = mapGet k' m.
Proof.
  intros k k' m Hneq. induction m as [| [k0 v0] r IH]; [reflexivity |].
  unfold mapDelete in *. simpl.
  destruct (String.eqb k0 k) eqn:H; simpl.
  - apply String.eqb_eq in H. subst k0.
    destruct (String.eqb k k') eqn:H'; [| exact IH].
    apply String.eqb_eq in H'. congruence.
  - rewrite IH. reflexivity.
Qed.

End StringMapDeletion.

Section Workspaces.
Import WorkspaceMap.
Variable defaultKind : string.
Variable ls : LanguageServerBase.

(** What the scan of [getWorkspaceForFile] holds after the workspaces
    [seen]. *)
Let scanned (filePath : string) (seen : list WorkspaceServiceInstance)
  (best : option string * option WorkspaceServiceInstance) : Prop :=
  match best with
  | (None, None) => forall v, In v seen -> containsFile filePath v = false
  | (Some r, Some w) =>
      r = rootPath w /\ In w seen /\ containsFile filePath w = true
      /\ forall v, In v seen -> containsFile filePath v = true ->
                   String.prefix (rootPath v) r = true
  | _ => False
  end.

Lemma considerWorkspace_scanned : forall filePath seen best x,
  scanned filePath seen best ->
  scanned filePath (List.app seen [x]) (considerWorkspace filePath best x).
Proof.
  intros filePath seen [bestRootPath bestInstance] x H.
  unfold considerWorkspace.
  assert (Hkeep :
            containsFile filePath x = false
            \/ (exists r w, bestRootPath = Some r /\ bestInstance = Some w
                            /\ String.prefix (rootPath x) r = true) ->
            scanned filePath (List.app seen [x]) (bestRootPath, bestInstance)).
  { intros Hx. unfold scanned in *.
    destruct bestRootPath as [r |], bestInstance as [w |]; try contradiction.
    - destruct H as (Hr & Hin & Hw & Hall).
      repeat split; try assumption.
      + apply in_or_app. left. exact Hin.
      + intros v Hv Hcv. apply in_app_or in Hv as [Hv | [<- | []]].
        * apply Hall; assumption.
        * destruct Hx as [Hx | (r' & w' & Hr' & _ & Hp)];
            [congruence |]. inversion Hr'. subst r'. exact Hp.
    - intros v Hv. apply in_app_or in Hv as [Hv | [<- | []]].
      + apply H. exact Hv.
      + destruct Hx as [Hx | (r' & w' & Hr' & _)];
          [exact Hx | discriminate]. }
  destruct (negb (String.eqb (rootPath x) "")) eqn:Hroot;
    [| apply Hkeep; left; unfold containsFile; rewrite Hroot; reflexivity].
  destruct (String.prefix (rootPath x) filePath) eqn:Hprefix;
    [| apply Hkeep; left; unfold containsFile; rewrite Hroot, Hprefix;
       reflexivity].
  assert (Hx : containsFile filePath x = true)
    by (unfold containsFile; rewrite Hroot, Hprefix; reflexivity).
  unfold scanned in H.
  destruct bestRootPath as [r |], bestInstance as [w |]; try contradiction.
  - destruct H as (Hr & Hin & Hw & Hall).
    destruct (String.prefix r (rootPath x)) eqn:Hinner.
    + (* the new folder lies within the best one *)
      simpl. repeat split; try assumption.
      * apply in_or_app. right. left. reflexivity.
      * intros v Hv Hcv. apply in_app_or in Hv as [Hv | [<- | []]].
        -- apply (prefix_trans _ _ r); [apply Hall; assumption | exact Hinner].
        -- apply prefix_refl.
    + (* the best folder lies within the new one, or is the new one *)
      apply Hkeep. right. exists r, w. repeat split.
      assert (Hwp : String.prefix r filePath = true).
      { subst r. unfold containsFile in Hw.
        apply andb_true_iff in Hw as [_ Hw]. exact Hw. }
      destruct (prefix_comparable filePath _ _ Hprefix Hwp) as [Hc | Hc];
        [exact Hc | congruence].
  - simpl. repeat split; try assumption.
    + apply in_or_app. right. left. reflexivity.
    + intros v Hv Hcv. apply in_app_or in Hv as [Hv | [<- | []]].
      * rewrite (H v Hv) in Hcv. discriminate.
      * apply prefix_refl.
Qed.

Lemma scan_scanned : forall filePath l seen best,
  scanned filePath seen best ->
  scanned filePath (List.app seen l)
    (fold_left (considerWorkspace filePath) l best).
Proof.
  intros filePath. induction l as [| x l IH]; intros seen best H.
  - rewrite app_nil_r. exact H.
  - simpl. replace (List.app seen (x :: l))
      with (List.app (List.app seen [x]) l)
      by (rewrite <- app_assoc; reflexivity).
    apply IH. apply considerWorkspace_scanned. exact H.
Qed.

Lemma scan_result : forall filePath (this : t),
  scanned filePath (map snd this)
    (fold_left (considerWorkspace filePath) (map snd this) (None, None)).
Proof.
  intros filePath this.
  apply (scan_scanned filePath (map snd this) [] (None, None)).
  intros v [].
Qed.

Lemma scan_finds_nothing : forall filePath (this : t),
  existsb (containsFile filePath) (map snd this) = false ->
  fold_left (considerWorkspace filePath) (map snd this) (None, None)
  = (None, None).
Proof.
  intros filePath this Hnone.
  pose proof (scan_result filePath this) as H.
  destruct (fold_left _ _ _) as [[r |] [w |]]; simpl in H;
    try contradiction; [| reflexivity].
  destruct H as (_ & Hin & Hw & _).
  assert (existsb (containsFile filePath) (map snd this) = true)
    by (apply existsb_exists; exists w; split; assumption).
  congruence.
Qed.

Lemma scan_finds_innermost : forall filePath (this : t),
  existsb (containsFile filePath) (map snd this) = true ->
  exists w,
    getWorkspaceForFile defaultKind ls this filePath = (w, this, [])
    /\ In w (map snd this)
    /\ containsFile filePath w = true
    /\ forall v, In v (map snd this) ->
                 containsFile filePath v = true ->
                 String.prefix (rootPath v) (rootPath w) = true.
Proof.
  intros filePath this Hsome.
  unfold getWorkspaceForFile.
  pose proof (scan_result filePath this) as H.
  destruct (fold_left _ _ _) as [[r |] [w |]]; simpl in H;
    try contradiction.
  - destruct H as (-> & Hin & Hw & Hall).
    exists w. repeat split; assumption.
  - apply existsb_exists in Hsome as (v & Hv & Hcv).
    rewrite (H v Hv) in Hcv. discriminate.
Qed.

(** X1.  When some workspace folder holds the file, [getWorkspaceForFile]
    answers with an innermost one, whatever the order of the workspaces
    in the map: the answer is a workspace of the map that holds the file,
    and the root path of every workspace that holds the file is a prefix
    of the root path of the answer.  The map is left as it is and nothing
    is created. *)
Theorem getWorkspaceForFile_innermost :
  forall (this : t) filePath,
    existsb (containsFile filePath) (map snd this) = true ->
    exists w,
      getWorkspaceForFile defaultKind ls this filePath = (w, this, [])
      /\ In w (map snd this)
      /\ containsFile filePath w = true
      /\ forall v, In v (map snd this) ->
                   containsFile filePath v = true ->
                   String.prefix (rootPath v) (rootPath w) = true.
Proof.
  intros this filePath Hsome. apply scan_finds_innermost. exact Hsome.
Qed.

(** X2.  For a file that no workspace folder holds, in a map without a
    default workspace that does not consist of one workspace only,
    [getWorkspaceForFile] creates the default workspace (empty root path,
    the default kind, a new analyzer service) and stores it under
    [<default>]; a later call for a file outside every folder answers
    with that same workspace, creates nothing and leaves the map as it
    is. *)
Theorem getWorkspaceForFile_default_created_once :
  forall (this : t) filePath laterFilePath,
    existsb (containsFile filePath) (map snd this) = false ->
    existsb (containsFile laterFilePath) (map snd this) = false ->
    mapGet _defaultWorkspacePath this = None ->
    size this <> 1 ->
    exists defaultWorkspace,
      getWorkspaceForFile defaultKind ls this filePath
      = (defaultWorkspace,
         mapSet _defaultWorkspacePath defaultWorkspace this,
         [CreatedAnalyzerService _defaultWorkspacePath;
          UpdatedSettingsForWorkspace defaultWorkspace])
      /\ rootPath defaultWorkspace = ""
      /\ kind defaultWorkspace = defaultKind
      /\ serviceInstance defaultWorkspace
         = createAnalyzerService ls _defaultWorkspacePath
      /\ getWorkspaceForFile defaultKind ls
           (mapSet _defaultWorkspacePath defaultWorkspace this)
           laterFilePath
         = (defaultWorkspace,
            mapSet _defaultWorkspacePath defaultWorkspace this, []).
Proof.
  intros this filePath later Hnone Hlater Hdefault Hsize.
  eexists. split; [| split; [| split; [| split]]].
  - unfold getWorkspaceForFile.
    rewrite (scan_finds_nothing filePath this Hnone), Hdefault.
    destruct this as [| [k w] [| kv rest]]; try reflexivity.
    exfalso. apply Hsize. reflexivity.
  - reflexivity.
  - reflexivity.
  - reflexivity.
  - unfold getWorkspaceForFile.
    rewrite scan_finds_nothing.
    + rewrite mapGet_mapSet_same. reflexivity.
    + rewrite (mapSet_absent _ _ _ _ Hdefault), map_app, existsb_app, Hlater.
      reflexivity.
Qed.

(** X3.  A file outside the only workspace of the map is still served
    by that workspace: with one workspace and no default one,
    [getWorkspaceForFile] answers with the workspace for every file, and
    neither creates a default workspace nor changes the map. *)
Theorem getWorkspaceForFile_only_workspace :
  forall key workspace filePath,
    key <> _defaultWorkspacePath ->
    getWorkspaceForFile defaultKind ls [(key, workspace)] filePath
    = (workspace, [(key, workspace)], []).
Proof.
  intros key w filePath Hkey.
  unfold getWorkspaceForFile.
  assert (Hget : mapGet _defaultWorkspacePath [(key, w)] = None).
  { simpl. destruct (String.eqb key _defaultWorkspacePath) eqn:H;
      [apply String.eqb_eq in H; contradiction | reflexivity]. }
  destruct (existsb (containsFile filePath) (map snd [(key, w)])) eqn:Hc.
  - destruct (scan_finds_innermost filePath [(key, w)] Hc)
      as (v & Hcall & [<- | []] & _).
    exact Hcall.
  - rewrite (scan_finds_nothing filePath [(key, w)] Hc), Hget. reflexivity.
Qed.

Lemma countsMoreThanOne_counts : forall kind entries count,
  count <= 1 ->
  countsMoreThanOne kind count entries
  = Nat.leb 2 (count
               + List.length (filter (kindMatches kind) (map snd entries))).
Proof.
  intros kind. induction entries as [| kv rest IH]; intros count Hcount.
  - simpl. rewrite Nat.add_0_r.
    destruct count as [| [| n]]; [reflexivity | reflexivity | lia].
  - simpl. destruct (kindMatches kind (snd kv)); simpl.
    + destruct count as [| [| n]]; [| | lia].
      * simpl. rewrite IH by lia. reflexivity.
      * reflexivity.
    + destruct (Nat.ltb 1 count) eqn:Hlt.
      * apply Nat.ltb_lt in Hlt. lia.
      * apply IH. exact Hcount.
Qed.

(** X4.  [hasMultipleWorkspaces] tells whether at least two workspaces of
    the map are of the given kind (every workspace counts when no kind,
    or the empty one, is given): the early exits of the loop and the test
    on the size of the map do not change the count. *)
Theorem hasMultipleWorkspaces_counts : forall (this : t) kind,
  hasMultipleWorkspaces this kind
  = Nat.leb 2
      (List.length (filter (kindMatches kind) (map snd this))).
Proof.
  intros this kind. unfold hasMultipleWorkspaces, size.
  destruct this as [| kv [| kv' rest]].
  - reflexivity.
  - simpl. destruct (kindMatches kind (snd kv)); reflexivity.
  - cbn [List.length Nat.eqb orb].
    apply (countsMoreThanOne_counts kind (kv :: kv' :: rest) 0). lia.
Qed.

Lemma getNonDefaultWorkspaces_app : forall (a b : t) kind,
  getNonDefaultWorkspaces (List.app a b) kind
  = List.app (getNonDefaultWorkspaces a kind)
      (getNonDefaultWorkspaces b kind).
Proof.
  intros a b kind. unfold getNonDefaultWorkspaces.
  rewrite map_app, filter_app. reflexivity.
Qed.

(** X5.  Every workspace [getNonDefaultWorkspaces] lists is a workspace
    of the map that has a root path and is of the given kind (when one
    is given); and a call of [getWorkspaceForFile] never changes that
    list: the default workspace it may create is not in it. *)
Theorem getNonDefaultWorkspaces_unchanged_by_lookup :
  forall (this : t) filePath kind,
    (forall workspace,
        In workspace (getNonDefaultWorkspaces this kind) ->
        In workspace (map snd this)
        /\ rootPath workspace <> ""
        /\ kindMatches kind workspace = true)
    /\ getNonDefaultWorkspaces
         (snd (fst (getWorkspaceForFile defaultKind ls this filePath)))
         kind
       = getNonDefaultWorkspaces this kind.
Proof.
  intros this filePath kind. split.
  - intros w Hin. unfold getNonDefaultWorkspaces in Hin.
    apply filter_In in Hin as [Hin Hkeep]. split; [exact Hin |].
    destruct (String.eqb (rootPath w) "") eqn:Hroot; [discriminate |].
    split; [intros Heq; rewrite Heq in Hroot; discriminate |].
    unfold kindDiffers, kindMatches in *.
    destruct kind as [k |]; [| reflexivity].
    simpl in *. destruct (String.eqb k ""); [reflexivity |].
    destruct (String.eqb (kindOf w) k); [reflexivity | discriminate].
  - unfold getWorkspaceForFile.
    destruct (fold_left _ _ _) as [r [w |]]; [reflexivity |].
    destruct (mapGet _defaultWorkspacePath this) eqn:Hdefault;
      [reflexivity |].
    assert (Hadd :
              forall d, rootPath d = "" ->
                        getNonDefaultWorkspaces
                          (mapSet _defaultWorkspacePath d this) kind
                        = getNonDefaultWorkspaces this kind).
    { intros d Hroot.
      rewrite (mapSet_absent _ _ _ _ Hdefault), getNonDefaultWorkspaces_app.
      unfold getNonDefaultWorkspaces at 2. simpl. rewrite Hroot. simpl.
      apply app_nil_r. }
    destruct this as [| [k w] [| kv rest]]; try reflexivity;
      cbn [fst snd]; apply Hadd; reflexivity.
Qed.

End Workspaces.

(** X6.  [delete] on a key the map does not hold returns false and does
    nothing.  On a key it holds, it returns true, shuts down the
    background analysis of that workspace when it has one, and removes
    the entry: the key is no longer found and every other key is found as
    before. *)
Theorem delete_removes_one_workspace :
  forall (this : WorkspaceMap.t) key,
    (mapGet key this = None ->
     WorkspaceMap.delete this key = (false, this, []))
    /\ (forall workspace,
           mapGet key this = Some workspace ->
           exists this',
             WorkspaceMap.delete this key
             = (true, this',
                if WorkspaceMap.hasBackgroundAnalysis
                     (WorkspaceMap.serviceInstance workspace)
                then [WorkspaceMap.Shutdown
                        (WorkspaceMap.serviceInstance workspace)]
                else [])
             /\ mapGet key this' = None
             /\ forall other, other <> key ->
                              mapGet other this' = mapGet other this).
Proof.
  intros this key. unfold WorkspaceMap.delete. split.
  - intros H. rewrite H. reflexivity.
  - intros w H. rewrite H. eexists. split; [reflexivity |]. split.
    + apply mapGet_mapDelete_same.
    + intros other Hother. apply mapGet_mapDelete_other. exact Hother.
Qed.

(** [/proj/pkg/a.py] lies in both folders and is served by the inner one,
    which comes first in the map. *)
Lemma getWorkspaceForFile_innermost_witness :
  WorkspaceMap.getWorkspaceForFile "default" WorkspaceFixture.server
    WorkspaceFixture.workspaces "/proj/pkg/a.py"
  = (WorkspaceFixture.inner, WorkspaceFixture.workspaces, [])
  /\ exists w,
      WorkspaceMap.getWorkspaceForFile "default" WorkspaceFixture.server
        WorkspaceFixture.workspaces "/proj/pkg/a.py"
      = (w, WorkspaceFixture.workspaces, [])
      /\ In w (map snd WorkspaceFixture.workspaces)
      /\ containsFile "/proj/pkg/a.py" w = true
      /\ forall v, In v (map snd WorkspaceFixture.workspaces) ->
                   containsFile "/proj/pkg/a.py" v = true ->
                   String.prefix (WorkspaceMap.rootPath v)
                     (WorkspaceMap.rootPath w) = true.
Proof.
  split; [reflexivity |].
  apply (getWorkspaceForFile_innermost "default" WorkspaceFixture.server
           WorkspaceFixture.workspaces "/proj/pkg/a.py").
  reflexivity.
Defined.

(** [/tmp/a.py] and [/tmp/b.py] lie in neither folder. *)
Lemma getWorkspaceForFile_default_created_once_witness :
  exists defaultWorkspace,
    WorkspaceMap.getWorkspaceForFile "default" WorkspaceFixture.server
      WorkspaceFixture.workspaces "/tmp/a.py"
    = (defaultWorkspace,
       mapSet WorkspaceMap._defaultWorkspacePath defaultWorkspace
         WorkspaceFixture.workspaces,
       [WorkspaceMap.CreatedAnalyzerService
          WorkspaceMap._defaultWorkspacePath;
        WorkspaceMap.UpdatedSettingsForWorkspace defaultWorkspace])
    /\ WorkspaceMap.rootPath defaultWorkspace = ""
    /\ WorkspaceMap.kind defaultWorkspace = "default"
    /\ WorkspaceMap.serviceInstance defaultWorkspace
       = WorkspaceMap.createAnalyzerService WorkspaceFixture.server
           WorkspaceMap._defaultWorkspacePath
    /\ WorkspaceMap.getWorkspaceForFile "default" WorkspaceFixture.server
         (mapSet WorkspaceMap._defaultWorkspacePath defaultWorkspace
            WorkspaceFixture.workspaces)
         "/tmp/b.py"
       = (defaultWorkspace,
          mapSet WorkspaceMap._defaultWorkspacePath defaultWorkspace
            WorkspaceFixture.workspaces, []).
Proof.
  apply (getWorkspaceForFile_default_created_once "default"
           WorkspaceFixture.server WorkspaceFixture.workspaces
           "/tmp/a.py" "/tmp/b.py"); try reflexivity.
  simpl. lia.
Defined.

(** [/tmp/a.py] against a map that holds the workspace [/proj] only. *)
Lemma getWorkspaceForFile_only_workspace_witness :
  WorkspaceMap.getWorkspaceForFile "default" WorkspaceFixture.server
    [("proj", WorkspaceFixture.outer)] "/tmp/a.py"
  = (WorkspaceFixture.outer, [("proj", WorkspaceFixture.outer)], []).
Proof.
  apply (getWorkspaceForFile_only_workspace "default"
           WorkspaceFixture.server "proj" WorkspaceFixture.outer
           "/tmp/a.py").
  discriminate.
Defined.

(** Deleting [proj] shuts its background analysis down and leaves [pkg]
    in place. *)
Lemma delete_removes_one_workspace_witness :
  exists this',
    WorkspaceMap.delete WorkspaceFixture.workspaces "proj"
    = (true, this',
       [WorkspaceMap.Shutdown
          (WorkspaceMap.serviceInstance WorkspaceFixture.outer)])
    /\ mapGet "proj" this' = None
    /\ forall other, other <> "proj" ->
                     mapGet other this'
                     = mapGet other WorkspaceFixture.workspaces.
Proof.
  apply (proj2 (delete_removes_one_workspace WorkspaceFixture.workspaces
                  "proj") WorkspaceFixture.outer).
  reflexivity.
Defined.

(** The inner folder is listed for the kind [regular]; a lookup that
    creates the default workspace leaves the list as it was. *)
Lemma getNonDefaultWorkspaces_unchanged_by_lookup_witness :
  (In WorkspaceFixture.inner (map snd WorkspaceFixture.workspaces)
   /\ WorkspaceMap.rootPath WorkspaceFixture.inner <> ""
   /\ WorkspaceMap.kindMatches (Some "regular") WorkspaceFixture.inner
      = true)
  /\ WorkspaceMap.getNonDefaultWorkspaces
       (snd (fst (WorkspaceMap.getWorkspaceForFile "default"
                    WorkspaceFixture.server WorkspaceFixture.workspaces
                    "/tmp/a.py")))
       (Some "regular")
     = WorkspaceMap.getNonDefaultWorkspaces WorkspaceFixture.workspaces
         (Some "regular").
Proof.
  destruct (getNonDefaultWorkspaces_unchanged_by_lookup "default"
              WorkspaceFixture.server WorkspaceFixture.workspaces
              "/tmp/a.py" (Some "regular")) as [Hlisted Hsame].
  split; [| exact Hsame].
  apply Hlisted. simpl. left. reflexivity.
Defined.

(** ** Reference expressions *)

Section ReferenceKeys.
Import ParseTreeUtils MatchingSpec ReferenceExpressions.

Lemma numberValue_eqb_refl : forall v, numberValue_eqb v v = true.
Proof.
  destruct v; simpl; rewrite ?Z.eqb_refl, ?Pos.eqb_refl; reflexivity.
Qed.

Lemma numberValue_eqb_eq : forall v w,
  numberValue_eqb v w = true <-> v = w.
Proof.
  intros v w. split; [| intros ->; apply numberValue_eqb_refl].
  destruct v, w; simpl; try discriminate; intros H.
  - apply Z.eqb_eq in H. congruence.
  - apply andb_true_iff in H as [H1 H2].
    apply Z.eqb_eq in H1. apply Pos.eqb_eq in H2. congruence.
  - apply Z.eqb_eq in H. congruence.
Qed.

Lemma scalarEqual_keys : forall a b,
  scalarEqual a b = true
  <-> exists k, subscriptKey a = Some k /\ subscriptKey b = Some k.
Proof.
  intros a b. split.
  - intros H.
    destruct a as [| | | | | i op a' | i v [|] [|] | i [| [x | x] [| y strs]]
                  | | |];
      try discriminate.
    + destruct op; try discriminate.
      destruct a' as [| | | | | | i' v [|] [|] | | | |]; try discriminate.
      destruct b as [| | | | | j op b' | | | | |]; try discriminate.
      destruct op; try discriminate.
      destruct b' as [| | | | | | j' w [|] [|] | | | |]; try discriminate.
      simpl in H. apply numberValue_eqb_eq in H. subst w.
      eexists. split; reflexivity.
    + destruct b as [| | | | | | j w [|] [|] | | | |]; try discriminate.
      simpl in H. apply numberValue_eqb_eq in H. subst w.
      eexists. split; reflexivity.
    + destruct b as [| | | | | | | j [| [y | y] [| z strs]] | | |];
        try discriminate.
      simpl in H. apply String.eqb_eq in H. subst y.
      eexists. split; reflexivity.
  - intros (k & Ha & Hb).
    destruct a as [| | | | | i op a' | i v [|] [|] | i [| [x | x] [| y strs]]
                  | | |];
      try discriminate.
    + destruct op; try discriminate.
      destruct a' as [| | | | | | i' v [|] [|] | | | |]; try discriminate.
      simpl in Ha. inversion Ha. subst k.
      destruct b as [| | | | | j op b' | j v' [|] [|]
                    | j [| [y | y] [| z strs]] | | |];
        try discriminate.
      destruct op; try discriminate.
      destruct b' as [| | | | | | j' w [|] [|] | | | |]; try discriminate.
      simpl in Hb. inversion Hb. subst w. simpl.
      apply numberValue_eqb_refl.
    + simpl in Ha. inversion Ha. subst k.
      destruct b as [| | | | | j op b' | j w [|] [|]
                    | j [| [y | y] [| z strs]] | | |];
        try discriminate.
      * destruct op; try discriminate.
        destruct b' as [| | | | | | j' w [|] [|] | | | |]; discriminate.
      * simpl in Hb. inversion Hb. subst w. simpl.
        apply numberValue_eqb_refl.
    + simpl in Ha. inversion Ha. subst k.
      destruct b as [| | | | | j op b' | j w [|] [|]
                    | j [| [y | y] [| z strs]] | | |];
        try discriminate.
      * destruct op; try discriminate.
        destruct b' as [| | | | | | j' w [|] [|] | | | |]; discriminate.
      * simpl in Hb. inversion Hb. subst y. simpl. apply String.eqb_refl.
Qed.

Lemma supportedReference_key : forall reference,
  supportedReference reference = true ->
  exists key, referenceKey reference = Some key.
Proof.
  induction reference as
    [i v | i r IHr m | i r IHr item0 more tc | | | | | | | |];
    intros H; try discriminate.
  - eexists. reflexivity.
  - destruct (IHr H) as [key Hkey]. simpl. rewrite Hkey.
    eexists. reflexivity.
  - simpl in H. apply andb_true_iff in H as [Hr Hs].
    destruct (IHr Hr) as [key Hkey]. simpl. rewrite Hkey.
    destruct (scalarItem item0 more tc) as [e |]; [| discriminate].
    destruct e as [| | | | | j op e' | j v [|] [|]
                  | j [| [x | x] [| y strs]] | | |];
      try discriminate; try (eexists; reflexivity).
    destruct op; try discriminate.
    destruct e' as [| | | | | | j' v [|] [|] | | | |]; try discriminate.
    eexists. reflexivity.
Qed.

(** Structural equality of two chains without the clause on assignment
    expressions is equality of their keys. *)
Lemma chainEqual_keys : forall a b,
  chainEqual false a b = true
  <-> exists key, referenceKey a = Some key /\ referenceKey b = Some key.
Proof.
  induction a as
    [i v | i r IHr m | i r IHr item0 more tc | | | | | | | |];
    intros b; split; try (intros H; destruct b; discriminate);
    try (intros (key & Ha & _); discriminate).
  - intros H. destruct b; try discriminate. simpl in H.
    apply String.eqb_eq in H. subst. eexists. split; reflexivity.
  - intros (key & Ha & Hb). simpl in Ha. inversion Ha. subst key.
    destruct b as [j w | j b' n | j b' bitem bmore btc | | | | | | | |];
      try discriminate.
    + simpl in Hb. inversion Hb. simpl. apply String.eqb_refl.
    + simpl in Hb. destruct (referenceKey b'); discriminate.
    + simpl in Hb. destruct (referenceKey b'); [| discriminate].
      destruct (scalarItem bitem bmore btc); [| discriminate].
      destruct (subscriptKey e); discriminate.
  - intros H. destruct b as [| j b' n | | | | | | | | |]; try discriminate.
    simpl in H. apply andb_true_iff in H as [Hr Hm].
    apply String.eqb_eq in Hm. subst n.
    apply IHr in Hr as (key & Ha & Hb).
    exists (MemberPart m :: key). simpl. rewrite Ha, Hb. split; reflexivity.
  - intros (key & Ha & Hb). simpl in Ha.
    destruct (referenceKey r) as [ka |] eqn:Hka; [| discriminate].
    inversion Ha. subst key.
    destruct b as [j w | j b' n | j b' bitem bmore btc | | | | | | | |];
      try discriminate.
    + simpl in Hb.
      destruct (referenceKey b') as [kb |] eqn:Hkb; [| discriminate].
      inversion Hb. subst. simpl.
      rewrite String.eqb_refl, andb_true_r.
      apply IHr. exists ka. split; [reflexivity | exact Hkb].
    + simpl in Hb. destruct (referenceKey b'); [| discriminate].
      destruct (scalarItem bitem bmore btc); [| discriminate].
      destruct (subscriptKey e); discriminate.
  - intros H.
    destruct b as [| | j b' bitem bmore btc | | | | | | | |];
      try discriminate.
    simpl in H. apply andb_true_iff in H as [Hr Hs].
    apply IHr in Hr as (key & Ha & Hb).
    destruct (scalarItem item0 more tc) as [ea |] eqn:Hea; [| discriminate].
    destruct (scalarItem bitem bmore btc) as [eb |] eqn:Heb;
      [| discriminate].
    apply scalarEqual_keys in Hs as (k & Hka & Hkb).
    exists (SubscriptPart k :: key). simpl.
    rewrite Ha, Hb, Hea, Heb, Hka, Hkb. split; reflexivity.
  - intros (key & Ha & Hb). simpl in Ha.
    destruct (referenceKey r) as [ka |] eqn:Hka; [| discriminate].
    destruct (scalarItem item0 more tc) as [ea |] eqn:Hea; [| discriminate].
    destruct (subscriptKey ea) as [sa |] eqn:Hsa; [| discriminate].
    inversion Ha. subst key.
    destruct b as [j w | j b' n | j b' bitem bmore btc | | | | | | | |];
      try discriminate.
    + simpl in Hb. destruct (referenceKey b'); discriminate.
    + simpl in Hb.
      destruct (referenceKey b') as [kb |] eqn:Hkb; [| discriminate].
      destruct (scalarItem bitem bmore btc) as [eb |] eqn:Heb;
        [| discriminate].
      destruct (subscriptKey eb) as [sb |] eqn:Hsb; [| discriminate].
      inversion Hb. subst. simpl. rewrite Hea, Heb.
      apply andb_true_iff. split.
      * apply IHr. exists ka. split; [reflexivity | exact Hkb].
      * apply scalarEqual_keys. exists sa. split; assumption.
Qed.

Lemma matching_without_walrus : forall a b,
  supportedReference a = true -> supportedReference b = true ->
  isMatchingExpression a b = chainEqual false a b.
Proof.
  induction a as
    [i v | i r IHr m | i r IHr item0 more tc | | | | | | | |];
    intros b Ha Hb; try discriminate.
  - destruct b; try discriminate; reflexivity.
  - destruct b; try reflexivity.
    simpl in *. rewrite (IHr _ Ha Hb). reflexivity.
  - destruct b as [| | j c citem0 cmore ctc | | | | | | | |];
      try reflexivity.
    simpl in Ha, Hb.
    apply andb_true_iff in Ha as [Hr Hs].
    apply andb_true_iff in Hb as [Hc _].
    cbn [isMatchingExpression chainEqual].
    rewrite (IHr _ Hr Hc).
    destruct (chainEqual false r c); [| reflexivity].
    cbn [negb andb].
    destruct (scalarItem item0 more tc) as [e |] eqn:He; [| discriminate].
    apply scalarItem_inv in He as (-> & -> & ->).
    destruct (negb (Nat.eqb (List.length (citem0 :: cmore)) 1)
              || ctc || isSome (argName citem0)
              || negb (isSimple (argumentCategory citem0))) eqn:Hshape.
    + rewrite (candidate_misshape _ _ _ Hshape). reflexivity.
    + rewrite (candidate_shape _ _ _ Hshape).
      cbn [valueExpression].
      apply subscript_comparison. exact Hs.
Qed.

(** Two reference keys match exactly when they spell the same key. *)
Lemma matching_keys : forall a b,
  supportedReference a = true -> supportedReference b = true ->
  (isMatchingExpression a b = true <-> referenceKey a = referenceKey b).
Proof.
  intros a b Ha Hb. rewrite (matching_without_walrus a b Ha Hb).
  destruct (supportedReference_key a Ha) as [ka Hka].
  destruct (supportedReference_key b Hb) as [kb Hkb].
  rewrite chainEqual_keys, Hka, Hkb. split.
  - intros (key & H1 & H2). congruence.
  - intros H. exists ka. split; congruence.
Qed.

Lemma matching_itself : forall reference,
  isMatchingExpression reference reference = supportedReference reference.
Proof.
  induction reference as
    [i v | i r IHr m | i r IHr item0 more tc | | | | | | | |];
    try reflexivity.
  - simpl. apply String.eqb_refl.
  - simpl. rewrite IHr, String.eqb_refl. apply andb_true_r.
  - cbn [isMatchingExpression supportedReference]. rewrite IHr.
    destruct (supportedReference r); [| reflexivity].
    cbn [negb andb].
    destruct (negb (Nat.eqb (List.length (item0 :: more)) 1)
              || tc || isSome (argName item0)
              || negb (isSimple (argumentCategory item0))) eqn:Hshape.
    + rewrite (candidate_misshape _ _ _ Hshape). reflexivity.
    + rewrite (candidate_shape _ _ _ Hshape).
      destruct (valueExpression item0)
        as [| | | | | j op e' | j v [|] [|] | j [| [x | x] [| y strs]]
            | | |];
        try reflexivity.
      * destruct op; try reflexivity.
        destruct e' as [| | | | | | j' v [|] [|] | | | |]; try reflexivity.
        apply numberValue_eqb_refl.
      * apply numberValue_eqb_refl.
      * apply String.eqb_refl.
Qed.

(** X7.  An expression matches itself exactly when it is a reference key
    (a chain of names, member accesses and indexes by one integer,
    negated integer or single string literal); and on reference keys
    [isMatchingExpression] is symmetric and transitive: it is an
    equivalence, in which the ids of the nodes play no part. *)
Theorem isMatchingExpression_equivalence_on_reference_keys :
  (forall reference,
      isMatchingExpression reference reference
      = supportedReference reference)
  /\ (forall a b,
         supportedReference a = true -> supportedReference b = true ->
         isMatchingExpression a b = isMatchingExpression b a)
  /\ (forall a b c,
         supportedReference a = true -> supportedReference b = true ->
         supportedReference c = true ->
         isMatchingExpression a b = true ->
         isMatchingExpression b c = true ->
         isMatchingExpression a c = true).
Proof.
  split; [exact matching_itself | split].
  - intros a b Ha Hb.
    pose proof (matching_keys a b Ha Hb) as Hab.
    pose proof (matching_keys b a Hb Ha) as Hba.
    destruct (isMatchingExpression a b), (isMatchingExpression b a);
      try reflexivity.
    + symmetry. apply Hba. symmetry. apply Hab. reflexivity.
    + apply Hab. symmetry. apply Hba. reflexivity.
  - intros a b c Ha Hb Hc Hab Hbc.
    apply (matching_keys a c Ha Hc).
    apply (matching_keys a b Ha Hb) in Hab.
    apply (matching_keys b c Hb Hc) in Hbc.
    congruence.
Qed.

Lemma matching_same_depth : forall reference expression,
  isMatchingExpression reference expression = true ->
  List.length (properBases reference)
  = List.length (properBases expression).
Proof.
  induction reference as
    [i v | i r IHr m | i r IHr item0 more tc | | | | | | | |];
    intros e H; try discriminate.
  - destruct e; try discriminate; reflexivity.
  - destruct e; try discriminate. simpl in *.
    apply andb_true_iff in H as [H _]. rewrite (IHr _ H). reflexivity.
  - destruct e as [| | j c citem0 cmore ctc | | | | | | | |];
      try discriminate.
    cbn [isMatchingExpression] in H.
    destruct (isMatchingExpression r c) eqn:Hrc; [| discriminate].
    simpl. rewrite (IHr _ Hrc). reflexivity.
Qed.

Lemma properBases_shorter : forall reference base,
  In base (properBases reference) ->
  List.length (properBases base) < List.length (properBases reference).
Proof.
  induction reference as
    [i v | i r IHr m | i r IHr item0 more tc | | | | | | | |];
    intros base H; try contradiction.
  - simpl in *. destruct H as [<- | H]; [lia |].
    specialize (IHr _ H). lia.
  - simpl in *. destruct H as [<- | H]; [lia |].
    specialize (IHr _ H). lia.
Qed.

Lemma partial_matching_bases : forall reference expression,
  isPartialMatchingExpression reference expression
  = existsb (fun base => isMatchingExpression base expression)
      (properBases reference).
Proof.
  induction reference as
    [i v | i r IHr m | i r IHr item0 more tc | | | | | | | |];
    intros e; try reflexivity.
  - simpl. rewrite IHr. reflexivity.
  - simpl. rewrite IHr. reflexivity.
Qed.

(** X8.  An expression partially matches a reference exactly when it
    matches one of the expressions the reference is built on (its
    receiver or base, the receiver or base of that one, and so on); a
    name has none, and an expression that matches the reference itself
    never partially matches it. *)
Theorem isPartialMatchingExpression_proper_bases :
  (forall reference expression,
      isPartialMatchingExpression reference expression
      = existsb (fun base => isMatchingExpression base expression)
          (properBases reference))
  /\ (forall id value expression,
         isPartialMatchingExpression (Name id value) expression = false)
  /\ (forall reference expression,
         isMatchingExpression reference expression = true ->
         isPartialMatchingExpression reference expression = false).
Proof.
  split; [exact partial_matching_bases | split; [reflexivity |]].
  intros r e H. rewrite partial_matching_bases.
  destruct (existsb _ _) eqn:Hex; [| reflexivity].
  apply existsb_exists in Hex as (base & Hin & Hbase).
  apply matching_same_depth in H. apply matching_same_depth in Hbase.
  apply properBases_shorter in Hin. lia.
Qed.

Lemma dottedNames_found : forall node names found,
  dottedNames node = Some found ->
  _getDottedName node names = (true, List.app names (rev found)).
Proof.
  induction node as [i v | i l IHl m | | | | | | | | |];
    intros names found H; try discriminate.
  - simpl in H. inversion H. reflexivity.
  - simpl in H.
    destruct (isNameOrMemberAccess l) eqn:Hl; [| discriminate].
    destruct (dottedNames l) as [inner |] eqn:Hinner; [| discriminate].
    simpl in H. inversion H. subst found.
    assert (Hcall : _getDottedName (MemberAccess i l m) names
                    = _getDottedName l (List.app names [m]))
      by (destruct l; try discriminate; reflexivity).
    rewrite Hcall, (IHl _ inner eq_refl), rev_app_distr, <- app_assoc.
    reflexivity.
Qed.

Lemma dottedNames_missing : forall node names,
  isNameOrMemberAccess node = true ->
  dottedNames node = None ->
  fst (_getDottedName node names) = false.
Proof.
  induction node as [i v | i l IHl m | | | | | | | | |];
    intros names Htyped H; try discriminate.
  simpl in H.
  destruct l as [j v | j l' n | | | | | | | | |]; try reflexivity.
  - discriminate.
  - cbn [isNameOrMemberAccess] in H.
    destruct (dottedNames (MemberAccess j l' n)) eqn:Hinner;
      [discriminate |].
    change (_getDottedName (MemberAccess i (MemberAccess j l' n) m) names)
      with (_getDottedName (MemberAccess j l' n) (List.app names [m])).
    apply IHl; reflexivity.
Qed.

Lemma getDottedName_names : forall node,
  isNameOrMemberAccess node = true ->
  getDottedName node = dottedNames node.
Proof.
  intros node Htyped.
  destruct node as [i v | i l m | | | | | | | | |]; try discriminate.
  - reflexivity.
  - unfold getDottedName.
    destruct (dottedNames (MemberAccess i l m)) as [found |] eqn:H.
    + rewrite (dottedNames_found _ [] _ H). simpl.
      rewrite rev_involutive. reflexivity.
    + pose proof (dottedNames_missing _ [] Htyped H) as Hfst.
      destruct (_getDottedName (MemberAccess i l m) []) as [ok names].
      simpl in Hfst. subst ok. reflexivity.
Qed.

Lemma dottedNames_nonempty : forall node found,
  dottedNames node = Some found -> found <> [].
Proof.
  intros node found H.
  destruct node as [i v | i l m | | | | | | | | |]; try discriminate.
  - simpl in H. inversion H. discriminate.
  - simpl in H. destruct (isNameOrMemberAccess l); [| discriminate].
    destruct (dottedNames l) as [inner |]; [| discriminate].
    simpl in H. inversion H. destruct inner; discriminate.
Qed.

Lemma dottedNames_first : forall node,
  getFirstNameOfDottedName node
  = match dottedNames node with
    | Some (first :: _) => Some first
    | _ => None
    end.
Proof.
  induction node as [i v | i l IHl m | | | | | | | | |]; try reflexivity.
  assert (Hcall : getFirstNameOfDottedName (MemberAccess i l m)
                  = if isNameOrMemberAccess l
                    then getFirstNameOfDottedName l else None)
    by (destruct l; reflexivity).
  rewrite Hcall. simpl.
  destruct (isNameOrMemberAccess l); [| reflexivity].
  rewrite IHl.
  destruct (dottedNames l) as [[| first rest] |] eqn:Hl; try reflexivity.
  exfalso. exact (dottedNames_nonempty _ _ Hl eq_refl).
Qed.

Lemma dottedNames_match : forall a b na nb,
  dottedNames a = Some na -> dottedNames b = Some nb ->
  (isMatchingExpression a b = true <-> na = nb).
Proof.
  induction a as [i v | i l IHl m | | | | | | | | |];
    intros b na nb Ha Hb; try discriminate.
  - simpl in Ha. inversion Ha. subst na.
    destruct b as [j w | j l' n | | | | | | | | |]; try discriminate.
    + simpl in Hb. inversion Hb. subst nb. simpl.
      rewrite String.eqb_eq. split; congruence.
    + simpl in Hb. destruct (isNameOrMemberAccess l'); [| discriminate].
      destruct (dottedNames l') as [inner |] eqn:Hinner; [| discriminate].
      simpl in Hb. inversion Hb. subst nb. simpl.
      split; [discriminate |]. intros H.
      pose proof (dottedNames_nonempty _ _ Hinner) as Hne.
      destruct inner as [| x [| y rest]]; [contradiction | |];
        discriminate.
  - simpl in Ha. destruct (isNameOrMemberAccess l); [| discriminate].
    destruct (dottedNames l) as [inner |] eqn:Hinner; [| discriminate].
    simpl in Ha. inversion Ha. subst na.
    destruct b as [j w | j l' n | | | | | | | | |]; try discriminate.
    + simpl in Hb. inversion Hb. subst nb. simpl.
      split; [discriminate |]. intros H.
      pose proof (dottedNames_nonempty _ _ Hinner) as Hne.
      destruct inner as [| x [| y rest]]; [contradiction | |];
        discriminate.
    + simpl in Hb. destruct (isNameOrMemberAccess l'); [| discriminate].
      destruct (dottedNames l') as [inner' |] eqn:Hinner';
        [| discriminate].
      simpl in Hb. inversion Hb. subst nb. simpl.
      rewrite andb_true_iff, String.eqb_eq,
        (IHl l' inner inner' eq_refl Hinner').
      split.
      * intros [-> ->]. reflexivity.
      * intros H. apply app_inj_tail in H. exact H.
Qed.

(** X9.  For a name or a member access, [getDottedName] gives the names
    of the chain, the first one first, when the chain holds names and
    member accesses only, and nothing otherwise;
    [getFirstNameOfDottedName] gives the first of these names; and two
    dotted names match exactly when they spell the same names. *)
Theorem getDottedName_spells_the_chain :
  (forall node,
      isNameOrMemberAccess node = true ->
      getDottedName node = dottedNames node)
  /\ (forall node,
         isNameOrMemberAccess node = true ->
         getFirstNameOfDottedName node
         = match getDottedName node with
           | Some (first :: _) => Some first
           | _ => None
           end)
  /\ (forall a b namesOfA namesOfB,
         isNameOrMemberAccess a = true ->
         isNameOrMemberAccess b = true ->
         getDottedName a = Some namesOfA ->
         getDottedName b = Some namesOfB ->
         (isMatchingExpression a b = true <-> namesOfA = namesOfB)).
Proof.
  split; [exact getDottedName_names | split].
  - intros node H. rewrite (getDottedName_names node H).
    apply dottedNames_first.
  - intros a b na nb Hta Htb Ha Hb.
    rewrite (getDottedName_names a Hta) in Ha.
    rewrite (getDottedName_names b Htb) in Hb.
    exact (dottedNames_match a b na nb Ha Hb).
Qed.

End ReferenceKeys.

(** [a.b[0]] matches itself and its copies; [a[i]] does not match
    itself. *)
Lemma isMatchingExpression_equivalence_on_reference_keys_witness :
  ParseTreeUtils.isMatchingExpression (ExpressionFixture.indexed 10)
    (ExpressionFixture.indexed 20)
  = ParseTreeUtils.isMatchingExpression (ExpressionFixture.indexed 20)
      (ExpressionFixture.indexed 10)
  /\ ParseTreeUtils.isMatchingExpression (ExpressionFixture.indexed 10)
       (ExpressionFixture.indexed 30) = true
  /\ ParseTreeUtils.isMatchingExpression ExpressionFixture.indexedByName
       ExpressionFixture.indexedByName = false.
Proof.
  destruct isMatchingExpression_equivalence_on_reference_keys
    as (Hself & Hsym & Htrans).
  split; [apply Hsym; reflexivity |].
  split.
  - apply (Htrans _ (ExpressionFixture.indexed 20)); reflexivity.
  - rewrite Hself. reflexivity.
Defined.

(** [a.b] matches the reference [a.b] and so does not partially match it;
    it partially matches [a.b[0]]. *)
Lemma isPartialMatchingExpression_proper_bases_witness :
  ReferenceExpressions.isPartialMatchingExpression
    (ExpressionFixture.member 10) (ExpressionFixture.member 20) = false
  /\ ReferenceExpressions.isPartialMatchingExpression
       (ExpressionFixture.indexed 10) (ExpressionFixture.member 20) = true.
Proof.
  destruct isPartialMatchingExpression_proper_bases
    as (Hbases & Hname & Hexclusive).
  split.
  - apply Hexclusive. reflexivity.
  - rewrite Hbases. reflexivity.
Defined.

(** [a.b.c] spells [a], [b], [c]; it matches its copy and not [a.b]. *)
Lemma getDottedName_spells_the_chain_witness :
  ReferenceExpressions.getDottedName (ExpressionFixture.longer 10)
  = Some ["a"; "b"; "c"]
  /\ ReferenceExpressions.getFirstNameOfDottedName
       (ExpressionFixture.longer 10) = Some "a"
  /\ (ParseTreeUtils.isMatchingExpression (ExpressionFixture.longer 10)
        (ExpressionFixture.longer 20) = true
      <-> ["a"; "b"; "c"] = ["a"; "b"; "c"])
  /\ (ParseTreeUtils.isMatchingExpression (ExpressionFixture.longer 10)
        (ExpressionFixture.member 20) = true
      <-> ["a"; "b"; "c"] = ["a"; "b"]).
Proof.
  destruct getDottedName_spells_the_chain as (Hnames & Hfirst & Hmatch).
  split; [rewrite Hnames; reflexivity |].
  split; [rewrite Hfirst; reflexivity |].
  split; apply Hmatch; reflexivity.
Defined.

(** ** Walks up the parse tree *)

Section TreeWalks.
Import ParseTree.

Lemma nodeTypeIs_eq : forall a b, nodeTypeIs a b = true <-> a = b.
Proof.
  intros a b. unfold nodeTypeIs.
  destruct (ParseNodeType_eq_dec a b); split; congruence.
Qed.

Lemma nodeTypeIs_refl : forall a, nodeTypeIs a a = true.
Proof. intros a. apply nodeTypeIs_eq. reflexivity. Qed.

(** Induction along the parent pointers. *)
Lemma ParseNode_parent_ind : forall P : ParseNode -> Prop,
  (forall node,
      (forall p, parent node = Some p -> P p) -> P node) ->
  forall node, P node.
Proof.
  intros P H.
  fix IH 1. intros [t i n d p]. apply H. simpl. intros q Hq.
  destruct p as [p |]; [| discriminate].
  inversion Hq. subst q. apply IH.
Qed.

Lemma depth_positive : forall node, 0 < getNodeDepth node.
Proof. intros [t i n d [p |]]; simpl; lia. Qed.

Lemma depth_parent : forall node p,
  parent node = Some p -> getNodeDepth node = S (getNodeDepth p).
Proof. intros [t i n d q] p H. simpl in *. subst q. reflexivity. Qed.

Lemma enclosingClassAt_found : forall stopAtFunction curNode c,
  enclosingClassAt stopAtFunction curNode = Some c ->
  nodeType c = NodeClass /\ getNodeDepth c <= getNodeDepth curNode.
Proof.
  intros s. induction curNode as [node IH] using ParseNode_parent_ind.
  intros c H. destruct node as [t i n d p]. simpl in *.
  destruct (nodeTypeIs t NodeClass) eqn:Hclass.
  - inversion H. subst c. simpl. apply nodeTypeIs_eq in Hclass.
    split; [exact Hclass | lia].
  - destruct (nodeTypeIs t NodeModule); [discriminate |].
    destruct (nodeTypeIs t NodeFunction && s); [discriminate |].
    destruct p as [p |]; [| discriminate].
    destruct (IH p eq_refl c H) as [Ht Hd]. split; [exact Ht | lia].
Qed.

Lemma enclosingClassAt_stop : forall curNode c,
  enclosingClassAt true curNode = Some c ->
  enclosingClassAt false curNode = Some c.
Proof.
  induction curNode as [node IH] using ParseNode_parent_ind.
  intros c H. destruct node as [t i n d p]. simpl in *.
  destruct (nodeTypeIs t NodeClass); [exact H |].
  destruct (nodeTypeIs t NodeModule); [discriminate |].
  destruct (nodeTypeIs t NodeFunction); [discriminate |].
  simpl in *. destruct p as [p |]; [| discriminate].
  apply (IH p eq_refl). exact H.
Qed.

Lemma enclosingClassAt_classOrModule : forall stopAtFunction curNode,
  enclosingClassAt stopAtFunction curNode
  = match enclosingClassOrModuleAt stopAtFunction curNode with
    | Some c =>
        if nodeTypeIs (nodeType c) NodeClass then Some c else None
    | None => None
    end.
Proof.
  intros s. induction curNode as [node IH] using ParseNode_parent_ind.
  destruct node as [t i n d p]. simpl in *.
  destruct (nodeTypeIs t NodeClass) eqn:Hclass.
  - simpl. rewrite Hclass. reflexivity.
  - destruct (nodeTypeIs t NodeModule) eqn:Hmodule.
    + simpl. rewrite Hclass. reflexivity.
    + destruct (nodeTypeIs t NodeFunction && s); [reflexivity |].
      destruct p as [p |]; [| reflexivity].
      apply (IH p eq_refl).
Qed.

(** X10.  The class [getEnclosingClass] finds is a class node strictly
    above the node in the tree; asking it to stop at functions can only
    turn an answer into none, never into another class; and the answer
    is the one of [getEnclosingClassOrModule] when that is a class, and
    none when that is a module. *)
Theorem getEnclosingClass_above :
  (forall node stopAtFunction c,
      getEnclosingClass node stopAtFunction = Some c ->
      nodeType c = NodeClass /\ getNodeDepth c < getNodeDepth node)
  /\ (forall node c,
         getEnclosingClass node true = Some c ->
         getEnclosingClass node false = Some c)
  /\ (forall node stopAtFunction,
         getEnclosingClass node stopAtFunction
         = match getEnclosingClassOrModule node stopAtFunction with
           | Some c =>
               if nodeTypeIs (nodeType c) NodeClass then Some c else None
           | None => None
           end).
Proof.
  split; [| split].
  - intros node s c H. unfold getEnclosingClass in H.
    destruct (parent node) as [p |] eqn:Hp; [| discriminate].
    destruct (enclosingClassAt_found s p c H) as [Ht Hd].
    rewrite (depth_parent node p Hp). split; [exact Ht | lia].
  - intros node c H. unfold getEnclosingClass in *.
    destruct (parent node) as [p |]; [| discriminate].
    apply enclosingClassAt_stop. exact H.
  - intros node s. unfold getEnclosingClass, getEnclosingClassOrModule.
    destruct (parent node) as [p |]; [| reflexivity].
    apply enclosingClassAt_classOrModule.
Qed.

Lemma getParentNodeOfType_found : forall containerType node p,
  getParentNodeOfType node containerType = Some p ->
  nodeType p = containerType
  /\ isNodeContainedWithin node p = true
  /\ getNodeDepth p <= getNodeDepth node.
Proof.
  intros t. induction node as [node IH] using ParseNode_parent_ind.
  intros p H. destruct node as [t' i n d q]. simpl in *.
  destruct (nodeTypeIs t' t) eqn:Ht.
  - inversion H. subst p. simpl. rewrite Nat.eqb_refl.
    apply nodeTypeIs_eq in Ht. repeat split; [exact Ht | lia].
  - destruct q as [q |]; [| discriminate].
    destruct (IH q eq_refl p H) as (Hp & Hin & Hd).
    repeat split; [exact Hp | | lia].
    destruct (Nat.eqb i (id p)); [reflexivity | exact Hin].
Qed.

Lemma getParentNodeOfType_missing : forall containerType node,
  getParentNodeOfType node containerType = None ->
  forall a, In a (ancestorsOrSelf node) -> nodeType a <> containerType.
Proof.
  intros t. induction node as [node IH] using ParseNode_parent_ind.
  intros H a Hin. destruct node as [t' i n d q]. simpl in *.
  destruct (nodeTypeIs t' t) eqn:Ht; [discriminate |].
  destruct Hin as [<- | Hin].
  - simpl. intros Heq. apply nodeTypeIs_eq in Heq. congruence.
  - destruct q as [q |]; [| contradiction].
    apply (IH q eq_refl H a Hin).
Qed.

Lemma isNodeContainedWithin_ancestor : forall container node,
  In container (ancestorsOrSelf node) ->
  isNodeContainedWithin node container = true.
Proof.
  intros c. induction node as [node IH] using ParseNode_parent_ind.
  intros Hin. destruct node as [t i n d q]. simpl in *.
  destruct Hin as [<- | Hin].
  - simpl. rewrite Nat.eqb_refl. reflexivity.
  - destruct (Nat.eqb i (id c)); [reflexivity |].
    destruct q as [q |]; [| contradiction].
    apply (IH q eq_refl Hin).
Qed.

(** X11.  [getParentNodeOfType] answers with a node of the type asked
    for that is the node itself or one of its ancestors (so that
    [isNodeContainedWithin] holds of the node and the answer), and it
    answers with none only when neither the node nor any ancestor has
    that type; a node is contained within itself and within each of its
    ancestors. *)
Theorem getParentNodeOfType_contains :
  (forall node containerType p,
      getParentNodeOfType node containerType = Some p ->
      nodeType p = containerType
      /\ isNodeContainedWithin node p = true
      /\ getNodeDepth p <= getNodeDepth node)
  /\ (forall node containerType,
         isNodeContainedWithinNodeType node containerType = false ->
         forall a, In a (ancestorsOrSelf node) ->
                   nodeType a <> containerType)
  /\ (forall node container,
         In container (ancestorsOrSelf node) ->
         isNodeContainedWithin node container = true).
Proof.
  split; [| split].
  - intros node t p H. exact (getParentNodeOfType_found t node p H).
  - intros node t H. unfold isNodeContainedWithinNodeType in H.
    destruct (getParentNodeOfType node t) eqn:Hp; [discriminate |].
    exact (getParentNodeOfType_missing t node Hp).
  - intros node c H. exact (isNodeContainedWithin_ancestor c node H).
Qed.

(** X12.  Four walks agree: [getModuleNode] is [getParentNodeOfType] for
    the module type, [getFirstAncestorOrSelfOfKind] is
    [getParentNodeOfType] for every type, [getEnclosingParameter] is
    [getParentNodeOfType] for the parameter type; and
    [getEnclosingModule], which starts at the parent, fails on a node
    whose parent has no module node at or above it, in particular on the
    module node at the root. *)
Theorem module_lookups_agree :
  (forall node, getModuleNode node = getParentNodeOfType node NodeModule)
  /\ (forall node type,
         getFirstAncestorOrSelfOfKind node type
         = getParentNodeOfType node type)
  /\ (forall node,
         getEnclosingParameter node
         = getParentNodeOfType node NodeParameter)
  /\ (forall node,
         getEnclosingModule node
         = match parent node with
           | Some p => getParentNodeOfType p NodeModule
           | None => None
           end).
Proof.
  assert (Hmodule : forall node,
             getModuleNode node = getParentNodeOfType node NodeModule).
  { induction node as [node IH] using ParseNode_parent_ind.
    destruct node as [t i n d q]. simpl in *.
    destruct (nodeTypeIs t NodeModule); [reflexivity |].
    simpl. destruct q as [q |]; [apply (IH q eq_refl) | reflexivity]. }
  split; [exact Hmodule | split; [| split]].
  - intros node type. unfold getFirstAncestorOrSelfOfKind.
    induction node as [node IH] using ParseNode_parent_ind.
    destruct node as [t i n d q]. simpl in *.
    destruct (nodeTypeIs t type); [reflexivity |].
    destruct q as [q |]; [apply (IH q eq_refl) | reflexivity].
  - induction node as [node IH] using ParseNode_parent_ind.
    destruct node as [t i n d q]. simpl in *.
    destruct (nodeTypeIs t NodeParameter); [reflexivity |].
    destruct q as [q |]; [apply (IH q eq_refl) | reflexivity].
  - intros node. unfold getEnclosingModule.
    destruct (parent node) as [p |]; [| reflexivity].
    induction p as [p IH] using ParseNode_parent_ind.
    destruct p as [t i n d q]. simpl in *.
    destruct (nodeTypeIs t NodeModule); [reflexivity |].
    destruct q as [q |]; [apply (IH q eq_refl) | reflexivity].
Qed.

Lemma no_previous_node : forall nodes,
  existsb (sameNode None) nodes = false.
Proof. induction nodes as [| d rest IH]; [reflexivity | exact IH]. Qed.

Lemma enclosingFunctionAt_above : forall curNode prevNode g,
  enclosingFunctionAt prevNode curNode = Some g ->
  nodeType g = NodeFunction /\ getNodeDepth g <= getNodeDepth curNode.
Proof.
  induction curNode as [node IH] using ParseNode_parent_ind.
  intros prev g H. destruct node as [t i n d q]. simpl in *.
  destruct (nodeTypeIs t NodeFunction
            && negb (existsb (sameNode prev) d)) eqn:Hf.
  - inversion H. subst g. simpl.
    apply andb_true_iff in Hf as [Hf _]. apply nodeTypeIs_eq in Hf.
    split; [exact Hf | lia].
  - destruct (nodeTypeIs t NodeClass); [discriminate |].
    destruct q as [q |]; [| discriminate].
    destruct (IH q eq_refl _ g H) as [Ht Hd]. split; [exact Ht | lia].
Qed.

Lemma typeVarScopeNodeAt_above : forall curNode prevNode g,
  typeVarScopeNodeAt prevNode curNode = Some g ->
  getNodeDepth g <= getNodeDepth curNode.
Proof.
  induction curNode as [node IH] using ParseNode_parent_ind.
  intros prev g H. destruct node as [t i n d q]. simpl in *.
  destruct ((nodeTypeIs t NodeFunction || nodeTypeIs t NodeClass)
            && negb (existsb (sameNode prev) d)).
  - inversion H. subst g. simpl. lia.
  - destruct (nodeTypeIs t NodeTypeAlias).
    + inversion H. subst g. simpl. lia.
    + destruct q as [q |]; [| discriminate].
      pose proof (IH q eq_refl _ g H). lia.
Qed.

(** X13.  A decorator is not enclosed in the function it decorates: for
    a node right below a decorator of a function, [getEnclosingFunction]
    and [getTypeVarScopeNode] answer, if at all, with a node strictly
    above that function, and so does [getTypeVarScopeNode] for the
    decorator node; but [getEnclosingFunction] of the decorator node
    itself is the decorated function, as its walk starts at the parent
    with no previous node to compare with the decorators. *)
Theorem decorator_not_enclosed :
  forall f d e,
    nodeType f = NodeFunction ->
    nodeType d = NodeDecorator ->
    parent d = Some f ->
    In (id d) (decorators f) ->
    parent e = Some d ->
    getEnclosingFunction d = Some f
    /\ (forall g, getEnclosingFunction e = Some g ->
                  nodeType g = NodeFunction
                  /\ getNodeDepth g < getNodeDepth f)
    /\ (forall g, getTypeVarScopeNode d = Some g ->
                  getNodeDepth g < getNodeDepth f)
    /\ (forall g, getTypeVarScopeNode e = Some g ->
                  nodeType e <> NodeFunction ->
                  nodeType e <> NodeClass ->
                  nodeType e <> NodeTypeAlias ->
                  getNodeDepth g < getNodeDepth f).
Proof.
  intros f d e Hf Hd Hpd Hdec Hpe.
  assert (Hskip : existsb (sameNode (Some d)) (decorators f) = true).
  { apply existsb_exists. exists (id d). split; [exact Hdec |].
    simpl. apply Nat.eqb_refl. }
  destruct f as [tf idf nf df pf]. destruct d as [td idd nd dd pd].
  destruct e as [te ide ne de pe]. simpl in *. subst tf td pd pe.
  split; [| split; [| split]].
  - unfold getEnclosingFunction. simpl.
    rewrite no_previous_node. reflexivity.
  - intros g H. unfold getEnclosingFunction in H. simpl in H.
    rewrite Hskip in H. simpl in H.
    destruct pf as [p |]; [| discriminate].
    destruct (enclosingFunctionAt_above _ _ _ H) as [Ht Hdepth].
    split; [exact Ht | lia].
  - intros g H. unfold getTypeVarScopeNode in H. simpl in H.
    rewrite Hskip in H. simpl in H.
    destruct pf as [p |]; [| discriminate].
    pose proof (typeVarScopeNodeAt_above _ _ _ H). lia.
  - intros g H Hnf Hnc Hna. unfold getTypeVarScopeNode in H. simpl in H.
    assert (H1 : nodeTypeIs te NodeFunction = false)
      by (destruct (nodeTypeIs te NodeFunction) eqn:E;
          [apply nodeTypeIs_eq in E; contradiction | reflexivity]).
    assert (H2 : nodeTypeIs te NodeClass = false)
      by (destruct (nodeTypeIs te NodeClass) eqn:E;
          [apply nodeTypeIs_eq in E; contradiction | reflexivity]).
    assert (H3 : nodeTypeIs te NodeTypeAlias = false)
      by (destruct (nodeTypeIs te NodeTypeAlias) eqn:E;
          [apply nodeTypeIs_eq in E; contradiction | reflexivity]).
    rewrite H1, H2, H3 in H. simpl in H.
    rewrite Hskip in H. simpl in H.
    destruct pf as [p |]; [| discriminate].
    pose proof (typeVarScopeNodeAt_above _ _ _ H). lia.
Qed.

Lemma classesAround_enclosing : forall curNode,
  match enclosingClassAt false curNode with
  | Some c =>
      classesAround (ancestorsOrSelf curNode)
      = name c :: classesAround (properAncestors c)
      /\ getNodeDepth c <= getNodeDepth curNode
  | None => classesAround (ancestorsOrSelf curNode) = []
  end.
Proof.
  induction curNode as [node IH] using ParseNode_parent_ind.
  destruct node as [t i n d q]. simpl in *.
  destruct (nodeTypeIs t NodeClass) eqn:Hclass.
  - unfold properAncestors. simpl. split; [reflexivity | lia].
  - destruct (nodeTypeIs t NodeModule); [reflexivity |].
    rewrite andb_false_r.
    destruct q as [q |]; [| reflexivity].
    specialize (IH q eq_refl).
    destruct (enclosingClassAt false q) as [c |]; [| exact IH].
    destruct IH as [IH Hd]. split; [exact IH | lia].
Qed.

Lemma enclosingClassNames_around : forall steps curNode nameParts,
  getNodeDepth curNode <= steps ->
  enclosingClassNames steps curNode nameParts
  = List.app nameParts (classesAround (properAncestors curNode)).
Proof.
  induction steps as [| steps IH]; intros cur acc Hsteps.
  - pose proof (depth_positive cur). lia.
  - simpl. unfold getEnclosingClass, properAncestors.
    destruct (parent cur) as [p |] eqn:Hp;
      [| simpl; rewrite app_nil_r; reflexivity].
    pose proof (classesAround_enclosing p) as Hc.
    pose proof (depth_parent cur p Hp) as Hdepth.
    destruct (enclosingClassAt false p) as [c |].
    + destruct Hc as [Hc Hd]. rewrite IH by lia.
      rewrite Hc, <- app_assoc. reflexivity.
    + rewrite Hc, app_nil_r. reflexivity.
Qed.

(** X14.  The full name [getClassFullName] builds is the module name,
    then the names of the classes around the class node from the
    outermost to the innermost, then the class name, joined by dots: the
    classes are the class nodes among the ancestors below the nearest
    module node; the functions on the way contribute nothing. *)
Theorem getClassFullName_spells_enclosing_classes :
  forall classNode moduleName className,
    getClassFullName classNode moduleName className
    = String.concat "."
        (moduleName
         :: List.app (rev (classesAround (properAncestors classNode)))
              [className]).
Proof.
  intros classNode moduleName className. unfold getClassFullName.
  rewrite (enclosingClassNames_around _ classNode [className] (le_n _)).
  rewrite rev_app_distr. reflexivity.
Qed.

End TreeWalks.

(** The class of [Inner] is found through the method; with
    [stopAtFunction] there is none. *)
Lemma getEnclosingClass_above_witness :
  ParseTree.getEnclosingClass TreeFixture.innerClass false
  = Some TreeFixture.outerClass
  /\ ParseTree.getEnclosingClass TreeFixture.innerClass true = None
  /\ ParseTree.nodeType TreeFixture.outerClass = ParseTree.NodeClass
  /\ ParseTree.getNodeDepth TreeFixture.outerClass
     < ParseTree.getNodeDepth TreeFixture.innerClass
  /\ ParseTree.getEnclosingClass TreeFixture.method false
     = Some TreeFixture.outerClass.
Proof.
  destruct getEnclosingClass_above as (Habove & Hstop & Hrel).
  split; [reflexivity |]. split; [reflexivity |].
  destruct (Habove TreeFixture.innerClass false TreeFixture.outerClass
              eq_refl) as [Ht Hd].
  split; [exact Ht |]. split; [exact Hd |].
  exact (Hstop TreeFixture.method TreeFixture.outerClass eq_refl).
Defined.

Lemma getParentNodeOfType_contains_witness :
  ParseTree.nodeType TreeFixture.method = ParseTree.NodeFunction
  /\ ParseTree.isNodeContainedWithin TreeFixture.innerName
       TreeFixture.method = true
  /\ ParseTree.getNodeDepth TreeFixture.method
     <= ParseTree.getNodeDepth TreeFixture.innerName
  /\ ParseTree.isNodeContainedWithin TreeFixture.innerName
       TreeFixture.moduleNode = true.
Proof.
  destruct getParentNodeOfType_contains as (Hfound & Hmissing & Hin).
  destruct (Hfound TreeFixture.innerName ParseTree.NodeFunction
              TreeFixture.method eq_refl) as (Ht & Hc & Hd).
  split; [exact Ht |]. split; [exact Hc |]. split; [exact Hd |].
  apply Hin. simpl. tauto.
Defined.

(** The decorator of [method] and the name below it. *)
Lemma decorator_not_enclosed_witness :
  ParseTree.getEnclosingFunction TreeFixture.decorator
  = Some TreeFixture.method
  /\ ParseTree.getEnclosingFunction TreeFixture.decoratorName = None
  /\ ParseTree.getTypeVarScopeNode TreeFixture.decorator
     = Some TreeFixture.outerClass.
Proof.
  destruct (decorator_not_enclosed TreeFixture.method TreeFixture.decorator
              TreeFixture.decoratorName eq_refl eq_refl eq_refl
              (or_introl eq_refl) eq_refl) as (Hd & _).
  split; [exact Hd |]. split; reflexivity.
Defined.

(** X15.  [isWithinLoop] holds exactly when the node or one of its
    ancestors, at any distance, is a [for] or a [while] node: the walk
    goes on through function, lambda, class and module nodes, so every
    node below a node within a loop is within a loop. *)
Theorem isWithinLoop_any_ancestor :
  forall node,
    ParseTree.isWithinLoop node
    = existsb
        (fun a =>
           ParseTree.nodeTypeIs (ParseTree.nodeType a) ParseTree.NodeFor
           || ParseTree.nodeTypeIs (ParseTree.nodeType a)
                ParseTree.NodeWhile)
        (ancestorsOrSelf node)
    /\ forall p,
      ParseTree.parent node = Some p ->
      ParseTree.isWithinLoop p = true ->
      ParseTree.isWithinLoop node = true.
Proof.
  intros node. split.
  - induction node as [node IH] using ParseNode_parent_ind.
    destruct node as [t i n d q]. simpl in *.
    destruct t; simpl; try reflexivity;
      (destruct q as [q |]; [apply (IH q eq_refl) | reflexivity]).
  - intros p Hp Hloop. destruct node as [t i n d q]. simpl in *.
    subst q. destruct t; try reflexivity; exact Hloop.
Qed.

(** The body of a function defined in a loop. *)
Lemma isWithinLoop_any_ancestor_witness :
  ParseTree.isWithinLoop LoopFixture.bodyName = true.
Proof.
  apply (proj2 (isWithinLoop_any_ancestor LoopFixture.bodyName)
           LoopFixture.functionNode eq_refl).
  reflexivity.
Defined.


(** ** Suites, doc strings and parameter annotations *)

Section Suites.
Import ParseNodes ParseStatements.

Lemma suiteSubstatements_allowed : forall substatements sawEllipsis saw,
  suiteSubstatements sawEllipsis substatements = Some saw ->
  (forall isEmpty,
      fold_left functionSubstatement substatements isEmpty = isEmpty)
  /\ saw = sawEllipsis || existsb isEllipsis substatements.
Proof.
  induction substatements as [| s rest IH]; intros sawEllipsis saw H.
  - simpl in *. inversion H. rewrite orb_false_r. split; reflexivity.
  - destruct s; simpl in H; try discriminate.
    + destruct (IH _ _ H) as [Hfold Hsaw]. split.
      * intros b. simpl. apply Hfold.
      * rewrite Hsaw. simpl. rewrite orb_true_r. reflexivity.
    + destruct (IH _ _ H) as [Hfold Hsaw]. split.
      * intros b. simpl. apply Hfold.
      * rewrite Hsaw. reflexivity.
Qed.

Lemma suiteStatements_allowed : forall stmts sawEllipsis,
  suiteStatements sawEllipsis stmts = true ->
  (forall isEmpty, fold_left functionStatement stmts isEmpty = isEmpty)
  /\ sawEllipsis || existsb isEllipsis (substatementsOf stmts) = true.
Proof.
  induction stmts as [| s rest IH]; intros sawEllipsis H.
  - simpl in *. subst sawEllipsis. split; reflexivity.
  - destruct s as [substatements | |]; simpl in H; try discriminate.
    destruct (suiteSubstatements sawEllipsis substatements) as [saw |] eqn:Hs;
      [| discriminate].
    destruct (suiteSubstatements_allowed _ _ _ Hs) as [Hfold Hsaw].
    destruct (IH _ H) as [Hrest Hseen]. split.
    + intros b. simpl. rewrite Hfold. apply Hrest.
    + unfold substatementsOf in *. simpl. rewrite existsb_app.
      rewrite Hsaw in Hseen. rewrite orb_assoc. exact Hseen.
Qed.

(** X16.  [isSuiteEmpty] is stricter than [isFunctionSuiteEmpty]: a
    function whose suite [isSuiteEmpty] accepts is accepted by
    [isFunctionSuiteEmpty], and its suite holds an ellipsis.  The
    converse fails on a suite with no statement, on one that holds only
    [pass] and on one that holds only a doc string:
    [isFunctionSuiteEmpty] accepts them and [isSuiteEmpty] does not. *)
Theorem isSuiteEmpty_stricter :
  forall node,
    (isSuiteEmpty (suite node) = true ->
     isFunctionSuiteEmpty node = true
     /\ existsb isEllipsis (substatementsOf (statements (suite node)))
        = true)
    /\ (existsb isEllipsis (substatementsOf (statements (suite node)))
        = false ->
        isSuiteEmpty (suite node) = false)
    /\ (forallb
          (fun s => match s with
                    | PassNode | StringListNode _ => true
                    | _ => false
                    end)
          (substatementsOf (statements (suite node))) = true ->
        forallb
          (fun s => match s with StatementListNode _ => true | _ => false end)
          (statements (suite node)) = true ->
        isFunctionSuiteEmpty node = true
        /\ isSuiteEmpty (suite node) = false).
Proof.
  intros node. unfold isSuiteEmpty, isFunctionSuiteEmpty.
  destruct node as [ps r c [stmts]]. simpl.
  assert (Hstrict : suiteStatements false stmts = true ->
                    fold_left functionStatement stmts true = true
                    /\ existsb isEllipsis (substatementsOf stmts) = true).
  { intros H. destruct (suiteStatements_allowed _ _ H) as [Hfold Hseen].
    split; [apply Hfold | exact Hseen]. }
  assert (Hnone : existsb isEllipsis (substatementsOf stmts) = false ->
                  suiteStatements false stmts = false).
  { intros Hno. destruct (suiteStatements false stmts) eqn:H;
      [| reflexivity].
    destruct (Hstrict eq_refl) as [_ Hseen]. congruence. }
  split; [exact Hstrict | split; [exact Hnone |]].
  intros Hsubs Hlists. split.
  - clear Hstrict Hnone. generalize true as b.
    induction stmts as [| s rest IH]; intros b; [reflexivity |].
    destruct s as [subs | |]; simpl in Hlists; try discriminate.
    unfold substatementsOf in *. simpl in Hsubs.
    rewrite forallb_app in Hsubs. apply andb_true_iff in Hsubs as [H1 H2].
    simpl.
    assert (Hb : fold_left functionSubstatement subs b = b).
    { clear - H1. revert b.
      induction subs as [| x subs IHs]; intros b; [reflexivity |].
      simpl in H1. destruct x; try discriminate; simpl; apply IHs;
        exact H1. }
    rewrite Hb. apply IH; assumption.
  - apply Hnone. clear - Hsubs.
    induction (substatementsOf stmts) as [| x l IH]; [reflexivity |].
    simpl in *. destruct x; try discriminate; simpl; apply IH; exact Hsubs.
Qed.

Lemma no_format_flags : forall Format strings,
  existsb (fun n => negb (Z.eqb (Z.land (tokenFlags n) Format) 0)) strings
  = false
  <-> Forall (fun n => Z.land (tokenFlags n) Format = 0%Z) strings.
Proof.
  intros Format. induction strings as [| s rest IH].
  - simpl. split; [constructor | reflexivity].
  - simpl. split.
    + intros H. apply orb_false_iff in H as [H1 H2]. constructor.
      * apply negb_false_iff, Z.eqb_eq in H1. exact H1.
      * apply IH. exact H2.
    + intros H. inversion H as [| x l H1 H2]. subst.
      apply orb_false_iff. split.
      * apply negb_false_iff, Z.eqb_eq. exact H1.
      * apply IH. exact H2.
Qed.

(** X17.  [getDocString] answers exactly when the first statement of
    the suite is a statement list that starts with a string list of at
    least one string, none of which is an f-string; the answer is the
    values of these strings put together (for one string, its value).
    An f-string anywhere among the strings leaves no doc string at
    all. *)
Theorem getDocString_joins_the_strings :
  forall Format statements docString,
    getDocString Format statements = Some docString
    <-> exists strings more rest,
        statements = StatementListNode (StringListNode strings :: more)
                     :: rest
        /\ strings <> []
        /\ Forall (fun n => Z.land (tokenFlags n) Format = 0%Z) strings
        /\ docString = String.concat "" (map value strings).
Proof.
  intros Format stmts doc. split.
  - intros H. destruct stmts as [| [subs | |] rest]; try discriminate.
    simpl in H. destruct subs as [| [| strings | |] more]; try discriminate.
    simpl in H.
    destruct (Nat.eqb (List.length strings) 0) eqn:Hlen; [discriminate |].
    destruct (existsb _ strings) eqn:Hformat; [discriminate |].
    simpl in H. exists strings, more, rest.
    split; [reflexivity |]. split.
    + intros Hnil. subst strings. discriminate.
    + split; [apply no_format_flags; exact Hformat |].
      destruct strings as [| s [| s' l]]; inversion H; reflexivity.
  - intros (strings & more & rest & Hstmts & Hne & Hflags & Hdoc).
    subst stmts doc. simpl.
    destruct strings as [| s l]; [contradiction |].
    apply no_format_flags in Hflags.
    cbn [List.length Nat.eqb]. rewrite Hflags. simpl.
    destruct l; reflexivity.
Qed.

Lemma unannotated_parameter : forall (ps : list ParameterNode) i param,
  forallb
    (fun param =>
       negb (isSome (typeAnnotation param))
       && negb (isSome (typeAnnotationComment param))) ps = true ->
  nth_error ps i = Some param ->
  typeAnnotation param = None /\ typeAnnotationComment param = None.
Proof.
  intros ps i param Hall Hnth.
  rewrite forallb_forall in Hall.
  specialize (Hall param (nth_error_In _ _ Hnth)).
  apply andb_true_iff in Hall as [H1 H2].
  destruct (typeAnnotation param); [discriminate |].
  destruct (typeAnnotationComment param); [discriminate |].
  split; reflexivity.
Qed.

(** X18.  An annotation of the parameter itself, then a type comment of
    the parameter, come before the type comment of the function.  When
    no parameter has one of its own and the function comment does not
    use an ellipsis for the parameter list: a comment with fewer
    annotations than parameters leaves the first parameter out, giving
    it no annotation and parameter [i + 1] the annotation [i]; a comment
    with as many annotations or more gives parameter [i] the annotation
    [i].  A function [isUnannotatedFunction] accepts and that has no
    function comment has no annotation for any parameter. *)
Theorem getTypeAnnotationForParameter_comment_skips_first :
  forall node,
    (forall i param annotation,
        nth_error (parameters node) i = Some param ->
        typeAnnotation param = Some annotation
        \/ (typeAnnotation param = None
            /\ typeAnnotationComment param = Some annotation) ->
        getTypeAnnotationForParameter node i = Some annotation)
    /\ (forall comment,
           forallb
             (fun param =>
                negb (isSome (typeAnnotation param))
                && negb (isSome (typeAnnotationComment param)))
             (parameters node) = true ->
           functionAnnotationComment node = Some comment ->
           isParamListEllipsis comment = false ->
           if Nat.ltb (List.length (paramTypeAnnotations comment))
                (List.length (parameters node))
           then getTypeAnnotationForParameter node 0 = None
                /\ forall i,
                  S i < List.length (parameters node) ->
                  getTypeAnnotationForParameter node (S i)
                  = nth_error (paramTypeAnnotations comment) i
           else forall i,
               i < List.length (parameters node) ->
               getTypeAnnotationForParameter node i
               = nth_error (paramTypeAnnotations comment) i)
    /\ (isUnannotatedFunction node = true ->
        functionAnnotationComment node = None ->
        forall i, getTypeAnnotationForParameter node i = None).
Proof.
  intros node. split; [| split].
  - intros i param annotation Hnth Hown.
    unfold getTypeAnnotationForParameter. rewrite Hnth.
    destruct Hown as [H | [H1 H2]].
    + rewrite H. reflexivity.
    + rewrite H1, H2. reflexivity.
  - intros comment Hall Hcomment Hellipsis.
    assert (Hget : forall i,
               i < List.length (parameters node) ->
               getTypeAnnotationForParameter node i
               = let first :=
                   if Nat.ltb (List.length (paramTypeAnnotations comment))
                        (List.length (parameters node))
                   then 1%Z else 0%Z in
                 let adjIndex := (Z.of_nat i - first)%Z in
                 if Z.ltb adjIndex 0
                    || Z.leb
                         (Z.of_nat
                            (List.length (paramTypeAnnotations comment)))
                         adjIndex
                 then None
                 else nth_error (paramTypeAnnotations comment)
                        (Z.to_nat adjIndex)).
    { intros i Hi. unfold getTypeAnnotationForParameter.
      destruct (nth_error (parameters node) i) as [param |] eqn:Hnth.
      - destruct (unannotated_parameter _ _ _ Hall Hnth) as [H1 H2].
        rewrite H1, H2, Hcomment, Hellipsis. reflexivity.
      - apply nth_error_None in Hnth. lia. }
    destruct (Nat.ltb (List.length (paramTypeAnnotations comment))
                (List.length (parameters node))) eqn:Hfewer.
    + apply Nat.ltb_lt in Hfewer. split.
      * rewrite Hget by lia. reflexivity.
      * intros i Hi. rewrite Hget by exact Hi. cbv zeta.
        replace (Z.of_nat (S i) - 1)%Z with (Z.of_nat i) by lia.
        rewrite Nat2Z.id.
        destruct (Z.ltb (Z.of_nat i) 0) eqn:Hneg;
          [apply Z.ltb_lt in Hneg; lia |].
        simpl.
        destruct (Z.leb _ (Z.of_nat i)) eqn:Hout; [| reflexivity].
        apply Z.leb_le in Hout. symmetry. apply nth_error_None. lia.
    + apply Nat.ltb_ge in Hfewer. intros i Hi.
      rewrite Hget by exact Hi. cbv zeta.
      replace (Z.of_nat i - 0)%Z with (Z.of_nat i) by lia.
      rewrite Nat2Z.id.
      destruct (Z.ltb (Z.of_nat i) 0) eqn:Hneg;
        [apply Z.ltb_lt in Hneg; lia |].
      simpl.
      destruct (Z.leb _ (Z.of_nat i)) eqn:Hout; [| reflexivity].
      apply Z.leb_le in Hout. lia.
  - intros Hun Hcomment i. unfold isUnannotatedFunction in Hun.
    apply andb_true_iff in Hun as [_ Hall].
    unfold getTypeAnnotationForParameter.
    destruct (nth_error (parameters node) i) as [param |] eqn:Hnth;
      [| reflexivity].
    destruct (unannotated_parameter _ _ _ Hall Hnth) as [H1 H2].
    rewrite H1, H2, Hcomment. reflexivity.
Qed.

End Suites.

(** A function whose body is [...]. *)
Lemma isSuiteEmpty_stricter_witness :
  ParseStatements.isFunctionSuiteEmpty StatementFixture.commented = true
  /\ existsb isEllipsis
       (substatementsOf
          (ParseStatements.statements
             (ParseStatements.suite StatementFixture.commented)))
     = true.
Proof.
  apply (proj1 (isSuiteEmpty_stricter StatementFixture.commented)).
  reflexivity.
Defined.

(** A doc string written as two adjacent strings. *)
Lemma getDocString_joins_the_strings_witness :
  ParseStatements.getDocString 64
    [ParseStatements.StatementListNode
       [ParseStatements.StringListNode
          [ParseStatements.mkStringNode "Parses " 0;
           ParseStatements.mkStringNode "a file." 0]]]
  = Some "Parses a file.".
Proof.
  apply (proj2 (getDocString_joins_the_strings 64 _ "Parses a file.")).
  eexists _, _, _. split; [reflexivity |]. split; [discriminate |].
  split; [| reflexivity].
  repeat constructor.
Defined.

(** [self] has no annotation; [a] is an [int] and [b] a [str]. *)
Lemma getTypeAnnotationForParameter_comment_skips_first_witness :
  ParseStatements.getTypeAnnotationForParameter StatementFixture.commented 0
  = None
  /\ ParseStatements.getTypeAnnotationForParameter
       StatementFixture.commented 1
     = Some (ParseNodes.Name 1 "int")
  /\ ParseStatements.getTypeAnnotationForParameter
       StatementFixture.commented 2
     = Some (ParseNodes.Name 2 "str").
Proof.
  destruct (getTypeAnnotationForParameter_comment_skips_first
              StatementFixture.commented) as (_ & Hcomment & _).
  specialize (Hcomment _ eq_refl eq_refl eq_refl).
  simpl in Hcomment. destruct Hcomment as [Hfirst Hrest].
  split; [exact Hfirst |]. split.
  - apply (Hrest 0). simpl. lia.
  - apply (Hrest 1). simpl. lia.
Defined.


(** ** More of the narrowing functions *)

Section NarrowingFacts.
Context {U : TypeUtils}.

Lemma combineTypes_single : forall t,
  isUnion t = false -> combineTypes [t] = t.
Proof.
  intros t Hu. unfold combineTypes.
  destruct t; try discriminate; reflexivity.
Qed.

Lemma combineTypes_drops_never : forall l l',
  filter (fun t => negb (isNever t)) l
  = filter (fun t => negb (isNever t)) l' ->
  combineTypes l = combineTypes l'.
Proof. intros l l' H. unfold combineTypes. rewrite H. reflexivity. Qed.

Lemma mapSubtypesLoop_pure : forall (callback : Ty -> option Ty) l,
  mapSubtypesLoop (fun (_ : unit) x => (tt, callback x)) tt l
  = (tt,
     flat_map
       (fun x => match callback x with Some y => [y] | None => [] end) l).
Proof.
  intros callback. induction l as [| t r IH]; [reflexivity |].
  simpl. rewrite IH. destruct (callback t); reflexivity.
Qed.

(** A callback that keeps or drops each subtype filters the subtypes. *)
Lemma mapSubtypes_filter :
  forall (callback : Ty -> option Ty) (keep : Ty -> bool),
  (forall s, callback s = if keep s then Some s else None) ->
  forall t,
    mapSubtypes t callback = combineTypes (filter keep (expandUnion t)).
Proof.
  intros callback keep Hcb t. unfold mapSubtypes, mapSubtypesSt.
  assert (Hplain : isUnion t = false ->
                   match callback t with Some y => y | None => Never end
                   = combineTypes (filter keep [t])).
  { intros Hu. rewrite Hcb. simpl. destruct (keep t); [| reflexivity].
    symmetry. apply combineTypes_single. exact Hu. }
  destruct t; try (simpl; apply Hplain; reflexivity).
  clear Hplain. rewrite mapSubtypesLoop_pure. simpl. f_equal.
  induction subtypes as [| s r IH]; [reflexivity |].
  simpl. rewrite Hcb, IH. destruct (keep s); reflexivity.
Qed.

(** A callback that answers every subtype with zero or one type. *)
Lemma mapSubtypes_flat_map :
  forall (callback : Ty -> option Ty) (answers : Ty -> list Ty),
    (forall s,
        filter (fun t => negb (isNever t))
          (match callback s with Some y => [y] | None => [] end)
        = filter (fun t => negb (isNever t)) (answers s)) ->
    (forall s, isUnion s = false ->
               match callback s with Some y => y | None => Never end
               = combineTypes (answers s)) ->
    forall t,
      mapSubtypes t callback
      = combineTypes (flat_map answers (expandUnion t)).
Proof.
  intros callback answers Hcb Hplain t. unfold mapSubtypes, mapSubtypesSt.
  destruct t;
    try (simpl; rewrite app_nil_r; apply Hplain; reflexivity).
  rewrite mapSubtypesLoop_pure. simpl.
  apply combineTypes_drops_never.
  induction subtypes as [| s r IH]; [reflexivity |].
  simpl. rewrite !filter_app, IH, Hcb. reflexivity.
Qed.

End NarrowingFacts.

Section TupleLength.
Context {U : TypeUtils}.
Variable evaluator : TypeEvaluator.

(** X19.  [narrowTypeForTupleLength] only removes subtypes: the answer
    combines the subtypes of the reference type that are not tuples of
    known length, together with the tuples whose length is the number
    compared with (for a positive test) or is not (for a negative one).
    So no subtype is removed by both tests, and a number that is not an
    integer (a fraction whose denominator does not divide its numerator)
    removes every tuple of known length in the positive test. *)
Theorem narrowTypeForTupleLength_filters :
  forall referenceType lengthValue isPositiveTest,
    Narrowing.narrowTypeForTupleLength evaluator referenceType lengthValue
      isPositiveTest
    = combineTypes
        (filter
           (fun subtype =>
              match knownTupleLength evaluator subtype with
              | Some length =>
                  Bool.eqb (Narrowing.lengthIs length lengthValue)
                    isPositiveTest
              | None => true
              end)
           (expandUnion referenceType))
    /\ (forall subtype,
           Narrowing.narrowSubtypeForTupleLength evaluator lengthValue true
             subtype = Some subtype
           \/ Narrowing.narrowSubtypeForTupleLength evaluator lengthValue
                false subtype = Some subtype)
    /\ (forall subtype length numerator denominator,
           knownTupleLength evaluator subtype = Some length ->
           Z.rem numerator (Z.pos denominator) <> 0%Z ->
           Narrowing.narrowSubtypeForTupleLength evaluator
             (JsFraction numerator denominator) true subtype = None).
Proof.
  intros referenceType lengthValue isPositiveTest.
  assert (Hcb : forall v p s,
             Narrowing.narrowSubtypeForTupleLength evaluator v p s
             = if match knownTupleLength evaluator s with
                  | Some length => Bool.eqb (Narrowing.lengthIs length v) p
                  | None => true
                  end
               then Some s else None).
  { intros v p s.
    unfold Narrowing.narrowSubtypeForTupleLength, knownTupleLength.
    destruct (makeTopLevelTypeVarsConcrete evaluator s) as
      [| | | | | | | | c | |]; try reflexivity.
    unfold isClassInstance.
    destruct (classInstantiable c); [reflexivity |].
    destruct (isTupleClass c); [| reflexivity].
    destruct (isUnboundedTupleClass c); [reflexivity |].
    simpl. destruct (tupleTypeArguments c); reflexivity. }
  split; [| split].
  - unfold Narrowing.narrowTypeForTupleLength.
    apply mapSubtypes_filter. intros s. apply Hcb.
  - intros s. rewrite !Hcb.
    destruct (knownTupleLength evaluator s) as [n |]; [| left; reflexivity].
    destruct (Narrowing.lengthIs n lengthValue);
      [left | right]; reflexivity.
  - intros s n num den Hknown Hfraction. rewrite Hcb, Hknown.
    unfold Narrowing.lengthIs.
    destruct (Z.eqb (Z.of_nat n * Z.pos den) num) eqn:Heq; [| reflexivity].
    apply Z.eqb_eq in Heq. subst num.
    rewrite Z.rem_mul in Hfraction by discriminate. contradiction.
Qed.

End TupleLength.

Section Containers.
Context {U : TypeUtils}.
Variable evaluator : TypeEvaluator.
Variable isSameWithoutLiteralValue : Ty -> Ty -> bool.

Lemma narrowReferenceSubtype_keeps_false :
  forall elementType elementTypeWithoutLiteral t,
    fst (Narrowing.narrowReferenceSubtype evaluator
           isSameWithoutLiteralValue elementType elementTypeWithoutLiteral
           false t) = false.
Proof.
  intros. unfold Narrowing.narrowReferenceSubtype.
  repeat match goal with
         | |- context [if ?x then _ else _] => destruct x
         end; reflexivity.
Qed.

Lemma narrowReferenceSubtype_gives_up :
  forall elementType elementTypeWithoutLiteral flag t,
    isAnyOrUnknown (makeTopLevelTypeVarsConcrete evaluator t)
    || isTypeInstance (makeTopLevelTypeVarsConcrete evaluator t) = true ->
    fst (Narrowing.narrowReferenceSubtype evaluator
           isSameWithoutLiteralValue elementType elementTypeWithoutLiteral
           flag t) = false.
Proof.
  intros elementType without flag t H.
  unfold Narrowing.narrowReferenceSubtype.
  destruct (isAnyOrUnknown (makeTopLevelTypeVarsConcrete evaluator t));
    [reflexivity |].
  simpl in H. unfold isTypeInstance, isClassInstance in *.
  destruct (makeTopLevelTypeVarsConcrete evaluator t); try discriminate.
  rewrite H. reflexivity.
Qed.

Lemma narrowElementSubtype_keeps_false : forall referenceType t,
  fst (Narrowing.narrowElementSubtype evaluator referenceType false t)
  = false.
Proof.
  intros. unfold Narrowing.narrowElementSubtype.
  repeat match goal with
         | |- context [if ?x then _ else _] => destruct x
         end; reflexivity.
Qed.

Lemma narrowElementSubtype_gives_up : forall referenceType flag t,
  isAnyOrUnknown (makeTopLevelTypeVarsConcrete evaluator t) = true ->
  fst (Narrowing.narrowElementSubtype evaluator referenceType flag t)
  = false.
Proof.
  intros referenceType flag t H. unfold Narrowing.narrowElementSubtype.
  rewrite H. reflexivity.
Qed.

Lemma mapSubtypesSt_flag_stays_false :
  forall (callback : bool -> Ty -> bool * option Ty),
    (forall t, fst (callback false t) = false) ->
    forall type, fst (mapSubtypesSt type callback false) = false.
Proof.
  intros callback Hcb type. unfold mapSubtypesSt.
  destruct type;
    try (match goal with
         | |- context [callback false ?t] =>
             specialize (Hcb t); destruct (callback false t); exact Hcb
         end).
  pose proof (mapSubtypesLoop_flag_stays_false callback Hcb subtypes) as H.
  destruct (mapSubtypesLoop callback false subtypes). exact H.
Qed.

(** X20.  Narrowing for [x in container] is all or nothing.  The
    reference type is returned as it is when the container is not an
    instance of one of the supported built-in classes with a type
    argument; when a subtype of the reference type is, once made
    concrete, [Any], [Unknown] or an instance of the built-in [type];
    and when a subtype of the element type is, once made concrete,
    [Any] or [Unknown]: what the other subtypes were narrowed to is
    thrown away. *)
Theorem container_narrowing_all_or_nothing :
  forall referenceType,
    (forall containerType,
        Narrowing.getElementTypeForContainerNarrowing containerType = None ->
        Narrowing.narrowTypeForContainerType evaluator
          isSameWithoutLiteralValue referenceType containerType
        = referenceType)
    /\ (forall elementType,
           existsb
             (fun s =>
                isAnyOrUnknown (makeTopLevelTypeVarsConcrete evaluator s)
                || isTypeInstance (makeTopLevelTypeVarsConcrete evaluator s))
             (expandUnion referenceType) = true ->
           Narrowing.narrowTypeForContainerElementType evaluator
             isSameWithoutLiteralValue referenceType elementType
           = referenceType)
    /\ (forall elementType,
           existsb
             (fun s =>
                isAnyOrUnknown (makeTopLevelTypeVarsConcrete evaluator s))
             (expandUnion elementType) = true ->
           Narrowing.narrowTypeForContainerElementType evaluator
             isSameWithoutLiteralValue referenceType elementType
           = referenceType).
Proof.
  intros referenceType. split; [| split].
  - intros containerType H. unfold Narrowing.narrowTypeForContainerType.
    rewrite H. reflexivity.
  - intros elementType Hex.
    unfold Narrowing.narrowTypeForContainerElementType.
    pose proof
      (mapSubtypesSt_flag_cleared
         (Narrowing.narrowReferenceSubtype evaluator
            isSameWithoutLiteralValue elementType
            (stripLiteralValue elementType))
         (fun s =>
            isAnyOrUnknown (makeTopLevelTypeVarsConcrete evaluator s)
            || isTypeInstance (makeTopLevelTypeVarsConcrete evaluator s))
         (narrowReferenceSubtype_keeps_false elementType
            (stripLiteralValue elementType))
         (fun flag s Hs =>
            narrowReferenceSubtype_gives_up elementType
              (stripLiteralValue elementType) flag s Hs)
         referenceType true Hex) as H1.
    destruct (mapSubtypesSt referenceType _ true) as [flag1 supertypes].
    simpl in H1. subst flag1.
    pose proof
      (mapSubtypesSt_flag_stays_false
         (Narrowing.narrowElementSubtype evaluator referenceType)
         (narrowElementSubtype_keeps_false referenceType) elementType)
      as H2.
    destruct (mapSubtypesSt elementType _ false) as [flag2 subtypes].
    simpl in H2. subst flag2. reflexivity.
  - intros elementType Hex.
    unfold Narrowing.narrowTypeForContainerElementType.
    destruct (mapSubtypesSt referenceType _ true) as [flag1 supertypes].
    pose proof
      (mapSubtypesSt_flag_cleared
         (Narrowing.narrowElementSubtype evaluator referenceType)
         (fun s =>
            isAnyOrUnknown (makeTopLevelTypeVarsConcrete evaluator s))
         (narrowElementSubtype_keeps_false referenceType)
         (fun flag s Hs =>
            narrowElementSubtype_gives_up referenceType flag s Hs)
         elementType flag1 Hex) as H2.
    destruct (mapSubtypesSt elementType _ flag1) as [flag2 subtypes].
    simpl in H2. subst flag2. reflexivity.
Qed.

End Containers.

(** A tuple of two entries and one of one entry against a length that
    is not an integer, [5/2]; against [4/2], which is 2, the tuple of two
    entries stays. *)
Lemma narrowTypeForTupleLength_filters_witness :
  Narrowing.narrowSubtypeForTupleLength Fixture.evaluator (JsFraction 5 2)
    true (Fixture.tupleOf [Fixture.intType; Fixture.strType]) = None
  /\ Narrowing.narrowSubtypeForTupleLength Fixture.evaluator
       (JsFraction 4 2) true
       (Fixture.tupleOf [Fixture.intType; Fixture.strType])
     = Some (Fixture.tupleOf [Fixture.intType; Fixture.strType])
  /\ Narrowing.narrowTypeForTupleLength Fixture.evaluator
       (Union [Fixture.tupleOf [Fixture.intType; Fixture.strType];
               Fixture.tupleOf [Fixture.intType]; Fixture.strType])
       (JsNumber 2) true
     = Union [Fixture.tupleOf [Fixture.intType; Fixture.strType];
              Fixture.strType].
Proof.
  destruct (narrowTypeForTupleLength_filters Fixture.evaluator
              (Union [Fixture.tupleOf [Fixture.intType; Fixture.strType];
                      Fixture.tupleOf [Fixture.intType]; Fixture.strType])
              (JsNumber 2) true) as (Hfilter & _ & Hfraction).
  split; [| split].
  - apply (Hfraction _ 2 5%Z 2%positive); [reflexivity |].
    vm_compute. discriminate.
  - reflexivity.
  - rewrite Hfilter. reflexivity.
Defined.

(** [x in y] for an [x] that may be [Any]. *)
Lemma container_narrowing_all_or_nothing_witness :
  Narrowing.narrowTypeForContainerElementType Fixture.evaluator
    (fun _ _ => false) (Union [Any; Fixture.strType]) Fixture.intType
  = Union [Any; Fixture.strType]
  /\ Narrowing.narrowTypeForContainerType Fixture.evaluator
       (fun _ _ => false) Fixture.strType Fixture.intType
     = Fixture.strType.
Proof.
  destruct (container_narrowing_all_or_nothing Fixture.evaluator
              (fun _ _ => false) (Union [Any; Fixture.strType]))
    as (_ & Hreference & _).
  split.
  - apply Hreference. reflexivity.
  - apply (proj1 (container_narrowing_all_or_nothing Fixture.evaluator
                    (fun _ _ => false) Fixture.strType)).
    reflexivity.
Defined.

Section IsInstanceClassTypes.
Context {U : TypeUtils}.

Lemma addClassTypesToList_one : forall subtype state,
  Narrowing.addClassTypesToList [subtype] state
  = if Narrowing.isClassTypeForList subtype
    then (fst state, List.app (snd state) [subtype])
    else (true, snd state).
Proof. intros subtype [found l]. reflexivity. Qed.

Lemma addClassTypesToList_sound : forall subtype state,
  forallb Narrowing.isClassTypeForList (snd state) = true ->
  forallb Narrowing.isClassTypeForList
    (snd (Narrowing.addClassTypesToList [subtype] state)) = true.
Proof.
  intros subtype state H. rewrite addClassTypesToList_one.
  destruct (Narrowing.isClassTypeForList subtype) eqn:Hs; simpl;
    [| exact H].
  rewrite forallb_app, H. simpl. rewrite Hs. reflexivity.
Qed.

Lemma addClassTypesRecursive_sound : forall subtype recursionCount state,
  forallb Narrowing.isClassTypeForList (snd state) = true ->
  forallb Narrowing.isClassTypeForList
    (snd (Narrowing.addClassTypesRecursive subtype recursionCount state))
  = true.
Proof.
  fix IH 1. intros subtype r state H.
  destruct subtype as [| | | i c | | | f | o | c | v | l];
    simpl;
    destruct (Nat.ltb maxTypeRecursionCount r);
    try exact H;
    try (apply addClassTypesToList_sound; exact H).
  destruct c as [d inst tps targs tuple lit cond unp guard strict].
  cbn [classInstantiable tupleTypeArguments].
  destruct (negb inst && isTupleClass _);
    [| apply addClassTypesToList_sound; exact H].
  destruct tuple as [entries |]; [| exact H].
  revert state H. induction entries as [| [ty unbounded] rest IHrest];
    intros state H; [exact H |].
  apply IHrest. cbn [tupleArgType]. apply IH. exact H.
Qed.

Lemma addClassTypesRecursive_nested :
  forall tupleClass t,
    isTupleClass tupleClass = true ->
    (forall c, t = Class c ->
               negb (classInstantiable c) && isTupleClass c = false) ->
    forall depth recursionCount state,
      Narrowing.addClassTypesRecursive (nestedTuple tupleClass depth t)
        recursionCount state
      = if Nat.ltb maxTypeRecursionCount (recursionCount + depth)
        then state
        else Narrowing.addClassTypesToList [t] state.
Proof.
  intros tupleClass t Htuple Hleaf.
  induction depth as [| depth IH]; intros r state.
  - rewrite Nat.add_0_r. simpl.
    destruct t as [| | | i c | | | f | o | c | v | l]; simpl;
      try reflexivity.
    rewrite (Hleaf c eq_refl). reflexivity.
  - simpl. destruct (Nat.ltb maxTypeRecursionCount r) eqn:Hr.
    + apply Nat.ltb_lt in Hr.
      destruct (Nat.ltb maxTypeRecursionCount (r + S depth)) eqn:Hd;
        [reflexivity |].
      apply Nat.ltb_ge in Hd. lia.
    + unfold isTupleClass, ClassType_.isTupleClass in *. simpl.
      rewrite Htuple. simpl. rewrite IH.
      replace (S r + depth) with (r + S depth) by lia. reflexivity.
Qed.

(** X21.  Every type [getIsInstanceClassTypes] answers with is a class
    object, an instantiable type variable, the class of [None] or a
    function of the parameters [( *args, **kwargs)].  A class nested in
    tuples is found through them, and one that is no such type makes
    the answer undefined, but only down to [maxTypeRecursionCount]
    tuples: what is nested deeper is left out of the list without making
    the answer undefined. *)
Theorem getIsInstanceClassTypes_depth :
  (forall argType classTypeList,
      Narrowing.getIsInstanceClassTypes argType = Some classTypeList ->
      forallb Narrowing.isClassTypeForList classTypeList = true)
  /\ (forall tupleClass depth t,
         isTupleClass tupleClass = true ->
         isUnion t = false ->
         (forall c, t = Class c ->
                    negb (classInstantiable c) && isTupleClass c = false) ->
         Narrowing.getIsInstanceClassTypes (nestedTuple tupleClass depth t)
         = if Nat.ltb maxTypeRecursionCount depth then Some []
           else if Narrowing.isClassTypeForList t then Some [t]
                else None).
Proof.
  split.
  - intros argType l H. unfold Narrowing.getIsInstanceClassTypes in H.
    assert (Hsound :
              forall subtypes state,
                forallb Narrowing.isClassTypeForList (snd state) = true ->
                forallb Narrowing.isClassTypeForList
                  (snd (fold_left
                          (fun state subtype =>
                             Narrowing.addClassTypesRecursive subtype 0
                               state)
                          subtypes state)) = true).
    { induction subtypes as [| s r IH]; intros state Hs; [exact Hs |].
      simpl. apply IH. apply addClassTypesRecursive_sound. exact Hs. }
    unfold doForEachSubtype in H.
    specialize (Hsound (expandUnion argType) (false, []) eq_refl).
    destruct (fold_left _ (expandUnion argType) (false, []))
      as [found list].
    destruct found; [discriminate |]. inversion H. subst l. exact Hsound.
  - intros tupleClass depth t Htuple Hunion Hleaf.
    unfold Narrowing.getIsInstanceClassTypes, doForEachSubtype.
    assert (Hexpand : expandUnion (nestedTuple tupleClass depth t)
                      = [nestedTuple tupleClass depth t]).
    { destruct depth; [| reflexivity].
      simpl. destruct t; try reflexivity; discriminate. }
    rewrite Hexpand. cbn [fold_left].
    rewrite (addClassTypesRecursive_nested tupleClass t Htuple Hleaf).
    cbn [Nat.add].
    destruct (Nat.ltb maxTypeRecursionCount depth); [reflexivity |].
    rewrite addClassTypesToList_one. cbn [fst snd List.app].
    destruct (Narrowing.isClassTypeForList t); reflexivity.
Qed.

End IsInstanceClassTypes.

(** [isinstance(x, ((int,),))] finds [int]; under twenty-one tuples
    the class [int], or an instance that is no class at all, is not
    looked at. *)
Lemma getIsInstanceClassTypes_depth_witness :
  Narrowing.getIsInstanceClassTypes
    (nestedTuple (Fixture.instanceOf Fixture.tupleDetails) 2
       (Class (ClassType_.cloneAsInstantiable Fixture.intClass)))
  = Some [Class (ClassType_.cloneAsInstantiable Fixture.intClass)]
  /\ Narrowing.getIsInstanceClassTypes
       (nestedTuple (Fixture.instanceOf Fixture.tupleDetails) 21
          Fixture.intType)
     = Some []
  /\ Narrowing.getIsInstanceClassTypes
       (nestedTuple (Fixture.instanceOf Fixture.tupleDetails) 1
          Fixture.intType)
     = None.
Proof.
  destruct getIsInstanceClassTypes_depth as [_ Hnested].
  split; [| split].
  - apply (Hnested (Fixture.instanceOf Fixture.tupleDetails) 2
             (Class (ClassType_.cloneAsInstantiable Fixture.intClass)));
      try reflexivity.
    intros c Hc. inversion Hc. reflexivity.
  - apply (Hnested (Fixture.instanceOf Fixture.tupleDetails) 21
             Fixture.intType); try reflexivity.
    intros c Hc. inversion Hc. reflexivity.
  - apply (Hnested (Fixture.instanceOf Fixture.tupleDetails) 1
             Fixture.intType); try reflexivity.
    intros c Hc. inversion Hc. reflexivity.
Defined.

Section UserDefinedTypeGuard.
Context {U : TypeUtils}.
Variable evaluator : TypeEvaluator.
Variable isSameWithoutLiteralValue : Ty -> Ty -> bool.

(** X22.  A type guard that is not strict does not look at the type: the
    positive test answers with the guard type and the negative test with
    the type as it is.  A strict guard whose type is not a union keeps,
    in the negative test, the subtypes that are not assignable to the
    guard type, whether or not the guard type is assignable to them; in
    the positive test it keeps the subtypes assignable to the guard type
    and replaces the others by the guard type when that is assignable
    to them. *)
Theorem narrowTypeForUserDefinedTypeGuard_cases :
  forall type typeGuardType,
    Narrowing.narrowTypeForUserDefinedTypeGuard evaluator type typeGuardType
      true false = typeGuardType
    /\ Narrowing.narrowTypeForUserDefinedTypeGuard evaluator type
         typeGuardType false false = type
    /\ (isUnion typeGuardType = false ->
        Narrowing.narrowTypeForUserDefinedTypeGuard evaluator type
          typeGuardType false true
        = combineTypes
            (filter
               (fun subtype =>
                  negb (assignTypeDefault evaluator typeGuardType subtype))
               (expandUnion type))
        /\ Narrowing.narrowTypeForUserDefinedTypeGuard evaluator type
             typeGuardType true true
           = combineTypes
               (flat_map
                  (fun subtype =>
                     if assignTypeDefault evaluator typeGuardType subtype
                     then [subtype]
                     else if assignTypeDefault evaluator subtype
                               typeGuardType
                          then [typeGuardType]
                          else [])
                  (expandUnion type))).
Proof.
  intros type guard. split; [reflexivity | split; [reflexivity |]].
  intros Hguard.
  assert (Hinner : forall isPositiveTest subtype,
             mapSubtypes guard
               (Narrowing.narrowSubtypeForUserDefinedTypeGuard evaluator
                  guard isPositiveTest subtype)
             = match Narrowing.narrowSubtypeForUserDefinedTypeGuard
                       evaluator guard isPositiveTest subtype guard with
               | Some y => y
               | None => Never
               end).
  { intros p s. unfold mapSubtypes, mapSubtypesSt.
    destruct guard; try discriminate; reflexivity. }
  unfold Narrowing.narrowTypeForUserDefinedTypeGuard. simpl. split.
  - rewrite (mapSubtypes_flat_map
               (fun subtype =>
                  Some (mapSubtypes guard
                          (Narrowing.narrowSubtypeForUserDefinedTypeGuard
                             evaluator guard false subtype)))
               (fun subtype =>
                  if negb (assignTypeDefault evaluator guard subtype)
                  then [subtype] else [])).
    + f_equal. induction (expandUnion type) as [| s r IH]; [reflexivity |].
      simpl. rewrite IH.
      destruct (assignTypeDefault evaluator guard s); reflexivity.
    + intros s. rewrite Hinner.
      unfold Narrowing.narrowSubtypeForUserDefinedTypeGuard.
      destruct (assignTypeDefault evaluator guard s); reflexivity.
    + intros s Hs. rewrite Hinner.
      unfold Narrowing.narrowSubtypeForUserDefinedTypeGuard.
      destruct (assignTypeDefault evaluator guard s); simpl;
        [reflexivity |].
      symmetry. apply combineTypes_single. exact Hs.
  - apply mapSubtypes_flat_map.
    + intros s. rewrite Hinner.
      unfold Narrowing.narrowSubtypeForUserDefinedTypeGuard.
      destruct (assignTypeDefault evaluator guard s); [reflexivity |].
      destruct (assignTypeDefault evaluator s guard); reflexivity.
    + intros s Hs. rewrite Hinner.
      unfold Narrowing.narrowSubtypeForUserDefinedTypeGuard.
      destruct (assignTypeDefault evaluator guard s);
        [symmetry; apply combineTypes_single; exact Hs |].
      destruct (assignTypeDefault evaluator s guard);
        [symmetry; apply combineTypes_single; exact Hguard |].
      reflexivity.
Qed.

End UserDefinedTypeGuard.

(** A strict guard for [int] on [int | str]. *)
Lemma narrowTypeForUserDefinedTypeGuard_cases_witness :
  Narrowing.narrowTypeForUserDefinedTypeGuard Fixture.evaluator
    (Union [Fixture.intType; Fixture.strType]) Fixture.intType false true
  = Fixture.strType
  /\ Narrowing.narrowTypeForUserDefinedTypeGuard Fixture.evaluator
       (Union [Fixture.intType; Fixture.strType]) Fixture.intType true true
     = Fixture.intType.
Proof.
  destruct (narrowTypeForUserDefinedTypeGuard_cases Fixture.evaluator
              (Union [Fixture.intType; Fixture.strType]) Fixture.intType)
    as (_ & _ & Hstrict).
  destruct (Hstrict eq_refl) as [Hnegative Hpositive].
  split.
  - rewrite Hnegative. reflexivity.
  - rewrite Hpositive. reflexivity.
Defined.


(** ** The narrowing engine on nested tests *)

Section NestedTests.
Context {U : TypeUtils}.
Variable N : NarrowingOps.
Variable evaluator : TypeEvaluator.

Import ParseTreeUtils.

(** The entry point satisfies the equation of the source: past the
    guard, the body runs with the counter incremented and calls the entry
    point again. *)
Lemma narrowing_callback_equation :
  forall reference testExpression isPositiveTest recursionCount,
    getTypeNarrowingCallback N evaluator reference testExpression
      isPositiveTest recursionCount
    = if Nat.ltb maxTypeRecursionCount recursionCount then Finished None
      else narrowingCallbackBody N evaluator
             (getTypeNarrowingCallback N evaluator) reference testExpression
             isPositiveTest (S recursionCount).
Proof.
  intros reference test pos rc. unfold getTypeNarrowingCallback at 1.
  destruct (Nat.ltb maxTypeRecursionCount rc) eqn:Hlt.
  - destruct (S maxTypeRecursionCount - rc);
      cbn [getTypeNarrowingCallbackFuel]; rewrite Hlt; reflexivity.
  - apply Nat.ltb_ge in Hlt.
    replace (S maxTypeRecursionCount - rc)
      with (S (maxTypeRecursionCount - rc)) by lia.
    rewrite narrowing_callback_unfold.
    apply Nat.ltb_ge in Hlt. rewrite Hlt.
    destruct (body_finishes N evaluator
                (getTypeNarrowingCallbackFuel N evaluator
                   (maxTypeRecursionCount - rc)) (S rc)
                (fun r t p =>
                   narrowing_callback_finishes N evaluator
                     (maxTypeRecursionCount - rc) (S rc) (le_n _) r t p)
                reference test pos) as [answer Hanswer].
    rewrite Hanswer. symmetry. revert Hanswer.
    apply body_monotone. intros r t p a H. exact H.
Qed.

Lemma no_callback_for_negation : forall reference id expression
                                        isPositiveTest,
  directCallback N evaluator reference
    (UnaryOperation id OpNot expression) isPositiveTest = None.
Proof.
  intros reference id e pos. unfold directCallback.
  destruct reference; reflexivity.
Qed.

Lemma no_alias_for_negation : forall reference id expression,
  aliasedConditionSource evaluator reference
    (UnaryOperation id OpNot expression) = None.
Proof. intros. reflexivity. Qed.

Lemma negation_of_name :
  forall referenceId referenceValue id expression isPositiveTest
         recursionCount,
    getTypeNarrowingCallback N evaluator (Name referenceId referenceValue)
      (UnaryOperation id OpNot expression) isPositiveTest recursionCount
    = if Nat.ltb maxTypeRecursionCount recursionCount then Finished None
      else getTypeNarrowingCallback N evaluator
             (Name referenceId referenceValue) expression
             (negb isPositiveTest) (S recursionCount).
Proof.
  intros. rewrite narrowing_callback_equation.
  destruct (Nat.ltb maxTypeRecursionCount recursionCount); reflexivity.
Qed.

Lemma beyond_the_guard :
  forall reference testExpression isPositiveTest recursionCount,
    Nat.ltb maxTypeRecursionCount recursionCount = true ->
    getTypeNarrowingCallback N evaluator reference testExpression
      isPositiveTest recursionCount = Finished None.
Proof.
  intros reference test pos rc H. rewrite narrowing_callback_equation, H.
  reflexivity.
Qed.

(** X23.  On a test [(name := value)] the engine answers with the
    callback of [value], and with the callback of [name] only when
    [value] gives none; both are looked up one level deeper, so at the
    last level allowed the test narrows nothing.  When [value] gives no
    callback and the reference is the name assigned, the reference is
    narrowed on its truthiness. *)
Theorem narrowing_through_assignment_expression :
  forall reference id name rightExpression isPositiveTest recursionCount,
    getTypeNarrowingCallback N evaluator reference
      (AssignmentExpression id name rightExpression) isPositiveTest
      recursionCount
    = (if Nat.ltb maxTypeRecursionCount recursionCount then Finished None
       else
         match getTypeNarrowingCallback N evaluator reference
                 rightExpression isPositiveTest (S recursionCount) with
         | Finished None =>
             getTypeNarrowingCallback N evaluator reference name
               isPositiveTest (S recursionCount)
         | answer => answer
         end)
    /\ (forall nameId value,
           name = Name nameId value ->
           recursionCount < maxTypeRecursionCount ->
           isMatchingExpression reference name = true ->
           getTypeNarrowingCallback N evaluator reference rightExpression
             isPositiveTest (S recursionCount) = Finished None ->
           getTypeNarrowingCallback N evaluator reference
             (AssignmentExpression id name rightExpression) isPositiveTest
             recursionCount
           = Finished
               (Some (fun type =>
                        narrowTypeForTruthiness N evaluator type
                          isPositiveTest))).
Proof.
  intros reference id name right pos rc.
  assert (Hequation :
            getTypeNarrowingCallback N evaluator reference
              (AssignmentExpression id name right) pos rc
            = (if Nat.ltb maxTypeRecursionCount rc then Finished None
               else
                 match getTypeNarrowingCallback N evaluator reference right
                         pos (S rc) with
                 | Finished None =>
                     getTypeNarrowingCallback N evaluator reference name
                       pos (S rc)
                 | answer => answer
                 end)).
  { rewrite narrowing_callback_equation.
    destruct (Nat.ltb maxTypeRecursionCount rc); reflexivity. }
  split; [exact Hequation |].
  intros nameId value Hname Hrc Hmatch Hright.
  rewrite Hequation, Hright.
  assert (H1 : Nat.ltb maxTypeRecursionCount rc = false)
    by (apply Nat.ltb_ge; lia).
  assert (H2 : Nat.ltb maxTypeRecursionCount (S rc) = false)
    by (apply Nat.ltb_ge; lia).
  rewrite H1, narrowing_callback_equation, H2. subst name.
  unfold narrowingCallbackBody, directCallback.
  cbn [orElse]. rewrite Hmatch. reflexivity.
Qed.

(** X24.  A test [not e] narrows name references only: for a reference
    that is a member access chain or a subscript it gives no callback;
    for a name it gives the callback of [e] for the opposite polarity,
    one level deeper.  So [count] nested negations give the callback of
    [e] for the polarity flipped [count] times, and none at all once the
    counter would pass [maxTypeRecursionCount]. *)
Theorem narrowing_through_negations :
  (forall reference id expression isPositiveTest recursionCount,
      (forall referenceId value, reference <> Name referenceId value) ->
      getTypeNarrowingCallback N evaluator reference
        (UnaryOperation id OpNot expression) isPositiveTest recursionCount
      = Finished None)
  /\ (forall referenceId referenceValue count expression isPositiveTest
             recursionCount,
         getTypeNarrowingCallback N evaluator
           (Name referenceId referenceValue) (negations count expression)
           isPositiveTest recursionCount
         = if Nat.ltb maxTypeRecursionCount (recursionCount + count)
           then Finished None
           else getTypeNarrowingCallback N evaluator
                  (Name referenceId referenceValue) expression
                  (flipped count isPositiveTest) (recursionCount + count)).
Proof.
  split.
  - intros reference id e pos rc Hreference.
    rewrite narrowing_callback_equation.
    destruct (Nat.ltb maxTypeRecursionCount rc); [reflexivity |].
    unfold narrowingCallbackBody.
    rewrite no_callback_for_negation.
    unfold getTypeNarrowingCallbackForAliasedCondition.
    rewrite no_alias_for_negation.
    destruct reference; try reflexivity.
    exfalso. eapply Hreference. reflexivity.
  - intros referenceId referenceValue count e.
    induction count as [| count IH]; intros pos rc.
    + rewrite Nat.add_0_r. unfold flipped. simpl.
      destruct (Nat.ltb maxTypeRecursionCount rc) eqn:Hlt;
        [apply beyond_the_guard; exact Hlt | reflexivity].
    + cbn [negations]. rewrite negation_of_name, IH.
      replace (S rc + count) with (rc + S count) by lia.
      assert (Hflip : flipped count (negb pos) = flipped (S count) pos).
      { unfold flipped. rewrite Nat.even_succ, <- Nat.negb_even.
        destruct (Nat.even count), pos; reflexivity. }
      rewrite Hflip.
      destruct (Nat.ltb maxTypeRecursionCount rc) eqn:Hlt;
        [| reflexivity].
      destruct (Nat.ltb maxTypeRecursionCount (rc + S count)) eqn:Hlt';
        [reflexivity |].
      apply Nat.ltb_lt in Hlt. apply Nat.ltb_ge in Hlt'. lia.
Qed.

End NestedTests.

(** [if (x := 0):] narrows [x] on its truthiness. *)
Lemma narrowing_through_assignment_expression_witness :
  getTypeNarrowingCallback Fixture.narrowingOps Fixture.evaluator
    (Name 1 "x")
    (AssignmentExpression 2 (Name 3 "x") (Number 4 (JsNumber 0) true false))
    true 0
  = Finished
      (Some (fun type =>
               narrowTypeForTruthiness Fixture.narrowingOps
                 Fixture.evaluator type true)).
Proof.
  apply (proj2 (narrowing_through_assignment_expression
                  Fixture.narrowingOps Fixture.evaluator (Name 1 "x") 2
                  (Name 3 "x") (Number 4 (JsNumber 0) true false) true 0)
           3 "x"); try reflexivity.
  simpl. lia.
Defined.

(** [not x] narrows the name [x] for the negative test and does not
    narrow [a.x]; twenty-one negations narrow nothing. *)
Lemma narrowing_through_negations_witness :
  getTypeNarrowingCallback Fixture.narrowingOps Fixture.evaluator
    (MemberAccess 1 (Name 2 "a") "x")
    (UnaryOperation 3 OpNot (MemberAccess 4 (Name 5 "a") "x")) true 0
  = Finished None
  /\ getTypeNarrowingCallback Fixture.narrowingOps Fixture.evaluator
       (Name 1 "x") (negations 21 (Name 2 "x")) true 0
     = Finished None
  /\ getTypeNarrowingCallback Fixture.narrowingOps Fixture.evaluator
       (Name 1 "x") (negations 1 (Name 2 "x")) true 0
     = getTypeNarrowingCallback Fixture.narrowingOps Fixture.evaluator
         (Name 1 "x") (Name 2 "x") false 1.
Proof.
  destruct (narrowing_through_negations Fixture.narrowingOps
              Fixture.evaluator) as [Hother Hname].
  split; [| split].
  - apply Hother. intros referenceId value. discriminate.
  - rewrite Hname. reflexivity.
  - rewrite Hname. reflexivity.
Defined.


(** ** More on the solver *)

Section SolverBindings.
Context {U : TypeUtils}.
Variable evaluator : TypeEvaluator.

(** X25.  The first binding of a parameter specification wins.
    [assignTypeToParamSpec] never changes a context that already binds
    the destination, whatever the source and the verdict.  Without a
    binding, a source that is a parameter specification is accepted even
    when nothing can be recorded; in an unlocked context that solves for
    the scope of the destination it is recorded, it is found again by
    [getParamSpec], and from then on another parameter specification is
    accepted exactly when [isTypeSame] holds of the two, the context
    staying as it is. *)
Theorem assignTypeToParamSpec_first_binding_wins :
  forall destType typeVarContext recursionCount,
    (forall srcType existingEntry,
        TypeVarContext_.getParamSpec typeVarContext destType
        = Some existingEntry ->
        snd (assignTypeToParamSpec evaluator destType srcType
               typeVarContext recursionCount) = typeVarContext)
    /\ (forall p,
           TypeVarContext_.getParamSpec typeVarContext destType = None ->
           isParamSpec p = true ->
           fst (assignTypeToParamSpec evaluator destType (TypeVar p)
                  typeVarContext recursionCount) = true)
    /\ (forall p q,
           TypeVarContext_.getParamSpec typeVarContext destType = None ->
           isParamSpec p = true ->
           TypeVarContext_.isLocked typeVarContext = false ->
           TypeVarContext_.hasSolveForScope typeVarContext
             (scopeId destType) = true ->
           TypeVarContext_.getParamSpec
             (snd (assignTypeToParamSpec evaluator destType (TypeVar p)
                     typeVarContext recursionCount)) destType
           = Some (mkParamSpecValue 0 [] None None (Some p))
           /\ (isParamSpec q = true ->
               assignTypeToParamSpec evaluator destType (TypeVar q)
                 (snd (assignTypeToParamSpec evaluator destType (TypeVar p)
                         typeVarContext recursionCount)) recursionCount
               = (isTypeSame (TypeVar p) (TypeVar q),
                  snd (assignTypeToParamSpec evaluator destType (TypeVar p)
                         typeVarContext recursionCount)))).
Proof.
  intros dest ctx rc. split; [| split].
  - intros src existing Hexisting. unfold assignTypeToParamSpec.
    rewrite Hexisting.
    destruct src as [| | | i c | | | f | o | c | v | l]; try reflexivity.
    + destruct (sameTypeVarObject _ _); reflexivity.
    + destruct (isParamSpec v); [| reflexivity].
      destruct (psParamSpec existing); reflexivity.
  - intros p Hnone Hp. unfold assignTypeToParamSpec.
    rewrite Hp, Hnone. reflexivity.
  - intros p q Hnone Hp Hlocked Hscope.
    assert (Hfirst :
              assignTypeToParamSpec evaluator dest (TypeVar p) ctx rc
              = (true,
                 TypeVarContext_.setParamSpec ctx dest
                   (mkParamSpecValue 0 [] None None (Some p)))).
    { unfold assignTypeToParamSpec. rewrite Hp, Hnone, Hlocked, Hscope.
      reflexivity. }
    rewrite Hfirst. cbn [snd].
    assert (Hfound :
              TypeVarContext_.getParamSpec
                (TypeVarContext_.setParamSpec ctx dest
                   (mkParamSpecValue 0 [] None None (Some p))) dest
              = Some (mkParamSpecValue 0 [] None None (Some p))).
    { unfold TypeVarContext_.getParamSpec, TypeVarContext_.setParamSpec.
      unfold TypeVarContext_.isLocked in Hlocked. rewrite Hlocked.
      cbn [paramSpecMap]. apply mapGet_mapSet_same. }
    split; [exact Hfound |].
    intros Hq. unfold assignTypeToParamSpec. rewrite Hq, Hfound.
    reflexivity.
Qed.

Lemma assignTypeToParamSpec_failure :
  forall destType srcType typeVarContext recursionCount,
    fst (assignTypeToParamSpec evaluator destType srcType typeVarContext
           recursionCount) = false ->
    snd (assignTypeToParamSpec evaluator destType srcType typeVarContext
           recursionCount) = typeVarContext.
Proof.
  intros dest src ctx rc. unfold assignTypeToParamSpec.
  destruct (TypeVarContext_.getParamSpec ctx dest) as [existing |].
  - intros _.
    destruct src as [| | | i c | | | f | o | c | v | l]; try reflexivity.
    + destruct (sameTypeVarObject _ _); reflexivity.
    + destruct (isParamSpec v); [| reflexivity].
      destruct (psParamSpec existing); reflexivity.
  - destruct src as [| | | i c | | | f | o | c | v | l];
      try reflexivity; try discriminate.
    destruct (isParamSpec v); [discriminate | reflexivity].
Qed.

Lemma assignConstrained_failure :
  forall destType srcType typeVarContext isContravariant isTypeVarInScope
         curNarrowTypeBound recursionCount,
    fst (assignConstrained evaluator destType srcType typeVarContext
           isContravariant isTypeVarInScope curNarrowTypeBound
           recursionCount) = false ->
    snd (assignConstrained evaluator destType srcType typeVarContext
           isContravariant isTypeVarInScope curNarrowTypeBound
           recursionCount) = typeVarContext.
Proof.
  intros dest src ctx contra inScope cur rc. unfold assignConstrained.
  destruct (findConstrainedType _ _ _ _ _) as [constrained |];
    [| reflexivity].
  destruct cur as [cur |]; [| discriminate].
  destruct (negb (isAnyOrUnknown cur)); [| discriminate].
  destruct (negb (assigns _ cur constrained _ _ _)); [| discriminate].
  destruct (assigns _ constrained cur _ _ _); [discriminate | reflexivity].
Qed.

(** What a successful unconstrained assignment does to the context, when
    the destination is not [Self] with a bound. *)
Lemma assignUnconstrained_outcome :
  forall destType srcType typeVarContext flags isTypeVarInScope
         curNarrowTypeBound curWideTypeBound recursionCount,
    isSynthesizedSelf destType && isSome (boundType destType) = false ->
    let answer :=
      assignUnconstrained evaluator destType srcType typeVarContext flags
        isTypeVarInScope curNarrowTypeBound curWideTypeBound
        recursionCount in
    (fst answer = false /\ snd answer = typeVarContext)
    \/ (fst answer = true
        /\ exists narrow wide,
          snd answer
          = (if negb (TypeVarContext_.isLocked typeVarContext)
                && isTypeVarInScope
             then TypeVarContext_.setTypeVarType typeVarContext destType
                    narrow wide
                    (Some (retainLiteralsFor destType typeVarContext flags))
             else typeVarContext)
          /\ if AssignTypeFlags.has flags
                  AssignTypeFlags.ReverseTypeVarMatching
                || AssignTypeFlags.has flags
                     AssignTypeFlags.AllowTypeVarNarrowing
             then narrow = curNarrowTypeBound /\ wide <> None
             else wide = curWideTypeBound /\ narrow <> None).
Proof.
  intros dest src ctx flags inScope curNarrow curWide rc Hself answer.
  subst answer. unfold assignUnconstrained.
  destruct (tvInstantiable dest && negb (isEffectivelyInstantiable _));
    [left; split; reflexivity |].
  set (adj := if tvInstantiable dest then _ else _).
  destruct (AssignTypeFlags.has flags AssignTypeFlags.ReverseTypeVarMatching
            || AssignTypeFlags.has flags
                 AssignTypeFlags.AllowTypeVarNarrowing).
  - destruct (updateWideBound evaluator curNarrow curWide adj flags rc)
      as [newWide |]; [| left; split; reflexivity].
    assert (Hgoal :
              exists narrow wide,
                (if negb (TypeVarContext_.isLocked ctx) && inScope
                 then TypeVarContext_.setTypeVarType ctx dest curNarrow
                        (Some newWide)
                        (Some (retainLiteralsFor dest ctx flags))
                 else ctx)
                = (if negb (TypeVarContext_.isLocked ctx) && inScope
                   then TypeVarContext_.setTypeVarType ctx dest narrow wide
                          (Some (retainLiteralsFor dest ctx flags))
                   else ctx)
                /\ narrow = curNarrow /\ wide <> None).
    { exists curNarrow, (Some newWide).
      split; [reflexivity | split; [reflexivity | discriminate]]. }
    destruct (boundType dest) as [bound |];
      [| right; split; [reflexivity | exact Hgoal]].
    destruct (tvInstantiable dest && negb (TypeBase.isInstantiable src));
      [left; split; reflexivity |].
    destruct (isSynthesizedSelf dest); [discriminate |].
    destruct (assigns evaluator bound _ _ _ _);
      [right; split; [reflexivity | exact Hgoal]
      | left; split; reflexivity].
  - destruct (updateNarrowBound evaluator dest ctx curNarrow adj flags rc)
      as [newNarrow |]; [| left; split; reflexivity].
    destruct (withinWideBound evaluator dest curWide newNarrow flags rc);
      [| left; split; reflexivity].
    assert (Hgoal :
              exists narrow wide,
                (if negb (TypeVarContext_.isLocked ctx) && inScope
                 then TypeVarContext_.setTypeVarType ctx dest
                        (Some newNarrow) curWide
                        (Some (retainLiteralsFor dest ctx flags))
                 else ctx)
                = (if negb (TypeVarContext_.isLocked ctx) && inScope
                   then TypeVarContext_.setTypeVarType ctx dest narrow wide
                          (Some (retainLiteralsFor dest ctx flags))
                   else ctx)
                /\ wide = curWide /\ narrow <> None).
    { exists (Some newNarrow), curWide.
      split; [reflexivity | split; [reflexivity | discriminate]]. }
    destruct (boundType dest) as [bound |];
      [| right; split; [reflexivity | exact Hgoal]].
    destruct (tvInstantiable dest && negb (TypeBase.isInstantiable src));
      [left; split; reflexivity |].
    destruct (isSynthesizedSelf dest); [discriminate |].
    destruct (assigns evaluator bound _ _ _ _);
      [right; split; [reflexivity | exact Hgoal]
      | left; split; reflexivity].
Qed.

(** X26.  An assignment to a type variable that fails leaves the
    context as it was, unless the destination is a synthesized [Self]
    with a bound (whose bound is checked against the context itself). *)
Theorem failed_assignment_leaves_context :
  forall destType srcType typeVarContext flags recursionCount,
    isSynthesizedSelf destType && isSome (boundType destType) = false ->
    fst (assignTypeToTypeVar evaluator destType srcType typeVarContext
           flags recursionCount) = false ->
    snd (assignTypeToTypeVar evaluator destType srcType typeVarContext
           flags recursionCount) = typeVarContext.
Proof.
  intros dest src ctx flags rc Hself. unfold assignTypeToTypeVar.
  destruct (scopeIdIsFalsy (scopeId dest)); [reflexivity |].
  destruct (checkTypeVarScope evaluator dest src ctx flags rc)
    as [result | inScope]; [reflexivity |].
  destruct (AssignTypeFlags.has flags AssignTypeFlags.SkipSolveTypeVars);
    [reflexivity |].
  destruct (isParamSpec dest); [apply assignTypeToParamSpec_failure |].
  destruct (Nat.ltb 0 (List.length (constraints dest)));
    [apply assignConstrained_failure |].
  intros Hfail.
  match goal with
  | |- snd (assignUnconstrained _ _ ?s _ _ _ ?n ?w _) = _ =>
      destruct (assignUnconstrained_outcome dest s ctx flags inScope n w rc
                  Hself) as [[_ Hsame] | [Hok _]]
  end.
  - exact Hsame.
  - rewrite Hok in Hfail. discriminate.
Qed.

(** X27.  Each successful assignment to an unconstrained type variable
    writes one entry and moves one bound.  In an unlocked context that
    solves for the scope of the variable, the entry of the variable
    afterwards holds, in the contravariant and narrowing modes, the
    narrow bound the entry had before and a wide bound; in the default
    mode, a narrow bound and the wide bound the entry had before or, when
    it had none, the bound the variable was declared with. *)
Theorem assignment_moves_one_bound :
  forall destType srcType typeVarContext flags recursionCount,
    scopeIdIsFalsy (scopeId destType) = false ->
    TypeVarContext_.hasSolveForScope typeVarContext (scopeId destType)
    = true ->
    TypeVarContext_.isLocked typeVarContext = false ->
    AssignTypeFlags.has flags AssignTypeFlags.SkipSolveTypeVars = false ->
    isParamSpec destType = false ->
    constraints destType = [] ->
    isSynthesizedSelf destType && isSome (boundType destType) = false ->
    fst (assignTypeToTypeVar evaluator destType srcType typeVarContext
           flags recursionCount) = true ->
    exists narrow wide retain,
      TypeVarContext_.getTypeVar
        (snd (assignTypeToTypeVar evaluator destType srcType typeVarContext
                flags recursionCount)) destType
      = Some (mkTypeVarMapEntry destType narrow wide retain)
      /\ if AssignTypeFlags.has flags AssignTypeFlags.ReverseTypeVarMatching
            || AssignTypeFlags.has flags
                 AssignTypeFlags.AllowTypeVarNarrowing
         then narrow
              = match TypeVarContext_.getTypeVar typeVarContext destType
                with
                | Some entry => narrowBound entry
                | None => None
                end
              /\ wide <> None
         else wide
              = match
                  match TypeVarContext_.getTypeVar typeVarContext destType
                  with
                  | Some entry => wideBound entry
                  | None => None
                  end
                with
                | Some w => Some w
                | None => boundType destType
                end
              /\ narrow <> None.
Proof.
  intros dest src ctx flags rc Hscope Hsolve Hlocked Hskip Hparam
         Hconstraints Hself.
  unfold assignTypeToTypeVar, checkTypeVarScope.
  rewrite Hscope, Hsolve, Hskip, Hparam, Hconstraints. cbn [negb].
  cbn [List.length Nat.ltb Nat.leb].
  intros Hok.
  match goal with
  | |- context [assignUnconstrained _ _ ?s _ _ _ ?n ?w _] =>
      destruct (assignUnconstrained_outcome dest s ctx flags true n w rc
                  Hself) as [[Hfail _] | [_ (narrow & wide & Hctx & Hbounds)]]
  end.
  - rewrite Hfail in Hok. discriminate.
  - rewrite Hlocked in Hctx. cbn [negb andb] in Hctx.
    exists narrow, wide, (Some (retainLiteralsFor dest ctx flags)).
    split; [| exact Hbounds].
    rewrite Hctx. unfold TypeVarContext_.getTypeVar.
    apply setTypeVarType_lookup. exact Hlocked.
Qed.

(** X28.  With the expected type [Any],
    [populateTypeVarContextBasedOnExpectedType] succeeds and binds every
    type parameter of the class to [Any], leaving the entries of the
    other type variables as they were.  With an expected type that is
    neither [Any] nor a class it fails and leaves the context as it
    was. *)
Theorem populate_any_or_not_a_class :
  forall type typeVarContext liveTypeVarScopes,
    (exists populated,
        populateTypeVarContextBasedOnExpectedType evaluator type Any
          typeVarContext liveTypeVarScopes = Some (true, populated)
        /\ (TypeVarContext_.isLocked typeVarContext = false ->
            forall typeParam,
              In typeParam (typeParameters type) ->
              TypeVarContext_.getTypeVarType populated typeParam = Some Any)
        /\ (forall other,
               ~ In (TypeVarContext_.getKey other)
                   (map TypeVarContext_.getKey (typeParameters type)) ->
               TypeVarContext_.getTypeVar populated other
               = TypeVarContext_.getTypeVar typeVarContext other))
    /\ (forall expectedType,
           isAny expectedType = false ->
           isClass expectedType = false ->
           populateTypeVarContextBasedOnExpectedType evaluator type
             expectedType typeVarContext liveTypeVarScopes
           = Some (false, typeVarContext)).
Proof.
  intros type ctx live. split.
  - eexists. split; [reflexivity |].
    set (step := fun c typeParam =>
                   TypeVarContext_.setTypeVarType c typeParam (Some Any)
                     None None).
    assert (Htouch : touchesOnly _ step TypeVarContext_.getKey).
    { intros c x. apply setTypeVarType_touches. }
    split.
    + intros Hlocked typeParam Hin.
      assert (Hbound :
                forall l c,
                  locked c = false ->
                  In typeParam l ->
                  exists entry,
                    mapGet (TypeVarContext_.getKey typeParam)
                      (typeVarMap (fold_left step l c)) = Some entry
                    /\ narrowBound entry = Some Any).
      { assert (Hkeep :
                  forall l c,
                    (exists entry,
                        mapGet (TypeVarContext_.getKey typeParam)
                          (typeVarMap c) = Some entry
                        /\ narrowBound entry = Some Any) ->
                    exists entry,
                      mapGet (TypeVarContext_.getKey typeParam)
                        (typeVarMap (fold_left step l c)) = Some entry
                      /\ narrowBound entry = Some Any).
        { induction l as [| x r IH]; intros c Hc; [exact Hc |].
          simpl. apply IH.
          destruct (String.eqb (TypeVarContext_.getKey x)
                      (TypeVarContext_.getKey typeParam)) eqn:Hk.
          - apply String.eqb_eq in Hk. unfold step.
            unfold TypeVarContext_.setTypeVarType.
            destruct (locked c); [exact Hc |].
            cbn [typeVarMap]. rewrite Hk.
            rewrite mapGet_mapSet_same. eexists. split; reflexivity.
          - destruct Hc as (entry & Hget & Hnarrow). exists entry.
            split; [| exact Hnarrow].
            rewrite (proj2 (Htouch c x)); [exact Hget |].
            intros Heq. rewrite Heq, String.eqb_refl in Hk.
            discriminate. }
        induction l as [| x r IH]; intros c Hc Hl; [contradiction |].
        simpl. destruct Hl as [-> | Hl].
        - apply Hkeep. unfold step.
          rewrite (setTypeVarType_lookup c typeParam (Some Any) None None
                     Hc).
          eexists. split; reflexivity.
        - apply IH; [| exact Hl].
          rewrite (proj1 (Htouch c x)). exact Hc. }
      destruct (Hbound (typeParameters type) ctx Hlocked Hin)
        as (entry & Hget & Hnarrow).
      unfold TypeVarContext_.getTypeVarType, TypeVarContext_.getTypeVar.
      fold step. rewrite Hget, Hnarrow. reflexivity.
    + intros other Hother. unfold TypeVarContext_.getTypeVar.
      apply (fold_keeps_other_keys _ step TypeVarContext_.getKey Htouch).
      exact Hother.
  - intros expected Hany Hclass.
    destruct expected; try discriminate; reflexivity.
Qed.

End SolverBindings.

(** [P] of the function [f] is bound to [Q]; [Q] is then accepted again
    and the binding stays. *)
Lemma assignTypeToParamSpec_first_binding_wins_witness :
  TypeVarContext_.getParamSpec
    (snd (assignTypeToParamSpec Fixture.evaluator
            (SolverFixture.paramSpec "P" "f")
            (TypeVar (SolverFixture.paramSpec "Q" "g"))
            (Fixture.solvingFor "f") 0))
    (SolverFixture.paramSpec "P" "f")
  = Some (mkParamSpecValue 0 [] None None
            (Some (SolverFixture.paramSpec "Q" "g")))
  /\ assignTypeToParamSpec Fixture.evaluator
       (SolverFixture.paramSpec "P" "f")
       (TypeVar (SolverFixture.paramSpec "Q" "g"))
       (snd (assignTypeToParamSpec Fixture.evaluator
               (SolverFixture.paramSpec "P" "f")
               (TypeVar (SolverFixture.paramSpec "Q" "g"))
               (Fixture.solvingFor "f") 0)) 0
     = (isTypeSame (TypeVar (SolverFixture.paramSpec "Q" "g"))
          (TypeVar (SolverFixture.paramSpec "Q" "g")),
        snd (assignTypeToParamSpec Fixture.evaluator
               (SolverFixture.paramSpec "P" "f")
               (TypeVar (SolverFixture.paramSpec "Q" "g"))
               (Fixture.solvingFor "f") 0)).
Proof.
  destruct (assignTypeToParamSpec_first_binding_wins Fixture.evaluator
              (SolverFixture.paramSpec "P" "f") (Fixture.solvingFor "f") 0)
    as (_ & _ & Hfirst).
  destruct (Hfirst (SolverFixture.paramSpec "Q" "g")
              (SolverFixture.paramSpec "Q" "g") eq_refl eq_refl eq_refl
              eq_refl) as [Hfound Hagain].
  split; [exact Hfound | exact (Hagain eq_refl)].
Defined.

(** [int] is not a [Sequence[int]]: the assignment to [T] fails and the
    context is as before. *)
Lemma failed_assignment_leaves_context_witness :
  snd (assignTypeToTypeVar Fixture.evaluator Fixture.boundedBySequence
         Fixture.intType (Fixture.solvingFor "f") 0 0)
  = Fixture.solvingFor "f".
Proof.
  apply failed_assignment_leaves_context; reflexivity.
Defined.

(** The first assignment of [int] to [V] in the default mode. *)
Lemma assignment_moves_one_bound_witness :
  exists narrow wide retain,
    TypeVarContext_.getTypeVar
      (snd (assignTypeToTypeVar Fixture.evaluator Fixture.valueVariable
              Fixture.intType (Fixture.solvingFor "fn") 0 0))
      Fixture.valueVariable
    = Some (mkTypeVarMapEntry Fixture.valueVariable narrow wide retain)
    /\ wide = None /\ narrow <> None.
Proof.
  apply (assignment_moves_one_bound Fixture.evaluator Fixture.valueVariable
           Fixture.intType (Fixture.solvingFor "fn") 0 0);
    reflexivity.
Defined.

(** [Triple] against the expected type [Any]. *)
Lemma populate_any_or_not_a_class_witness :
  exists populated,
    populateTypeVarContextBasedOnExpectedType Fixture.evaluator
      Fixture.tripleClass Any (Fixture.solvingFor "Triple") None
    = Some (true, populated)
    /\ TypeVarContext_.getTypeVarType populated Fixture.covariantParameter
       = Some Any
    /\ populateTypeVarContextBasedOnExpectedType Fixture.evaluator
         Fixture.tripleClass Fixture.noneType (Fixture.solvingFor "Triple")
         None
       = Some (false, Fixture.solvingFor "Triple").
Proof.
  destruct (populate_any_or_not_a_class Fixture.evaluator
              Fixture.tripleClass (Fixture.solvingFor "Triple") None)
    as [(populated & Hpopulated & Hbound & _) Hother].
  exists populated. split; [exact Hpopulated |]. split.
  - apply Hbound; [reflexivity |]. simpl. left. reflexivity.
  - apply Hother; reflexivity.
Defined.


(** ** The innermost class or function *)

Section InnermostScope.
Import ParseTree.

Lemma not_two_types : forall t a b,
  a <> b -> nodeTypeIs t a = true -> nodeTypeIs t b = false.
Proof.
  intros t a b Hab Ha. apply nodeTypeIs_eq in Ha. subst t.
  destruct (nodeTypeIs a b) eqn:H; [| reflexivity].
  apply nodeTypeIs_eq in H. contradiction.
Qed.

Lemma class_before_function : forall curNode c,
  enclosingClassAt true curNode = Some c ->
  (forall prevNode, enclosingFunctionAt prevNode curNode = None)
  /\ enclosingClassOrFunctionAt curNode = Some c.
Proof.
  induction curNode as [node IH] using ParseNode_parent_ind.
  intros c H. destruct node as [t i n d p]. simpl in *.
  destruct (nodeTypeIs t NodeClass) eqn:Hclass.
  - assert (Hf : nodeTypeIs t NodeFunction = false)
      by (apply (not_two_types t NodeClass); [discriminate | exact Hclass]).
    rewrite Hf. simpl. split; [reflexivity | exact H].
  - destruct (nodeTypeIs t NodeModule); [discriminate |].
    destruct (nodeTypeIs t NodeFunction); [discriminate |].
    simpl in *. destruct p as [p |]; [| discriminate].
    destruct (IH p eq_refl c H) as [Hfunction Hboth].
    split; [intros prev; apply Hfunction | exact Hboth].
Qed.

Lemma function_before_class : forall curNode prevNode f,
  enclosingFunctionAt prevNode curNode = Some f ->
  enclosingClassAt true curNode = None
  /\ exists g,
      enclosingClassOrFunctionAt curNode = Some g
      /\ nodeType g = NodeFunction
      /\ getNodeDepth f <= getNodeDepth g.
Proof.
  induction curNode as [node IH] using ParseNode_parent_ind.
  intros prev f H. destruct node as [t i n d p]. simpl in *.
  destruct (nodeTypeIs t NodeFunction) eqn:Hfunction.
  - assert (Hc : nodeTypeIs t NodeClass = false)
      by (apply (not_two_types t NodeFunction);
          [discriminate | exact Hfunction]).
    assert (Hm : nodeTypeIs t NodeModule = false)
      by (apply (not_two_types t NodeFunction);
          [discriminate | exact Hfunction]).
    rewrite Hc, Hm in *. simpl in *. split; [reflexivity |].
    eexists. split; [reflexivity |]. simpl.
    split; [apply nodeTypeIs_eq; exact Hfunction |].
    destruct (negb (existsb (sameNode prev) d)).
    + inversion H. subst f. simpl. lia.
    + destruct p as [p |]; [| discriminate].
      destruct (enclosingFunctionAt_above _ _ _ H) as [_ Hdepth]. lia.
  - simpl in *.
    destruct (nodeTypeIs t NodeClass); [discriminate |].
    destruct p as [p |]; [| discriminate].
    destruct (IH p eq_refl _ f H) as (Hclass & g & Hg & Htype & Hdepth).
    split.
    + destruct (nodeTypeIs t NodeModule); [reflexivity | exact Hclass].
    + exists g. split; [exact Hg | split; [exact Htype | exact Hdepth]].
Qed.

(** X29.  A node is never reported both in a class and in a function:
    when [getEnclosingClass], asked to stop at functions, answers with a
    class, [getEnclosingFunction] answers with none and
    [getEnclosingClassOrFunction] with that class; when
    [getEnclosingFunction] answers with a function, [getEnclosingClass]
    asked to stop at functions answers with none, and
    [getEnclosingClassOrFunction] with a function that is that one or,
    for a node in a decorator, one below it. *)
Theorem innermost_class_or_function :
  forall node,
    (forall c,
        getEnclosingClass node true = Some c ->
        getEnclosingFunction node = None
        /\ getEnclosingClassOrFunction node = Some c)
    /\ (forall f,
           getEnclosingFunction node = Some f ->
           getEnclosingClass node true = None
           /\ exists g,
               getEnclosingClassOrFunction node = Some g
               /\ nodeType g = NodeFunction
               /\ getNodeDepth f <= getNodeDepth g).
Proof.
  intros node.
  unfold getEnclosingClass, getEnclosingFunction,
    getEnclosingClassOrFunction.
  destruct (parent node) as [p |]; [| split; intros; discriminate].
  split.
  - intros c H. destruct (class_before_function p c H) as [Hf Hboth].
    split; [apply Hf | exact Hboth].
  - intros f H. exact (function_before_class p None f H).
Qed.

End InnermostScope.

(** The method is in the class [Outer]; the class [Inner] is in the
    method. *)
Lemma innermost_class_or_function_witness :
  (ParseTree.getEnclosingFunction TreeFixture.method = None
   /\ ParseTree.getEnclosingClassOrFunction TreeFixture.method
      = Some TreeFixture.outerClass)
  /\ ParseTree.getEnclosingClass TreeFixture.innerClass true = None.
Proof.
  destruct (innermost_class_or_function TreeFixture.method) as [Hclass _].
  destruct (innermost_class_or_function TreeFixture.innerClass)
    as [_ Hfunction].
  split.
  - apply Hclass. reflexivity.
  - apply (proj1 (Hfunction TreeFixture.method eq_refl)).
Defined.
